(** * investool: the stock aggregate, its valuation and its Buffett score

    A shallow embedding of package [models]: the construction of a [Stock]
    from the answers of the data providers ([NewStock]), the "reasonable
    price" computation, the PEG ratio, the ten sub-scores of
    [calculateBuffettScore] and the two sort orders of [StockList]; and of
    the position calculators of package [routes].

    Go's [float64] is IEEE 754 binary64 with round-to-nearest-even; it is
    embedded as Rocq's primitive [float], which is the same format with the
    same rounding (all NaNs are identified).  None of the modelled
    expressions of package [models] has the shape [x*y + z], so no fused
    multiply-add can change a result there.  Line numbers refer to the file
    of package [models] unless package [routes] is named. *)

From Stdlib Require Import Floats ZArith List String Bool Lia.
From Stdlib Require Import Permutation Sorted.
Import ListNotations.

Set Implicit Arguments.
Set Warnings "-inexact-float".
Local Open Scope string_scope.

(** ** Control: a call either returns or panics

    Go dereferences [*FinaMainData] pointers that may be nil; a nil
    dereference is a run-time panic, and a panic inside a goroutine
    terminates the program.  [Panic] records that outcome. *)

Inductive outcome (A : Type) : Type :=
| Done (a : A)
| Panic (reason : string).
Arguments Done {A} a.
Arguments Panic {A} reason.

Definition bind {A B : Type} (c : outcome A) (k : A -> outcome B) : outcome B :=
  match c with
  | Done a => k a
  | Panic r => Panic r
  end.

Notation "x <- c ;; k" := (bind c (fun x => k))
  (at level 61, c at next level, right associativity).

(** [p.Field] on a pointer [p]. *)
Definition deref {A : Type} (p : option A) : outcome A :=
  match p with
  | Some a => Done a
  | None => Panic "invalid memory address or nil pointer dereference"
  end.

(** A provider query returns [(value, error)]; callers look at the value
    only when the error is nil. *)
Inductive resp (A : Type) : Type :=
| OK (a : A)
| Err (e : string).
Arguments OK {A} a.
Arguments Err {A} e.

(** [float64(n)] for a length or a counter. *)
Definition float64 (n : nat) : float :=
  PrimFloat.of_uint63 (Uint63.of_Z (Z.of_nat n)).

(** ** Package [math] of Go's standard library *)

Module math.
Local Open Scope float_scope.

Definition MaxFloat64 : float := 0x1.fffffffffffffp+1023.

(** [return f != f] *)
Definition IsNaN (f : float) : bool := negb (f =? f).

(** [return sign >= 0 && f > MaxFloat64 || sign <= 0 && f < -MaxFloat64] *)
Definition IsInf (f : float) (sign : Z) : bool :=
  ((0 <=? sign)%Z && (MaxFloat64 <? f)) || ((sign <=? 0)%Z && (f <? - MaxFloat64)).

Definition Signbit (x : float) : bool := get_sign x.
Definition Abs (x : float) : float := abs x.
Definition Sqrt (x : float) : float := sqrt x.

Definition Max (x y : float) : float :=
  if IsInf x 1 || IsInf y 1 then infinity
  else if IsNaN x || IsNaN y then nan
  else if (x =? 0) && (x =? y) then (if Signbit x then y else x)
  else if y <? x then x else y.

Definition Min (x y : float) : float :=
  if IsInf x (-1) || IsInf y (-1) then neg_infinity
  else if IsNaN x || IsNaN y then nan
  else if (x =? 0) && (x =? y) then (if Signbit x then x else y)
  else if x <? y then x else y.

(** [Pow(x, 2)], the portable [pow] with [y] fixed to 2: the special
    cases in the order of the [switch], then the loop over the bits of
    [yi = 2] on [x1, xe := Frexp(x)], unrolled (the guard against
    exponents beyond 2^12 never holds for a [float64]), and
    [Ldexp(a1, ae)]. *)
Definition Pow2 (x : float) : float :=
  if x =? 1 then 1
  else if IsNaN x then nan
  else if x =? 0 then 0
  else if IsInf x 0 then infinity
  else
    let '(x1, xe) := Z.frexp x in
    (* i = 2: the low bit is clear *)
    let x1 := x1 * x1 in
    let xe := Z.shiftl xe 1 in
    let '(x1, xe) := if x1 <? 0.5 then (x1 + x1, (xe - 1)%Z) else (x1, xe) in
    (* i = 1 *)
    let a1 := 1 * x1 in
    let ae := (0 + xe)%Z in
    Z.ldexp a1 ae.
End math.

(** ** Package [sort] of Go's standard library

    [sort.Slice(x, less)] sorts in place; the list after the call is given
    as a function of the list before it.  The algorithm differs between Go
    releases (quick sort with a Shell pass, then pattern-defeating quick
    sort); all of them sort a short slice by the same insertion sort,
    which is modelled, and beyond it the sort is a parameter [Sorter]
    constrained by what the package documents: the result is a
    rearrangement of the input which [SliceIsSorted] accepts, provided
    [less] is a strict weak ordering of the elements; "the sort is not
    guaranteed to be stable." *)

Module sort.
Definition Sorter : Type := forall A : Type, list A -> (A -> A -> bool) -> list A.

(** [for i := n - 1; i > 0; i-- { if less(i, i-1) { return false } }] *)
Fixpoint SliceIsSorted {A : Type} (x : list A) (less : A -> A -> bool) : bool :=
  match x with
  | a :: (b :: _) as t => negb (less b a) && SliceIsSorted t less
  | _ => true
  end.

(** The requirement on [less] (the [Less] method of [sort.Interface]),
    over the elements being sorted. *)
Definition ordering {A : Type} (less : A -> A -> bool) (x : list A) : Prop :=
  (forall a, In a x -> less a a = false) /\
  (forall a b c, In a x -> In b x -> In c x ->
     less a b = true -> less b c = true -> less a c = true) /\
  (forall a b c, In a x -> In b x -> In c x ->
     less a b = false -> less b c = false -> less a c = false).

Definition Slice_contract (srt : Sorter) : Prop :=
  forall (A : Type) (x : list A) (less : A -> A -> bool),
    Permutation x (srt A x less) /\
    (ordering less x -> SliceIsSorted (srt A x less) less = true).

(** [insertionSort_func(data, a, b)]:
    [for i := a + 1; i < b; i++ {
       for j := i; j > a && data.Less(j, j-1); j-- { data.Swap(j, j-1) } }].
    [sink] is the inner loop for the element [x] = [data[i]]: [before]
    holds [data[i-1], ..., data[a]], nearest first, and the result holds
    [data[i], ..., data[a]] once the loop has ended. *)
Fixpoint sink {A : Type} (less : A -> A -> bool) (x : A) (before : list A) : list A :=
  match before with
  | [] => [x]
  | y :: rest => if less x y then y :: sink less x rest else x :: y :: rest
  end.

Definition insertionSort {A : Type} (less : A -> A -> bool) (x : list A) : list A :=
  rev (fold_left (fun before a => sink less a before) x []).

(** [sort.Slice].  Every release of Go sorts a slice of at most six
    elements by [insertionSort_func] alone: [quickSort_func] (up to Go
    1.18) hands a range of at most twelve elements to a Shell pass of gap
    6, which has nothing to do below seven, and then to
    [insertionSort_func]; [pdqsort_func] (from Go 1.19 on) hands a range
    of at most twelve elements to [insertionSort_func].  What sorts a
    longer slice depends on the release: it is [beyond], taken by the
    documented contract. *)
Definition Slice (beyond : Sorter) : Sorter :=
  fun A x less =>
    if (List.length x <=? 6)%nat then insertionSort less x else beyond A x less.
Arguments Slice beyond A x less : clear implicits.

(** *** The two generations of [sort.Slice] on a slightly longer slice

    What precedes or replaces [insertionSort_func] differs between the
    releases: up to Go 1.18, [quickSort_func] makes a Shell pass of gap 6
    over a range of at most twelve elements; from Go 1.19 on,
    [pdqsort_func] partitions a range of thirteen elements once and sorts
    the two sides by insertion.  Both are written on indices, as the
    library has them; longer slices stay with [beyond]. *)

(** [data[i] = a] *)
Fixpoint store {A : Type} (x : list A) (i : nat) (a : A) : list A :=
  match x, i with
  | [], _ => []
  | _ :: t, O => a :: t
  | b :: t, S i' => b :: store t i' a
  end.

(** [data.Swap(i, j)] *)
Definition Swap {A : Type} (x : list A) (i j : nat) : list A :=
  match nth_error x i, nth_error x j with
  | Some a, Some b => store (store x i b) j a
  | _, _ => x
  end.

(** [data.Less(i, j)] *)
Definition Less {A : Type} (less : A -> A -> bool) (x : list A) (i j : nat) : bool :=
  match nth_error x i, nth_error x j with
  | Some a, Some b => less a b
  | _, _ => false
  end.

(** [quickSort_func(data, 0, n, maxDepth)] for [n <= 12], where its loop
    [for b-a > 12] is not entered:
    [if b-a > 1 {
       for i := a + 6; i < b; i++ {
         if data.Less(i, i-6) { data.Swap(i, i-6) } }
       insertionSort_func(data, a, b) }] *)
Definition quickSort_func (beyond : Sorter) : Sorter :=
  fun A x less =>
    let n := List.length x in
    if (n <=? 12)%nat then
      if (1 <? n)%nat then
        insertionSort less
          (fold_left
             (fun data i =>
                if Less less data i (i - 6) then Swap data i (i - 6) else data)
             (seq 6 (n - 6)) x)
      else x
    else beyond A x less.
Arguments quickSort_func beyond A x less : clear implicits.

(** [order2_func(data, a, b, swaps)] *)
Definition order2_func {A : Type} (less : A -> A -> bool) (x : list A)
    (a b swaps : nat) : nat * nat * nat :=
  if Less less x b a then (b, a, S swaps) else (a, b, swaps).

(** [median_func(data, a, b, c, swaps)] *)
Definition median_func {A : Type} (less : A -> A -> bool) (x : list A)
    (a b c swaps : nat) : nat * nat :=
  let '(a, b, swaps) := order2_func less x a b swaps in
  let '(b, c, swaps) := order2_func less x b c swaps in
  let '(a, b, swaps) := order2_func less x a b swaps in
  (b, swaps).

(** [choosePivot_func(data, a, b)] for [b - a < 50], below which the
    ninther is not used: the pivot and the number of swaps, 0 standing
    for [increasingHint] (twelve swaps, [decreasingHint], take the
    ninther). *)
Definition choosePivot_func {A : Type} (less : A -> A -> bool) (x : list A)
    (a b : nat) : nat * nat :=
  let l := b - a in
  let i := a + l / 4 * 1 in
  let j := a + l / 4 * 2 in
  let k := a + l / 4 * 3 in
  if (8 <=? l)%nat then median_func less x i j k 0 else (j, 0).

(** [partialInsertionSort_func(data, a, b)] for [b - a < 50], where it
    shifts nothing: [true] when no element is less than the one before
    it. *)
Definition partialInsertionSort_func {A : Type} (less : A -> A -> bool)
    (x : list A) (a b : nat) : bool :=
  forallb (fun i => negb (Less less x i (i - 1))) (seq (a + 1) (b - a - 1)).

(** The element at index [k] goes before the pivot [p], or does not. *)
Definition before {A : Type} (less : A -> A -> bool) (p : A) (x : list A)
    (k : nat) : Prop :=
  exists e, nth_error x k = Some e /\ less e p = true.
Definition notBefore {A : Type} (less : A -> A -> bool) (p : A) (x : list A)
    (k : nat) : Prop :=
  exists e, nth_error x k = Some e /\ less e p = false.

(** [for i <= j && data.Less(i, a) { i++ }] *)
Fixpoint scanUp {A : Type} (less : A -> A -> bool) (x : list A) (a j : nat)
    (fuel i : nat) : nat :=
  match fuel with
  | O => i
  | S fuel' =>
      if (i <=? j)%nat && Less less x i a then scanUp less x a j fuel' (S i) else i
  end.

(** [for i <= j && !data.Less(j, a) { j-- }] *)
Fixpoint scanDown {A : Type} (less : A -> A -> bool) (x : list A) (a i : nat)
    (fuel j : nat) : nat :=
  match fuel with
  | O => j
  | S fuel' =>
      if (i <=? j)%nat && negb (Less less x j a)
      then scanDown less x a i fuel' (j - 1) else j
  end.

(** The closing loop of [partition_func]:
    [for { (the two scans); if i > j { break };
           data.Swap(i, j); i++; j-- }] *)
Fixpoint exchange {A : Type} (less : A -> A -> bool) (fuel : nat) (x : list A)
    (a i j : nat) : list A * nat :=
  match fuel with
  | O => (x, j)
  | S fuel' =>
      let i := scanUp less x a j (List.length x) i in
      let j := scanDown less x a i (List.length x) j in
      if (j <? i)%nat then (x, j)
      else exchange less fuel' (Swap x i j) a (S i) (j - 1)
  end.

(** [partition_func(data, a, b, pivot)]: the slice, [newpivot] and
    [alreadyPartitioned]. *)
Definition partition_func {A : Type} (less : A -> A -> bool) (x : list A)
    (a b pivot : nat) : list A * nat * bool :=
  let x := Swap x a pivot in
  let i := scanUp less x a (b - 1) (List.length x) (a + 1) in
  let j := scanDown less x a i (List.length x) (b - 1) in
  if (j <? i)%nat then (Swap x j a, j, true)
  else
    let x := Swap x i j in
    let '(x, j) := exchange less (List.length x) x a (S i) (j - 1) in
    (Swap x j a, j, false).

(** [pdqsort_func(data, 0, n, bits.Len(n))] for [n <= 13].  With thirteen
    elements the limit is 4 and the first turn of the loop runs with
    [wasBalanced] and [wasPartitioned] set and [a = 0]: no heap sort, no
    [breakPatterns_func], no [partitionEqual_func]; after the partition
    both sides hold at most twelve elements, so the recursive call and
    the next turn of the loop are insertion sorts. *)
Definition pdqsort_func (beyond : Sorter) : Sorter :=
  fun A x less =>
    let n := List.length x in
    if (n <=? 12)%nat then insertionSort less x
    else if (n =? 13)%nat then
      let '(pivot, swaps) := choosePivot_func less x 0 n in
      if (swaps =? 0)%nat && partialInsertionSort_func less x 0 n then x
      else
        let '(data, mid, _) := partition_func less x 0 n pivot in
        (insertionSort less (firstn mid data)
         ++ firstn 1 (skipn mid data)
         ++ insertionSort less (skipn (S mid) data))%list
    else beyond A x less.
Arguments pdqsort_func beyond A x less : clear implicits.
End sort.

(** ** Package [eastmoney]: the types and methods [models] uses

    Structures of which [models] reads fields are records with those
    fields; the report type, the value kinds and the methods of the history
    types are the interface [API], so that every result below holds for
    whatever implementation the package provides. *)

Module eastmoney.

(** [StockInfo.NewPrice] is an [interface{}]: a [float64], or the string
    ["-"] while the market is closed. *)
Inductive any : Type :=
| AnyFloat (f : float)
| AnyString (s : string).

Record StockInfo : Type := {
  Secucode : string;
  SecurityCode : string;
  SecurityNameAbbr : string;
  Industry : string;
  NewPrice : any;
  PE : float;
  RoeWeight : float;
  NetprofitGrowthrate3Y : float
}.

Record GincomeData : Type := {
  OperateProfit : float;
  NonbusinessIncome : float;
  OpinionType : string
}.

Record CashflowData : Type := {
  NetcashOperate : float;
  NetcashInvest : float;
  NetcashFinance : float
}.

Record FinaPublishDate : Type := {
  AppointPublishDate : string;
  ActualPublishDate : string;
  ReportDate : string
}.

Class API : Type := {
  FinaReportType : Type;
  FinaReportTypeYear : FinaReportType;
  ValueListType : Type;
  ValueListTypeEPS : ValueListType;
  ValueListTypeROE : ValueListType;
  ValueListTypeNetProfit : ValueListType;
  (** one report of [HistoricalFinaMainData], with the fields read here *)
  FinaMainData : Type;
  OrgType : FinaMainData -> string;
  Epsjb : FinaMainData -> float;
  Zcfzl : FinaMainData -> float;
  (** methods of [HistoricalFinaMainData]; [GetReport] returns a pointer *)
  GetReport : list FinaMainData -> Z -> FinaReportType -> option FinaMainData;
  GetAvgRevenueIncreasingRatioByYear : list FinaMainData -> Z -> float;
  ValueList : list FinaMainData -> ValueListType -> Z -> FinaReportType -> list float;
  (** [HistoricalPEList] and its median *)
  HistoricalPEList : Type;
  HistoricalPEList_zero : HistoricalPEList;
  GetMidValue : HistoricalPEList -> resp float;
  (** sections that [models] stores and never inspects *)
  CompanyProfile : Type;
  CompanyProfile_zero : CompanyProfile;
  JZPG : Type;
  JZPG_zero : JZPG;
  OrgRating : Type;
  ProfitPredict : Type;
  FreeHolder : Type
}.
End eastmoney.

Module eniu.
(** [RespHistoricalStockPrice], with the field read by [GetPrice]. *)
Record RespHistoricalStockPrice : Type := {
  Price : list float
}.
Definition zero : RespHistoricalStockPrice := {| Price := [] |}.

Class API : Type := {
  HistoricalVolatility : RespHistoricalStockPrice -> string -> resp float
}.
End eniu.

Module zszx.
Class API : Type := {
  NetInflow : Type
}.
End zszx.

(** ** Package [datacenter]: the provider clients

    Every client is a network query keyed by the security; [Clients] is the
    set of answers one invocation of [NewStock] receives. *)

Module datacenter.
Section Clients.
Context {em : eastmoney.API} {zs : zszx.API}.

Record Clients : Type := {
  QueryHistoricalFinaMainData : string -> resp (list eastmoney.FinaMainData);
  QueryHistoricalPEList : string -> resp eastmoney.HistoricalPEList;
  QueryValuationStatus : string -> resp (list (string * string));
  QueryHistoricalStockPrice : string -> resp eniu.RespHistoricalStockPrice;
  QueryCompanyProfile : string -> resp eastmoney.CompanyProfile;
  QueryFinaPublishDateList : string -> resp (list eastmoney.FinaPublishDate);
  QueryOrgRating : string -> resp (list eastmoney.OrgRating);
  QueryProfitPredict : string -> resp (list eastmoney.ProfitPredict);
  QueryJiaZhiPingGu : string -> resp eastmoney.JZPG;
  QueryFinaGincomeData : string -> resp (list eastmoney.GincomeData);
  QueryFinaCashflowData : string -> resp (list eastmoney.CashflowData);
  QueryFreeHolders : string -> resp (list eastmoney.FreeHolder);
  QueryMainMoneyNetInflows : string -> string -> string -> resp (list zszx.NetInflow)
}.
End Clients.
Arguments Clients {em zs}.
End datacenter.

(** What [time.Now()] gives during the call: the year, today's date and the
    date 1440 hours earlier, both formatted ["2006-01-02"]. *)
Module time.
Record Now : Type := {
  Year : Z;
  today : string;
  daysAgo60 : string
}.
End time.

(** ** Package [models] *)

Module models.
Section Stock.
Context {em : eastmoney.API} {en : eniu.API} {zs : zszx.API}.
Local Open Scope float_scope.

(** [ScoreDescription], the text rendered from the numbers below, is left
    out. *)
Record BuffettScore : Type := {
  ROEScore : float;
  CashFlowScore : float;
  ProfitGrowthScore : float;
  DebtRatioScore : float;
  MoatScore : float;
  ManagementScore : float;
  ValuationScore : float;
  TotalScore : float;
  RDScore : float;
  DividendScore : float;
  RepurchaseScore : float
}.

Definition BuffettScore_zero : BuffettScore :=
  {| ROEScore := 0; CashFlowScore := 0; ProfitGrowthScore := 0;
     DebtRatioScore := 0; MoatScore := 0; ManagementScore := 0;
     ValuationScore := 0; TotalScore := 0; RDScore := 0;
     DividendScore := 0; RepurchaseScore := 0 |}.

Record Stock : Type := {
  BaseInfo : eastmoney.StockInfo;
  HistoricalFinaMainData : list eastmoney.FinaMainData;
  ValuationMap : list (string * string);
  HistoricalPEList : eastmoney.HistoricalPEList;
  RightPrice : float;
  PriceSpace : float;
  LastYearRightPrice : float;
  HistoricalPrice : eniu.RespHistoricalStockPrice;
  HistoricalVolatility : float;
  CompanyProfile : eastmoney.CompanyProfile;
  FinaAppointPublishDate : string;
  FinaActualPublishDate : string;
  FinaReportDate : string;
  OrgRatingList : list eastmoney.OrgRating;
  ProfitPredictList : list eastmoney.ProfitPredict;
  JZPG : eastmoney.JZPG;
  PEG : float;
  HistoricalGincomeList : list eastmoney.GincomeData;
  BYYSRatio : float;
  FinaReportOpinion : string;
  HistoricalCashflowList : list eastmoney.CashflowData;
  NetcashOperate : float;
  NetcashInvest : float;
  NetcashFinance : float;
  NetcashFree : float;
  FreeHoldersTop10 : list eastmoney.FreeHolder;
  MainMoneyNetInflows : list zszx.NetInflow;
  (* the field [BuffettScore], whose name the record type already has *)
  Score : BuffettScore
}.

(** [Stock{BaseInfo: baseInfo}]: every other field at its zero value. *)
Definition Stock_literal (baseInfo : eastmoney.StockInfo) : Stock :=
  {| BaseInfo := baseInfo;
     HistoricalFinaMainData := [];
     ValuationMap := [];
     HistoricalPEList := eastmoney.HistoricalPEList_zero;
     RightPrice := 0; PriceSpace := 0; LastYearRightPrice := 0;
     HistoricalPrice := eniu.zero;
     HistoricalVolatility := 0;
     CompanyProfile := eastmoney.CompanyProfile_zero;
     FinaAppointPublishDate := ""; FinaActualPublishDate := "";
     FinaReportDate := "";
     OrgRatingList := []; ProfitPredictList := [];
     JZPG := eastmoney.JZPG_zero;
     PEG := 0;
     HistoricalGincomeList := [];
     BYYSRatio := 0; FinaReportOpinion := "";
     HistoricalCashflowList := [];
     NetcashOperate := 0; NetcashInvest := 0; NetcashFinance := 0;
     NetcashFree := 0;
     FreeHoldersTop10 := []; MainMoneyNetInflows := [];
     Score := BuffettScore_zero |}.

(** [GetPrice] *)
Definition GetPrice (s : Stock) : float :=
  match eastmoney.NewPrice (BaseInfo s) with
  | eastmoney.AnyFloat p => p
  | eastmoney.AnyString _ =>
      if (List.length (eniu.Price (HistoricalPrice s)) =? 0)%nat then (-1)
      else last (eniu.Price (HistoricalPrice s)) (-1)
  end.

(** [GetOrgType] *)
Definition GetOrgType (s : Stock) : string :=
  match HistoricalFinaMainData s with
  | [] => ""
  | r :: _ => eastmoney.OrgType r
  end.

Definition StockList : Type := list Stock.

(** [SortByROE], [SortByPriceSpace]: [sort.Slice] with [less(i, j)] the
    comparison [s[i].key > s[j].key]; [beyond] is what the release of Go
    at hand does with more than six elements. *)
Definition SortByROE (beyond : sort.Sorter) (s : StockList) : StockList :=
  sort.Slice beyond Stock s (fun a b =>
    eastmoney.RoeWeight (BaseInfo b) <? eastmoney.RoeWeight (BaseInfo a)).

Definition SortByPriceSpace (beyond : sort.Sorter) (s : StockList) : StockList :=
  sort.Slice beyond Stock s (fun a b => PriceSpace b <? PriceSpace a).

(** *** [NewStock], lines 140-172: the PEG ratio *)
Definition computePEG (baseInfo : eastmoney.StockInfo) : float :=
  if eastmoney.NetprofitGrowthrate3Y baseInfo =? 0 then (-1)
  else if eastmoney.NetprofitGrowthrate3Y baseInfo <? 0 then (-1)
  else
    let peg := eastmoney.PE baseInfo / eastmoney.NetprofitGrowthrate3Y baseInfo in
    if math.IsNaN peg || math.IsInf peg 0 then (-1) else peg.

(** *** [NewStock], lines 176-291: fundamentals, PE history and the
    reasonable price *)

(** Lines 203-215: the two annual reports and the two growth rates the
    valuation works from; when last year's annual report is not out yet
    everything moves back one year. *)
Record Window : Type := {
  lastYearReport : option eastmoney.FinaMainData;
  beforeLastYearReport : option eastmoney.FinaMainData;
  thisYearAvgRevIncrRatio : float;
  lastYearAvgRevIncrRatio : float
}.

Definition reportWindow (hf : list eastmoney.FinaMainData) (thisYear : Z) : Window :=
  let lastYearReport :=
    eastmoney.GetReport hf (thisYear - 1) eastmoney.FinaReportTypeYear in
  let beforeLastYearReport :=
    eastmoney.GetReport hf (thisYear - 2) eastmoney.FinaReportTypeYear in
  let thisYearAvgRevIncrRatio :=
    eastmoney.GetAvgRevenueIncreasingRatioByYear hf thisYear in
  let lastYearAvgRevIncrRatio :=
    eastmoney.GetAvgRevenueIncreasingRatioByYear hf (thisYear - 1) in
  match lastYearReport with
  | None =>
      {| lastYearReport := beforeLastYearReport;
         beforeLastYearReport :=
           eastmoney.GetReport hf (thisYear - 3) eastmoney.FinaReportTypeYear;
         thisYearAvgRevIncrRatio :=
           eastmoney.GetAvgRevenueIncreasingRatioByYear hf (thisYear - 1);
         lastYearAvgRevIncrRatio :=
           eastmoney.GetAvgRevenueIncreasingRatioByYear hf (thisYear - 2) |}
  | Some _ =>
      {| lastYearReport := lastYearReport;
         beforeLastYearReport := beforeLastYearReport;
         thisYearAvgRevIncrRatio := thisYearAvgRevIncrRatio;
         lastYearAvgRevIncrRatio := lastYearAvgRevIncrRatio |}
  end.

Definition maxGrowthRate : float := 50.

(** What lines 223-290 compute.  The first four fields are the locals
    the closing [Debugf] prints (with [computed] the price of line 262,
    which the warning of line 283 prints when it is rejected); the last
    three are the fields of [Stock] the block assigns. *)
Record Valuation : Type := {
  baseEPS : float;
  adjustedGrowthRatio : float;
  explosiveGrowthAdjustment : float;
  computed : float;
  v_RightPrice : float;
  v_PriceSpace : float;
  v_LastYearRightPrice : float
}.

(** [sum := 0.0; for _, eps := range l { sum += eps }] *)
Definition sumFloat (l : list float) : float :=
  fold_left (fun sum eps => sum + eps) l 0.

(** [l[i]]; every use below is guarded by a length test. *)
Definition at_ (l : list float) (i : nat) : float := nth i l 0.

Definition rightPrice (peMidVal price : float)
    (thisYearAvgRevIncrRatio lastYearAvgRevIncrRatio : float)
    (epsHistory : list float)
    (lastYearReport beforeLastYearReport : option eastmoney.FinaMainData)
  : outcome Valuation :=
  (* 1 *)
  baseEPS <-
    (if (3 <=? List.length epsHistory)%nat
     then Done (sumFloat epsHistory / float64 (List.length epsHistory))
     else r <- deref lastYearReport ;; Done (eastmoney.Epsjb r)) ;;
  (* 2 *)
  let adjustedGrowthRatio :=
    if maxGrowthRate <? thisYearAvgRevIncrRatio then maxGrowthRate
    else thisYearAvgRevIncrRatio in
  (* 3 *)
  let explosiveGrowthAdjustment :=
    if (2 <=? List.length epsHistory)%nat then
      let lastYearGrowth :=
        (at_ epsHistory 0 - at_ epsHistory 1) / at_ epsHistory 1 * 100 in
      if 100 <? lastYearGrowth then 0.7 else 1
    else 1 in
  (* 4 *)
  let RightPrice :=
    peMidVal * (baseEPS * (1 + adjustedGrowthRatio / 100)) * explosiveGrowthAdjustment in
  let PriceSpace := (RightPrice - price) / price * 100 in
  (* 5 *)
  lastYearBaseEPS <-
    (if (3 <=? List.length epsHistory)%nat
     then Done ((at_ epsHistory 1 + at_ epsHistory 2) / 2)
     else r <- deref beforeLastYearReport ;; Done (eastmoney.Epsjb r)) ;;
  let lastYearAdjustedGrowthRatio :=
    if maxGrowthRate <? lastYearAvgRevIncrRatio then maxGrowthRate
    else lastYearAvgRevIncrRatio in
  let LastYearRightPrice :=
    peMidVal * (lastYearBaseEPS * (1 + lastYearAdjustedGrowthRatio / 100)) in
  (* 6 *)
  if math.IsNaN RightPrice || math.IsInf RightPrice 0 || (RightPrice <=? 0) then
    r <- deref lastYearReport ;;
    let RightPrice' := peMidVal * eastmoney.Epsjb r in
    Done {| baseEPS := baseEPS;
            adjustedGrowthRatio := adjustedGrowthRatio;
            explosiveGrowthAdjustment := explosiveGrowthAdjustment;
            computed := RightPrice;
            v_RightPrice := RightPrice';
            v_PriceSpace := (RightPrice' - price) / price * 100;
            v_LastYearRightPrice := LastYearRightPrice |}
  else
    Done {| baseEPS := baseEPS;
            adjustedGrowthRatio := adjustedGrowthRatio;
            explosiveGrowthAdjustment := explosiveGrowthAdjustment;
            computed := RightPrice;
            v_RightPrice := RightPrice;
            v_PriceSpace := PriceSpace;
            v_LastYearRightPrice := LastYearRightPrice |}.

(** The fields of [Stock] the first goroutine owns. *)
Record FinaSection : Type := {
  f_HistoricalFinaMainData : list eastmoney.FinaMainData;
  f_HistoricalPEList : eastmoney.HistoricalPEList;
  f_RightPrice : float;
  f_PriceSpace : float;
  f_LastYearRightPrice : float
}.

Definition finaTask (dc : datacenter.Clients) (now : time.Now)
    (baseInfo : eastmoney.StockInfo) (price : float) : outcome FinaSection :=
  let untouched hf pe :=
    {| f_HistoricalFinaMainData := hf; f_HistoricalPEList := pe;
       f_RightPrice := 0; f_PriceSpace := 0; f_LastYearRightPrice := 0 |} in
  match datacenter.QueryHistoricalFinaMainData dc (eastmoney.Secucode baseInfo) with
  | Err _ => Done (untouched [] eastmoney.HistoricalPEList_zero)
  | OK hf =>
    if (List.length hf =? 0)%nat
    then Done (untouched [] eastmoney.HistoricalPEList_zero)
    else
      match datacenter.QueryHistoricalPEList dc (eastmoney.Secucode baseInfo) with
      | Err _ => Done (untouched hf eastmoney.HistoricalPEList_zero)
      | OK peList =>
        let w := reportWindow hf (time.Year now) in
        match eastmoney.GetMidValue peList with
        | Err _ => Done (untouched hf peList)
        | OK peMidVal =>
          let epsHistory :=
            eastmoney.ValueList hf eastmoney.ValueListTypeEPS 3
              eastmoney.FinaReportTypeYear in
          v <- rightPrice peMidVal price
                 (thisYearAvgRevIncrRatio w) (lastYearAvgRevIncrRatio w)
                 epsHistory (lastYearReport w) (beforeLastYearReport w) ;;
          Done {| f_HistoricalFinaMainData := hf;
                  f_HistoricalPEList := peList;
                  f_RightPrice := v_RightPrice v;
                  f_PriceSpace := v_PriceSpace v;
                  f_LastYearRightPrice := v_LastYearRightPrice v |}
        end
      end
  end.

(** *** [NewStock], lines 293-457: the other goroutines

    Each goroutine writes fields no other goroutine touches and reads
    only [BaseInfo], so each is the function from the provider's answer
    to the values of its own fields after [wg.Wait()]. *)

Definition valuationTask (dc : datacenter.Clients) (baseInfo : eastmoney.StockInfo)
  : list (string * string) :=
  match datacenter.QueryValuationStatus dc (eastmoney.Secucode baseInfo) with
  | Err _ => []
  | OK valMap => valMap
  end.

Definition priceTask (dc : datacenter.Clients) (baseInfo : eastmoney.StockInfo)
  : eniu.RespHistoricalStockPrice * float :=
  match datacenter.QueryHistoricalStockPrice dc (eastmoney.Secucode baseInfo) with
  | Err _ => (eniu.zero, 0)
  | OK hisPrice =>
      match eniu.HistoricalVolatility hisPrice "YEAR" with
      | Err _ => (hisPrice, 0)
      | OK hv => (hisPrice, hv)
      end
  end.

Definition profileTask (dc : datacenter.Clients) (baseInfo : eastmoney.StockInfo)
  : eastmoney.CompanyProfile :=
  match datacenter.QueryCompanyProfile dc (eastmoney.Secucode baseInfo) with
  | Err _ => eastmoney.CompanyProfile_zero
  | OK cp => cp
  end.

Definition publishDateTask (dc : datacenter.Clients) (baseInfo : eastmoney.StockInfo)
  : string * string * string :=
  match datacenter.QueryFinaPublishDateList dc (eastmoney.SecurityCode baseInfo) with
  | Err _ => ("", "", "")
  | OK finaPubDateList =>
      match finaPubDateList with
      | d :: _ => (eastmoney.AppointPublishDate d,
                   eastmoney.ActualPublishDate d,
                   eastmoney.ReportDate d)
      | [] => ("", "", "")
      end
  end.

Definition orgRatingTask (dc : datacenter.Clients) (baseInfo : eastmoney.StockInfo)
  : list eastmoney.OrgRating :=
  match datacenter.QueryOrgRating dc (eastmoney.Secucode baseInfo) with
  | Err _ => []
  | OK orgRatings => orgRatings
  end.

Definition profitPredictTask (dc : datacenter.Clients) (baseInfo : eastmoney.StockInfo)
  : list eastmoney.ProfitPredict :=
  match datacenter.QueryProfitPredict dc (eastmoney.Secucode baseInfo) with
  | Err _ => []
  | OK pps => pps
  end.

Definition jzpgTask (dc : datacenter.Clients) (baseInfo : eastmoney.StockInfo)
  : eastmoney.JZPG :=
  match datacenter.QueryJiaZhiPingGu dc (eastmoney.Secucode baseInfo) with
  | Err _ => eastmoney.JZPG_zero
  | OK jzpg => jzpg
  end.

(** income statements: the list, [BYYSRatio], [FinaReportOpinion] *)
Definition gincomeTask (dc : datacenter.Clients) (baseInfo : eastmoney.StockInfo)
  : list eastmoney.GincomeData * float * string :=
  match datacenter.QueryFinaGincomeData dc (eastmoney.Secucode baseInfo) with
  | Err _ => ([], 0, "")
  | OK gincomeList =>
      match gincomeList with
      | gincome :: _ =>
          (gincomeList,
           eastmoney.OperateProfit gincome /
             (eastmoney.OperateProfit gincome + eastmoney.NonbusinessIncome gincome),
           eastmoney.OpinionType gincome)
      | [] => (gincomeList, 0, "")
      end
  end.

(** The fields of [Stock] the cash-flow goroutine owns. *)
Record CashSection : Type := {
  c_HistoricalCashflowList : list eastmoney.CashflowData;
  c_NetcashOperate : float;
  c_NetcashInvest : float;
  c_NetcashFinance : float;
  c_NetcashFree : float
}.

Definition cashflowTask (dc : datacenter.Clients) (baseInfo : eastmoney.StockInfo)
  : CashSection :=
  match datacenter.QueryFinaCashflowData dc (eastmoney.Secucode baseInfo) with
  | Err _ =>
      {| c_HistoricalCashflowList := []; c_NetcashOperate := 0;
         c_NetcashInvest := 0; c_NetcashFinance := 0; c_NetcashFree := 0 |}
  | OK cashflow =>
      match cashflow with
      | cf :: _ =>
          let NetcashOperate := eastmoney.NetcashOperate cf in
          let NetcashInvest := eastmoney.NetcashInvest cf in
          {| c_HistoricalCashflowList := cashflow;
             c_NetcashOperate := NetcashOperate;
             c_NetcashInvest := NetcashInvest;
             c_NetcashFinance := eastmoney.NetcashFinance cf;
             c_NetcashFree :=
               if eastmoney.NetcashInvest cf <? 0
               then NetcashOperate + NetcashInvest
               else NetcashOperate - NetcashInvest |}
      | [] =>
          {| c_HistoricalCashflowList := cashflow; c_NetcashOperate := 0;
             c_NetcashInvest := 0; c_NetcashFinance := 0; c_NetcashFree := 0 |}
      end
  end.

Definition holdersTask (dc : datacenter.Clients) (baseInfo : eastmoney.StockInfo)
  : list eastmoney.FreeHolder :=
  match datacenter.QueryFreeHolders dc (eastmoney.Secucode baseInfo) with
  | Err _ => []
  | OK holders => holders
  end.

Definition inflowTask (dc : datacenter.Clients) (now : time.Now)
    (baseInfo : eastmoney.StockInfo) : list zszx.NetInflow :=
  match datacenter.QueryMainMoneyNetInflows dc (eastmoney.Secucode baseInfo)
          (time.daysAgo60 now) (time.today now) with
  | Err _ => []
  | OK inflows => inflows
  end.

(** *** The Buffett score

    Each [calculate...Score] method assigns one field of
    [s.BuffettScore] and reads none of them; it is given as the value
    it assigns. *)

Definition calculateROEScore (s : Stock) : float :=
  let roeList :=
    eastmoney.ValueList (HistoricalFinaMainData s) eastmoney.ValueListTypeROE 5
      eastmoney.FinaReportTypeYear in
  if (List.length roeList =? 0)%nat then 0
  else if (List.length roeList <? 5)%nat then 0
  else
    let sumROE := fold_left (fun sumROE roe => sumROE + roe) roeList 0 in
    let avgROE := sumROE / float64 (List.length roeList) in
    let variance :=
      fold_left (fun variance roe => variance + math.Pow2 (roe - avgROE)) roeList 0 in
    let volatility :=
      math.Sqrt (variance / float64 (List.length roeList)) / avgROE in
    let score :=
      if 20 <=? avgROE then 20
      else if 15 <=? avgROE then 15
      else (avgROE / 15) * 15 in
    if 0.3 <? volatility then score * 0.8 else score.

Definition calculateCashFlowScore (s : Stock) : float :=
  if (List.length (HistoricalCashflowList s) <? 3)%nat then 0
  else
    let positiveCount :=
      List.length
        (filter (fun cf => 0 <? eastmoney.NetcashOperate cf)
                (firstn 3 (HistoricalCashflowList s))) in
    match positiveCount with
    | 3%nat => 15
    | 2%nat => 10
    | 1%nat => 5
    | _ => 0
    end.

(** The loop of [calculateProfitGrowthScore], over [i = 0 .. len-2]:
    the pair [(growthCount, volatilitySum)]. *)
Definition profitGrowthLoop (profitList : list float) : nat * float :=
  fold_left
    (fun '(growthCount, volatilitySum) i =>
       let growthCount :=
         if at_ profitList (i + 1) <? at_ profitList i
         then S growthCount else growthCount in
       let volatilitySum :=
         if (0 <? i)%nat then
           let growth1 :=
             (at_ profitList i - at_ profitList (i + 1))
             / math.Abs (at_ profitList (i + 1)) in
           let growth2 :=
             (at_ profitList (i - 1) - at_ profitList i)
             / math.Abs (at_ profitList i) in
           volatilitySum + math.Abs (growth1 - growth2)
         else volatilitySum in
       (growthCount, volatilitySum))
    (seq 0 (List.length profitList - 1)) (0%nat, 0).

Definition calculateProfitGrowthScore (s : Stock) : float :=
  if (List.length (HistoricalFinaMainData s) <? 5)%nat then 0
  else
    let profitList :=
      eastmoney.ValueList (HistoricalFinaMainData s)
        eastmoney.ValueListTypeNetProfit 5 eastmoney.FinaReportTypeYear in
    if (List.length profitList <? 5)%nat then 0
    else
      let '(growthCount, volatilitySum) := profitGrowthLoop profitList in
      let score := float64 growthCount * 3 in
      if 0.5 <? volatilitySum then score * 0.8 else score.

Definition calculateDebtRatioScore (s : Stock) : float :=
  match HistoricalFinaMainData s with
  | [] => 0
  | latest :: _ =>
      let debtRatio := eastmoney.Zcfzl latest in
      if debtRatio <? 30 then 10
      else if debtRatio <? 50 then 8
      else if debtRatio <? 70 then 5
      else 0
  end.

Definition calculateValuationScore (s : Stock) : float :=
  let score :=
    if eastmoney.PE (BaseInfo s) <? 10 then 15
    else if eastmoney.PE (BaseInfo s) <? 15 then 12
    else if eastmoney.PE (BaseInfo s) <? 20 then 8
    else if eastmoney.PE (BaseInfo s) <? 30 then 5
    else 0 in
  if (0 <? PEG s) && (PEG s <? 1) then math.Max score 15 else score.

Definition calculateMoatScore (s : Stock) : float :=
  let industry := eastmoney.Industry (BaseInfo s) in
  let score :=
    if existsb (String.eqb industry)
         ["食品饮料"; "医药生物"; "家用电器"; "银行"; "保险"] then 8
    else if existsb (String.eqb industry) ["建筑"; "采掘"; "农林牧渔"] then 3
    else 5 in
  math.Min 10 score.

Definition calculateManagementScore (s : Stock) : float :=
  let score := 5 in
  let score :=
    if (3 <=? List.length (HistoricalFinaMainData s))%nat then 7.5 else score in
  let score := 7.5 in
  math.Min 10 score.

Definition calculateRDScore (s : Stock) : float := 5.
Definition calculateDividendScore (s : Stock) : float := 5.
Definition calculateRepurchaseScore (s : Stock) : float := 5.

Definition calculateBuffettScore (s : Stock) : BuffettScore :=
  let roe := calculateROEScore s in
  let cashFlow := calculateCashFlowScore s in
  let profitGrowth := calculateProfitGrowthScore s in
  let debtRatio := calculateDebtRatioScore s in
  let moat := calculateMoatScore s in
  let management := calculateManagementScore s in
  let valuation := calculateValuationScore s in
  let rd := calculateRDScore s in
  let dividend := calculateDividendScore s in
  let repurchase := calculateRepurchaseScore s in
  let totalScore :=
    roe + cashFlow + profitGrowth + debtRatio + moat + management
    + valuation + rd + dividend + repurchase in
  {| ROEScore := roe; CashFlowScore := cashFlow;
     ProfitGrowthScore := profitGrowth; DebtRatioScore := debtRatio;
     MoatScore := moat; ManagementScore := management;
     ValuationScore := valuation; TotalScore := totalScore;
     RDScore := rd; DividendScore := dividend;
     RepurchaseScore := repurchase |}.

(** *** [NewStock] *)

(** [s.BuffettScore = score] *)
Definition withScore (s : Stock) (score : BuffettScore) : Stock :=
  {| BaseInfo := BaseInfo s;
     HistoricalFinaMainData := HistoricalFinaMainData s;
     ValuationMap := ValuationMap s;
     HistoricalPEList := HistoricalPEList s;
     RightPrice := RightPrice s; PriceSpace := PriceSpace s;
     LastYearRightPrice := LastYearRightPrice s;
     HistoricalPrice := HistoricalPrice s;
     HistoricalVolatility := HistoricalVolatility s;
     CompanyProfile := CompanyProfile s;
     FinaAppointPublishDate := FinaAppointPublishDate s;
     FinaActualPublishDate := FinaActualPublishDate s;
     FinaReportDate := FinaReportDate s;
     OrgRatingList := OrgRatingList s;
     ProfitPredictList := ProfitPredictList s;
     JZPG := JZPG s;
     PEG := PEG s;
     HistoricalGincomeList := HistoricalGincomeList s;
     BYYSRatio := BYYSRatio s; FinaReportOpinion := FinaReportOpinion s;
     HistoricalCashflowList := HistoricalCashflowList s;
     NetcashOperate := NetcashOperate s; NetcashInvest := NetcashInvest s;
     NetcashFinance := NetcashFinance s; NetcashFree := NetcashFree s;
     FreeHoldersTop10 := FreeHoldersTop10 s;
     MainMoneyNetInflows := MainMoneyNetInflows s;
     Score := score |}.

(** The call returns [(s, nil)] when it returns: [snd] of the result is
    the error, [None] for [nil]. *)
Definition NewStock (dc : datacenter.Clients) (now : time.Now)
    (baseInfo : eastmoney.StockInfo) : outcome (Stock * option string) :=
  let s := Stock_literal baseInfo in
  let peg := computePEG baseInfo in
  let price := GetPrice s in
  fina <- finaTask dc now baseInfo price ;;
  let valMap := valuationTask dc baseInfo in
  let '(hisPrice, hv) := priceTask dc baseInfo in
  let cp := profileTask dc baseInfo in
  let '(appoint, actual, reportDate) := publishDateTask dc baseInfo in
  let orgRatings := orgRatingTask dc baseInfo in
  let pps := profitPredictTask dc baseInfo in
  let jzpg := jzpgTask dc baseInfo in
  let '(gincomeList, byys, opinion) := gincomeTask dc baseInfo in
  let cash := cashflowTask dc baseInfo in
  let holders := holdersTask dc baseInfo in
  let inflows := inflowTask dc now baseInfo in
  (* wg.Wait() *)
  let s :=
    {| BaseInfo := baseInfo;
       HistoricalFinaMainData := f_HistoricalFinaMainData fina;
       ValuationMap := valMap;
       HistoricalPEList := f_HistoricalPEList fina;
       RightPrice := f_RightPrice fina; PriceSpace := f_PriceSpace fina;
       LastYearRightPrice := f_LastYearRightPrice fina;
       HistoricalPrice := hisPrice;
       HistoricalVolatility := hv;
       CompanyProfile := cp;
       FinaAppointPublishDate := appoint;
       FinaActualPublishDate := actual;
       FinaReportDate := reportDate;
       OrgRatingList := orgRatings;
       ProfitPredictList := pps;
       JZPG := jzpg;
       PEG := peg;
       HistoricalGincomeList := gincomeList;
       BYYSRatio := byys; FinaReportOpinion := opinion;
       HistoricalCashflowList := c_HistoricalCashflowList cash;
       NetcashOperate := c_NetcashOperate cash;
       NetcashInvest := c_NetcashInvest cash;
       NetcashFinance := c_NetcashFinance cash;
       NetcashFree := c_NetcashFree cash;
       FreeHoldersTop10 := holders;
       MainMoneyNetInflows := inflows;
       Score := BuffettScore_zero |} in
  Done (withScore s (calculateBuffettScore s), None).

(** *** Vocabulary for the statements *)

(** The valuation has its inputs: a non-empty fundamentals history
    [hf], the PE history [pe] and the median [mid] of the latter. *)
Definition fetched (dc : datacenter.Clients) (baseInfo : eastmoney.StockInfo)
    (hf : list eastmoney.FinaMainData) (pe : eastmoney.HistoricalPEList)
    (mid : float) : Prop :=
  datacenter.QueryHistoricalFinaMainData dc (eastmoney.Secucode baseInfo) = OK hf /\
  hf <> [] /\
  datacenter.QueryHistoricalPEList dc (eastmoney.Secucode baseInfo) = OK pe /\
  eastmoney.GetMidValue pe = OK mid.

(** The annual earnings per share the valuation reads, newest first. *)
Definition epsHistory (hf : list eastmoney.FinaMainData) : list float :=
  eastmoney.ValueList hf eastmoney.ValueListTypeEPS 3 eastmoney.FinaReportTypeYear.

(** The price [NewStock] takes as current: [s.GetPrice()] on the fresh
    literal. *)
Definition currentPrice (baseInfo : eastmoney.StockInfo) : float :=
  GetPrice (Stock_literal baseInfo).
End Stock.
End models.

(** ** A concrete [eastmoney] for running the model

    The reports carry what the history methods need: the fiscal year, the
    kind of report and the listed figures, newest report first. *)

Module Demo.
Local Open Scope float_scope.

Inductive ReportType : Type := Q1 | Mid | Q3 | Annual.
Inductive ValueKind : Type := EPS | ROE | NetProfit.

Record Report : Type := {
  year : Z;
  kind : ReportType;
  epsjb : float;
  roejq : float;
  zcfzl : float;
  netprofit : float;
  revenueGrowth : float;
  orgType : string
}.

Definition kind_eqb (a b : ReportType) : bool :=
  match a, b with
  | Q1, Q1 | Mid, Mid | Q3, Q3 | Annual, Annual => true
  | _, _ => false
  end.

(** Modelled from the spec: [GetReport], missing from the sources, is
    "resolve the most recent full-year report and the one before it":
    the report of the given year and kind, nil when the history has
    none. *)
Definition GetReport (h : list Report) (y : Z) (t : ReportType) : option Report :=
  find (fun r => (year r =? y)%Z && kind_eqb (kind r) t) h.

Definition valueOf (v : ValueKind) (r : Report) : float :=
  match v with
  | EPS => epsjb r
  | ROE => roejq r
  | NetProfit => netprofit r
  end.

(** Modelled from the spec: [ValueList], missing from the sources, gives
    "the three most recent annual EPS values", "5 years of
    return-on-equity data", "5 years of net-profit data": the requested
    figure of the first [count] reports of the requested kind, the
    history being "ordered newest-first by reporting period". *)
Definition ValueList (h : list Report) (v : ValueKind) (count : Z) (t : ReportType)
  : list float :=
  map (valueOf v) (firstn (Z.to_nat count) (filter (fun r => kind_eqb (kind r) t) h)).

(** Modelled from the spec: [GetAvgRevenueIncreasingRatioByYear], missing
    from the sources, is "the average year-over-year revenue growth rate
    for the current fiscal year": the mean of the growth figures of that
    year's reports, 0 when there are none. *)
Definition GetAvgRevenueIncreasingRatioByYear (h : list Report) (y : Z) : float :=
  let values := map revenueGrowth (filter (fun r => (year r =? y)%Z) h) in
  match values with
  | [] => 0
  | _ => fold_left (fun a b => a + b) values 0 / float64 (List.length values)
  end.

Fixpoint insertAsc (a : float) (l : list float) : list float :=
  match l with
  | [] => [a]
  | b :: t => if a <=? b then a :: l else b :: insertAsc a t
  end.

(** Modelled from the spec: [GetMidValue], missing from the sources, is
    "the median of the historical PE-ratio series": the middle value of
    the sorted series (the mean of the two middle values for an even
    length), an error for an empty series. *)
Definition GetMidValue (pe : list float) : resp float :=
  let sorted := fold_right insertAsc [] pe in
  let n := List.length sorted in
  match n with
  | O => Err "no data"
  | _ =>
      if Nat.even n
      then OK ((nth (n / 2 - 1) sorted 0 + nth (n / 2) sorted 0) / 2)
      else OK (nth (n / 2) sorted 0)
  end.

#[export] Instance em : eastmoney.API := {|
  eastmoney.FinaReportType := ReportType;
  eastmoney.FinaReportTypeYear := Annual;
  eastmoney.ValueListType := ValueKind;
  eastmoney.ValueListTypeEPS := EPS;
  eastmoney.ValueListTypeROE := ROE;
  eastmoney.ValueListTypeNetProfit := NetProfit;
  eastmoney.FinaMainData := Report;
  eastmoney.OrgType := orgType;
  eastmoney.Epsjb := epsjb;
  eastmoney.Zcfzl := zcfzl;
  eastmoney.GetReport := GetReport;
  eastmoney.GetAvgRevenueIncreasingRatioByYear := GetAvgRevenueIncreasingRatioByYear;
  eastmoney.ValueList := ValueList;
  eastmoney.HistoricalPEList := list float;
  eastmoney.HistoricalPEList_zero := [];
  eastmoney.GetMidValue := GetMidValue;
  eastmoney.CompanyProfile := string;
  eastmoney.CompanyProfile_zero := "";
  eastmoney.JZPG := string;
  eastmoney.JZPG_zero := "";
  eastmoney.OrgRating := string;
  eastmoney.ProfitPredict := string;
  eastmoney.FreeHolder := string
|}.

#[export] Instance en : eniu.API := {|
  eniu.HistoricalVolatility := fun _ _ => OK 0.25
|}.

#[export] Instance zs : zszx.API := {|
  zszx.NetInflow := float
|}.

(** An annual report of [y] with earnings per share [e], return on equity
    [r] and revenue growth [g]. *)
Definition annual (y : Z) (e r g : float) : Report :=
  {| year := y; kind := Annual; epsjb := e; roejq := r; zcfzl := 40;
     netprofit := e * 1000000; revenueGrowth := g; orgType := "4" |}.

(** The answers of one invocation: fundamentals [hf], PE series [pe],
    cash flows [cash]; every other provider answers with an empty
    section. *)
Definition clients (hf : resp (list Report)) (pe : resp (list float))
    (cash : resp (list eastmoney.CashflowData)) : datacenter.Clients :=
  {| datacenter.QueryHistoricalFinaMainData := fun _ => hf;
     datacenter.QueryHistoricalPEList := fun _ => pe;
     datacenter.QueryValuationStatus := fun _ => OK [];
     datacenter.QueryHistoricalStockPrice := fun _ => OK eniu.zero;
     datacenter.QueryCompanyProfile := fun _ => OK "profile";
     datacenter.QueryFinaPublishDateList := fun _ => OK [];
     datacenter.QueryOrgRating := fun _ => OK [];
     datacenter.QueryProfitPredict := fun _ => OK [];
     datacenter.QueryJiaZhiPingGu := fun _ => OK "jzpg";
     datacenter.QueryFinaGincomeData := fun _ => OK [];
     datacenter.QueryFinaCashflowData := fun _ => cash;
     datacenter.QueryFreeHolders := fun _ => OK [];
     datacenter.QueryMainMoneyNetInflows := fun _ _ _ => OK [] |}.

Definition now : time.Now :=
  {| time.Year := 2026; time.today := "2026-10-30"; time.daysAgo60 := "2026-08-31" |}.

(** A security quoted at [price] with price/earnings [pe], three-year
    profit growth [g] and profitability weight [roe]. *)
Definition info (name : string) (price pe g roe : float) : eastmoney.StockInfo :=
  {| eastmoney.Secucode := name; eastmoney.SecurityCode := name;
     eastmoney.SecurityNameAbbr := name; eastmoney.Industry := "银行";
     eastmoney.NewPrice := eastmoney.AnyFloat price;
     eastmoney.PE := pe; eastmoney.RoeWeight := roe;
     eastmoney.NetprofitGrowthrate3Y := g |}.
End Demo.

(** ** The formulas of the specification

    The specification states them over the reals; here they are over
    [float64], products grouped as [median * (base * (1 + g/100)) * m]. *)

Module Spec.
Local Open Scope float_scope.

(** "the arithmetic mean" *)
Definition mean (l : list float) : float :=
  fold_left (fun a b => a + b) l 0 / float64 (List.length l).

(** "cap it at 50%" *)
Definition capped (g : float) : float := if 50 <? g then 50 else g.

(** The growth test as lines 252-253 compute it, the difference over the
    prior value; for a positive prior value it is "EPS grew more than 100%
    year-over-year in the most recent annual period (relative to the
    prior period)". *)
Definition explosive (eps : list float) : bool :=
  match eps with
  | latest :: prior :: _ => 100 <? (latest - prior) / prior * 100
  | _ => false
  end.

Definition multiplier (eps : list float) : float :=
  if explosive eps then 0.7 else 1.

(** "median PE x base EPS x (1 + capped growth rate) x explosive-growth
    multiplier" *)
Definition reasonablePrice (medianPE baseEPS g m : float) : float :=
  medianPE * (baseEPS * (1 + capped g / 100)) * m.

(** "(reasonable price - current price) / current price x 100" *)
Definition priceGap (reasonable current : float) : float :=
  (reasonable - current) / current * 100.

(** neither "non-finite (not-a-number or infinite)" nor "non-positive" *)
Definition valid (p : float) : bool :=
  negb (math.IsNaN p || math.IsInf p 0 || (p <=? 0)).

(** Two [float64] denote the same number: [x == y], or both are NaN. *)
Definition same (x y : float) : bool :=
  (x =? y) || (math.IsNaN x && math.IsNaN y).

(** The prior-year price as "steps 1-4 shifted one year earlier": the
    base is the mean of the three annual EPS values that follow the most
    recent one in [annualEps] (newest first). *)
Definition priorYearPrice (medianPE : float) (annualEps : list float)
    (priorGrowth : float) : float :=
  medianPE * (mean (firstn 3 (skipn 1 annualEps)) * (1 + capped priorGrowth / 100)).

(** Descending order of [key], each element against all later ones. *)
Definition descending {A : Type} (key : A -> float) (l : list A) : Prop :=
  StronglySorted (fun a b => (key b <=? key a) = true) l.

(** Stability: the elements of any one key keep their order. *)
Definition stable {A : Type} (key : A -> float) (before after : list A) : Prop :=
  forall k : float,
    filter (fun a => key a =? k) after = filter (fun a => key a =? k) before.
End Spec.

(** ** Concrete invocations *)

Module Examples.
Import Demo.
Local Open Scope float_scope.

(** The third-quarter report of [y], revenue up [g] percent. *)
Definition quarter (y : Z) (g : float) : Report :=
  {| year := y; kind := Q3; epsjb := 0.5; roejq := 4; zcfzl := 40;
     netprofit := 500000; revenueGrowth := g; orgType := "4" |}.

(** Earnings per share 2.0, 1.0, 0.8, 0.2 for 2025 down to 2022. *)
Definition growing : list Report :=
  [quarter 2026 10; annual 2025 2.0 12 8; annual 2024 1.0 11 5;
   annual 2023 0.8 10 5; annual 2022 0.2 9 5].

(** Five years of losses: earnings per share -1, return on equity -10. *)
Definition losing : list Report :=
  [quarter 2026 10; annual 2025 (-1) (-10) 5; annual 2024 (-1) (-10) 5;
   annual 2023 (-1) (-10) 5; annual 2022 (-1) (-10) 5;
   annual 2021 (-1) (-10) 5].

(** Listed last year: one annual report. *)
Definition young : list Report :=
  [quarter 2026 10; annual 2025 1 10 5].

Definition cashflows : list eastmoney.CashflowData :=
  [ {| eastmoney.NetcashOperate := 120; eastmoney.NetcashInvest := -45;
       eastmoney.NetcashFinance := 7 |};
    {| eastmoney.NetcashOperate := 90; eastmoney.NetcashInvest := 30;
       eastmoney.NetcashFinance := -3 |} ].

Definition bank : eastmoney.StockInfo := info "600000.SH" 25 12 20 10.

(** Earnings per share tripled in 2025. *)
Definition surging : list Report :=
  [quarter 2026 10; annual 2025 3 12 8; annual 2024 1 11 5;
   annual 2023 1 10 5].

(** Every provider answers; the PE series has median 15. *)
Definition dc (hf : list Report) : datacenter.Clients :=
  clients (OK hf) (OK [15; 14; 20]) (OK cashflows).

Definition run (hf : list Report) : outcome (models.Stock * option string) :=
  models.NewStock (dc hf) now bank.

(** The stock a run returned ([models.Stock_literal] if it panicked). *)
Definition returned (o : outcome (models.Stock * option string)) : models.Stock :=
  match o with
  | Done (s, _) => s
  | Panic _ => models.Stock_literal bank
  end.

(** Two securities with the same profitability weight and the same price
    gap, and a third one. *)
Definition tied1 : models.Stock := models.Stock_literal (info "000001.SZ" 10 8 20 15).
Definition tied2 : models.Stock := models.Stock_literal (info "000002.SZ" 11 9 25 15).
Definition other : models.Stock := returned (run growing).

(** The latest annual report is three years old; losses in each year. *)
Definition stale : list Report :=
  [annual 2023 (-1) (-10) 5; annual 2022 (-1) (-10) 5; annual 2021 (-1) (-10) 5].

(** A loss of 1 per share in 2024 deepened to 3 in 2025. *)
Definition slumping : list Report :=
  [quarter 2026 10; annual 2025 (-3) (-12) 8; annual 2024 (-1) (-4) 5;
   annual 2023 10 10 5].

(** No earnings at all, and a quote of 0. *)
Definition flat : list Report :=
  [quarter 2026 10; annual 2025 0 0 0; annual 2024 0 0 0; annual 2023 0 0 0].
Definition halted : eastmoney.StockInfo := info "600001.SH" 0 12 20 10.

(** The same security as [bank] in all but its quote of 10. *)
Definition cheap : eastmoney.StockInfo := info "600002.SH" 10 12 20 10.

(** Two annual reports only. *)
Definition paired : list Report :=
  [quarter 2026 10; annual 2025 1 10 8; annual 2024 0.5 9 5].

(** Early in the year: the annual report of 2025 is not out, the latest
    report is the third-quarter report of 2025. *)
Definition early : list Report :=
  [quarter 2025 12; annual 2024 1.0 11 5; annual 2023 0.8 10 5;
   annual 2022 0.2 9 5].

(** A security of profitability weight [roe]. *)
Definition weighted (name : string) (roe : float) : models.Stock :=
  models.Stock_literal (info name 10 8 20 roe).

(** Six securities of weight 10 and a seventh of weight 20. *)
Definition seven : list models.Stock :=
  [weighted "A" 10; weighted "B" 10; weighted "C" 10; weighted "D" 10;
   weighted "E" 10; weighted "F" 10; weighted "G" 20].

(** Thirteen securities of weight 10, but for the fourth and the seventh
    of weight 20. *)
Definition thirteen : list models.Stock :=
  [weighted "A" 10; weighted "B" 10; weighted "C" 10; weighted "D" 20;
   weighted "E" 10; weighted "F" 10; weighted "G" 20; weighted "H" 10;
   weighted "I" 10; weighted "J" 10; weighted "K" 10; weighted "L" 10;
   weighted "M" 10].
End Examples.

(** ** The order of [float64]

    [rank] sends a number to a triple ordered lexicographically: the sign
    class, then exponent and mantissa (negated for negative numbers).  The
    comparisons of IEEE 754 on numbers that are not NaN are the
    comparisons of ranks. *)

Module Order.
Local Open Scope Z_scope.

Definition rank (x : spec_float) : Z * Z * Z :=
  match x with
  | S754_zero _ => (0, 0, 0)
  | S754_nan => (0, 0, 0)
  | S754_infinity false => (2, 0, 0)
  | S754_infinity true => (-2, 0, 0)
  | S754_finite false m e => (1, e, Zpos m)
  | S754_finite true m e => (-1, - e, Zneg m)
  end.

Definition lt3 (a b : Z * Z * Z) : Prop :=
  let '(a1, a2, a3) := a in
  let '(b1, b2, b3) := b in
  a1 < b1 \/ (a1 = b1 /\ (a2 < b2 \/ (a2 = b2 /\ a3 < b3))).

Definition number (x : spec_float) : Prop := x <> S754_nan.
End Order.

(** ** The sign of a [float64]

    Three classes of values, NaN included in each: not positive, not
    negative, and carrying the sign bit; [below_zero] is the numbers
    strictly below zero. *)

Module Sign.
Definition npos (x : spec_float) : bool :=
  match x with
  | S754_nan | S754_zero _ => true
  | S754_infinity s | S754_finite s _ _ => s
  end.

Definition nneg (x : spec_float) : bool :=
  match x with
  | S754_nan | S754_zero _ => true
  | S754_infinity s | S754_finite s _ _ => negb s
  end.

Definition signbit (x : spec_float) : bool :=
  match x with
  | S754_nan => true
  | S754_zero s | S754_infinity s | S754_finite s _ _ => s
  end.

Definition below_zero (x : spec_float) : bool :=
  match x with
  | S754_infinity s | S754_finite s _ _ => s
  | S754_nan | S754_zero _ => false
  end.

Definition above_zero (x : spec_float) : bool :=
  match x with
  | S754_infinity s | S754_finite s _ _ => negb s
  | S754_nan | S754_zero _ => false
  end.
End Sign.

(** ** Go's [int] and its conversions

    [int] is the 64-bit signed integer, a [Z] kept in range by [wrap64].
    [float64(n)] rounds to nearest; [int(f)] truncates toward zero, and
    gives a platform's own value when the result does not fit. *)

Module goint.
Local Open Scope Z_scope.

Definition wrap64 (z : Z) : Z := (z + 2 ^ 63) mod 2 ^ 64 - 2 ^ 63.

(** [float64(n)] for an [int] [n]. *)
Definition float64_of_int (z : Z) : float :=
  if z =? - 2 ^ 63 then (- 0x1p+63)%float
  else if z <? 0 then (- PrimFloat.of_uint63 (Uint63.of_Z (- z)))%float
  else PrimFloat.of_uint63 (Uint63.of_Z z).

(** The integer part of a finite number. *)
Definition trunc (f : float) : option Z :=
  match Prim2SF f with
  | S754_zero _ => Some 0
  | S754_finite s m e =>
      let magnitude :=
        if 0 <=? e then Zpos m * 2 ^ e else Zpos m / 2 ^ (- e) in
      Some (if s then - magnitude else magnitude)
  | S754_infinity _ | S754_nan => None
  end.

Class Platform : Type := {
  (** what [int(f)] is when [f] is NaN or its integer part is out of range *)
  intOutOfRange : Z
}.

(** [int(f)] *)
Definition int_of_float64 {p : Platform} (f : float) : Z :=
  match trunc f with
  | Some z => if (- 2 ^ 63 <=? z) && (z <? 2 ^ 63) then z else intOutOfRange
  | None => intOutOfRange
  end.
End goint.

(** ** The stock as [NewStock] assembles it *)

Module aggregate.
Section Assemble.
Context {em : eastmoney.API} {en : eniu.API} {zs : zszx.API}.
Import models.

(** The stock after [wg.Wait()], before the score is attached: every field
    holds what its goroutine left. *)
Definition joined (dc : datacenter.Clients) (now : time.Now)
    (bi : eastmoney.StockInfo) (fina : FinaSection) : Stock :=
  {| BaseInfo := bi;
     HistoricalFinaMainData := f_HistoricalFinaMainData fina;
     ValuationMap := valuationTask dc bi;
     HistoricalPEList := f_HistoricalPEList fina;
     RightPrice := f_RightPrice fina; PriceSpace := f_PriceSpace fina;
     LastYearRightPrice := f_LastYearRightPrice fina;
     HistoricalPrice := fst (priceTask dc bi);
     HistoricalVolatility := snd (priceTask dc bi);
     CompanyProfile := profileTask dc bi;
     FinaAppointPublishDate := fst (fst (publishDateTask dc bi));
     FinaActualPublishDate := snd (fst (publishDateTask dc bi));
     FinaReportDate := snd (publishDateTask dc bi);
     OrgRatingList := orgRatingTask dc bi;
     ProfitPredictList := profitPredictTask dc bi;
     JZPG := jzpgTask dc bi;
     PEG := computePEG bi;
     HistoricalGincomeList := fst (fst (gincomeTask dc bi));
     BYYSRatio := snd (fst (gincomeTask dc bi));
     FinaReportOpinion := snd (gincomeTask dc bi);
     HistoricalCashflowList := c_HistoricalCashflowList (cashflowTask dc bi);
     NetcashOperate := c_NetcashOperate (cashflowTask dc bi);
     NetcashInvest := c_NetcashInvest (cashflowTask dc bi);
     NetcashFinance := c_NetcashFinance (cashflowTask dc bi);
     NetcashFree := c_NetcashFree (cashflowTask dc bi);
     FreeHoldersTop10 := holdersTask dc bi;
     MainMoneyNetInflows := inflowTask dc now bi;
     Score := BuffettScore_zero |}.

(** The guards under which lines 223-290 dereference a nil report: fewer
    than three annual EPS values with one of the two reports missing, or
    three values, a rejected price and no most recent report. *)
Definition dereferences_nil (mid g : float) (eps : list float)
    (lyr blyr : option eastmoney.FinaMainData) : Prop :=
  ((List.length eps < 3)%nat /\ (lyr = None \/ blyr = None)) \/
  ((3 <= List.length eps)%nat /\ lyr = None /\
   Spec.valid (Spec.reasonablePrice mid (Spec.mean eps) g (Spec.multiplier eps)) = false).
End Assemble.
End aggregate.

(** ** Package [routes]: the position calculators

    The handlers answer with a JSON object; its ["Error"] and ["Result"]
    (["Results"]) entries are modelled, as [Err] and [OK] of a [resp],
    the page constants ([HostURL], [Version], ...) are not.  The request
    is what [ShouldBindJSON] produced.  Products and sums are evaluated
    one operation at a time, as the compiler for amd64 does. *)

Module routes.

(** [StockInfo.NetprofitYoyRatio], a field package [models] does not
    read. *)
Class StockInfoFields : Type := {
  NetprofitYoyRatio : eastmoney.StockInfo -> float
}.

(** The request of [CalculatePositionHandler]. *)
Record PositionRequest : Type := {
  StockName : string;
  PE : float;
  Growth : float;
  Expect : Z;
  Tech : Z;
  BuffettScore : float;
  CurrentPrice : float
}.

(** The ["Result"] of [CalculatePositionHandler] (its ["timestamp"] is the
    empty string). *)
Record PositionResult : Type := {
  stock_name : string;
  pe : float;
  growth : float;
  peg : float;
  expect : Z;
  tech : Z;
  buffett_score : float;
  peg_score : float;
  expect_score : float;
  tech_score : float;
  total_score : float;
  final_amount : float;
  is_peg_high : bool;
  share_count : Z;
  current_price : float
}.

(** One element of [Holdings] in the request of
    [PositionDeviationHandler]. *)
Record Holding : Type := {
  h_StockName : string;
  h_Shares : Z;
  h_Expect : Z;
  h_Tech : Z
}.

(** The entry of a holding whose stock was found. *)
Record Deviation : Type := {
  d_stock_name : string;
  d_shares : Z;
  d_current_price : float;
  d_current_amount : float;
  d_target_amount : float;
  d_amount_diff : float;
  d_deviation_percent : float;
  d_deviation_level : string;
  d_pe : float;
  d_growth : float;
  d_buffett_score : float
}.

(** An entry of ["holdings"]: the one with level ["unknown"], zero amounts
    and an ["error"], or a [Deviation]. *)
Inductive HoldingResult : Type :=
| LookupFailed (stock_name : string) (shares : Z)
| Analysed (d : Deviation).

Record Summary : Type := {
  total_current_position : float;
  total_target_position : float;
  total_diff : float;
  total_deviation_percent : float;
  stock_count : nat
}.

Section Handlers.
Context {em : eastmoney.API} {en : eniu.API} {zs : zszx.API}.
Context {fields : StockInfoFields} {platform : goint.Platform}.
Local Open Scope float_scope.

(** [calculateTargetPosition] *)
Definition calculateTargetPosition (stock : models.Stock) (expect tech : Z) : float :=
  let pe := eastmoney.PE (models.BaseInfo stock) in
  let growth := NetprofitYoyRatio (models.BaseInfo stock) in
  if growth =? 0 then 0
  else
    let peg := pe / growth in
    let pegScore :=
      if peg <=? 0.5 then 1
      else if peg <=? 0.9 then (0.9 - peg) / 0.4
      else 0 in
    let expectScore := goint.float64_of_int (goint.wrap64 (expect - 1)) / 4 in
    let techScore := goint.float64_of_int (goint.wrap64 (tech - 1)) / 2 in
    let buffettScore :=
      if models.TotalScore (models.Score stock) =? 0 then 50
      else models.TotalScore (models.Score stock) in
    let buffettScoreNormalized := buffettScore / 100 in
    let totalScore :=
      0.4 * pegScore + 0.2 * expectScore + 0.2 * techScore
      + 0.2 * buffettScoreNormalized in
    let amount := 3 + 17 * totalScore in
    let finalAmount :=
      if amount <? 3 then 3 else if 20 <? amount then 20 else amount in
    if 1 <? peg then 0 else finalAmount.

(** [CalculatePositionHandler], from the bound request on. *)
Definition CalculatePositionHandler (bound : resp PositionRequest)
  : resp PositionResult :=
  match bound with
  | Err e => Err ("参数错误: " ++ e)
  | OK req =>
    if Growth req =? 0 then Err "利润增长率不能为0"
    else
      let tech := if (Tech req =? 0)%Z then 2%Z else Tech req in
      let peg := PE req / Growth req in
      let pegScore :=
        if peg <=? 0.5 then 1
        else if peg <=? 0.9 then (0.9 - peg) / 0.4
        else 0 in
      let expectScore := goint.float64_of_int (goint.wrap64 (Expect req - 1)) / 4 in
      let techScore := goint.float64_of_int (goint.wrap64 (tech - 1)) / 2 in
      let buffettScore :=
        if BuffettScore req =? 0 then 50 else BuffettScore req in
      let buffettScoreNormalized := buffettScore / 100 in
      let totalScore :=
        0.4 * pegScore + 0.2 * expectScore + 0.2 * techScore
        + 0.2 * buffettScoreNormalized in
      let amount := 3 + 17 * totalScore in
      let finalAmount :=
        if amount <? 3 then 3 else if 20 <? amount then 20 else amount in
      let isPegHigh := 1 <? peg in
      let finalAmount := if isPegHigh then 0 else finalAmount in
      let currentPrice := CurrentPrice req in
      let shareCount :=
        if (0 <? currentPrice) && (0 <? finalAmount) then
          let totalValue := finalAmount * 10000 in
          let shares := goint.int_of_float64 (totalValue / currentPrice) in
          (Z.quot shares 100 * 100)%Z
        else 0%Z in
      OK {| stock_name := StockName req;
            pe := PE req;
            growth := Growth req;
            peg := peg;
            expect := Expect req;
            tech := tech;
            buffett_score := buffettScore;
            peg_score := pegScore;
            expect_score := expectScore;
            tech_score := techScore;
            total_score := totalScore;
            final_amount := finalAmount;
            is_peg_high := isPegHigh;
            share_count := shareCount;
            current_price := currentPrice |}
  end.

(** The body of the loop of [PositionDeviationHandler] for a holding whose
    stock is [stock]. *)
Definition deviationOf (holding : Holding) (stock : models.Stock) : Deviation :=
  let currentPrice :=
    match eastmoney.NewPrice (models.BaseInfo stock) with
    | eastmoney.AnyFloat price => price
    | eastmoney.AnyString _ => 0
    end in
  let currentAmount :=
    goint.float64_of_int (h_Shares holding) * currentPrice / 10000 in
  let expect := if (h_Expect holding =? 0)%Z then 3%Z else h_Expect holding in
  let tech := if (h_Tech holding =? 0)%Z then 2%Z else h_Tech holding in
  let targetAmount := calculateTargetPosition stock expect tech in
  let amountDiff := targetAmount - currentAmount in
  let deviationPercent :=
    if 0 <? targetAmount then math.Abs (amountDiff / targetAmount * 100) else 0 in
  let deviationLevel :=
    if 30 <? deviationPercent then "high"
    else if 15 <? deviationPercent then "medium"
    else "low" in
  {| d_stock_name := h_StockName holding;
     d_shares := h_Shares holding;
     d_current_price := currentPrice;
     d_current_amount := currentAmount;
     d_target_amount := targetAmount;
     d_amount_diff := amountDiff;
     d_deviation_percent := deviationPercent;
     d_deviation_level := deviationLevel;
     d_pe := eastmoney.PE (models.BaseInfo stock);
     d_growth := NetprofitYoyRatio (models.BaseInfo stock);
     d_buffett_score := models.TotalScore (models.Score stock) |}.

(** One turn of the loop: [(results, totalCurrentPosition,
    totalTargetPosition)] before and after.  [search] is
    [searcher.SearchStocks] for one name, its map in the order [range]
    visits it. *)
Definition deviationStep (search : string -> resp (list models.Stock))
    (acc : list HoldingResult * float * float) (holding : Holding)
  : list HoldingResult * float * float :=
  let '(results, totalCurrentPosition, totalTargetPosition) := acc in
  match search (h_StockName holding) with
  | Err _ =>
      ((results ++ [LookupFailed (h_StockName holding) (h_Shares holding)])%list,
       totalCurrentPosition, totalTargetPosition)
  | OK [] =>
      ((results ++ [LookupFailed (h_StockName holding) (h_Shares holding)])%list,
       totalCurrentPosition, totalTargetPosition)
  | OK (stock :: _) =>
      let d := deviationOf holding stock in
      ((results ++ [Analysed d])%list,
       totalCurrentPosition + d_current_amount d,
       totalTargetPosition + d_target_amount d)
  end.

(** [PositionDeviationHandler], from the bound request on. *)
Definition PositionDeviationHandler (search : string -> resp (list models.Stock))
    (bound : resp (list Holding)) : resp (list HoldingResult * Summary) :=
  match bound with
  | Err e => Err ("参数错误: " ++ e)
  | OK holdings =>
    if (List.length holdings =? 0)%nat then Err "持仓列表不能为空"
    else
      let '(results, totalCurrentPosition, totalTargetPosition) :=
        fold_left (deviationStep search) holdings ([], 0, 0) in
      let totalDiff := totalTargetPosition - totalCurrentPosition in
      let totalDeviationPercent :=
        if 0 <? totalTargetPosition
        then math.Abs (totalDiff / totalTargetPosition * 100) else 0 in
      OK (results,
          {| total_current_position := totalCurrentPosition;
             total_target_position := totalTargetPosition;
             total_diff := totalDiff;
             total_deviation_percent := totalDeviationPercent;
             stock_count := List.length holdings |})
  end.

(** The entry the loop appends for one holding. *)
Definition entryOf (search : string -> resp (list models.Stock)) (holding : Holding)
  : HoldingResult :=
  match search (h_StockName holding) with
  | OK (stock :: _) => Analysed (deviationOf holding stock)
  | _ => LookupFailed (h_StockName holding) (h_Shares holding)
  end.

(** The lookup of a holding succeeds. *)
Definition found (search : string -> resp (list models.Stock)) (holding : Holding)
  : bool :=
  match search (h_StockName holding) with
  | OK (_ :: _) => true
  | _ => false
  end.

Definition name_of (r : HoldingResult) : string :=
  match r with
  | LookupFailed n _ => n
  | Analysed d => d_stock_name d
  end.

Definition shares_of (r : HoldingResult) : Z :=
  match r with
  | LookupFailed _ n => n
  | Analysed d => d_shares d
  end.
End Handlers.
End routes.

(** ** Concrete requests *)

Module Requests.
Import Demo Examples.
Local Open Scope float_scope.

(** Year-over-year profit growth by security. *)
#[export] Instance fields : routes.StockInfoFields := {|
  routes.NetprofitYoyRatio := fun bi =>
    if String.eqb (eastmoney.Secucode bi) "600000.SH" then 24 else 5
|}.

(** amd64: the conversion gives the smallest [int]. *)
#[export] Instance platform : goint.Platform := {|
  goint.intOutOfRange := (- 2 ^ 63)%Z
|}.

Definition request : routes.PositionRequest :=
  {| routes.StockName := "600000.SH"; routes.PE := 12; routes.Growth := 24;
     routes.Expect := 4; routes.Tech := 0; routes.BuffettScore := 53.5;
     routes.CurrentPrice := 25 |}.

(** The searcher knows two securities. *)
Definition search (name : string) : resp (list models.Stock) :=
  if String.eqb name "600000.SH" then OK [other]
  else if String.eqb name "000001.SZ" then OK [tied1]
  else Err "not found".

Definition holdings : list routes.Holding :=
  [ {| routes.h_StockName := "600000.SH"; routes.h_Shares := 3000;
       routes.h_Expect := 4; routes.h_Tech := 0 |};
    {| routes.h_StockName := "999999.XX"; routes.h_Shares := 100;
       routes.h_Expect := 0; routes.h_Tech := 0 |};
    {| routes.h_StockName := "000001.SZ"; routes.h_Shares := 500;
       routes.h_Expect := 0; routes.h_Tech := 0 |} ].

(** Five annual reports with profits rising every year. *)
Definition thriving : list Report :=
  [quarter 2026 10; annual 2025 2.0 22 8; annual 2024 1.6 21 5;
   annual 2023 1.2 23 5; annual 2022 0.8 22 5; annual 2021 0.5 24 5].
End Requests.

(** * Results *)

Unset Implicit Arguments.

(** Goals about closed terms are settled by running the model. *)
Ltac evaluate := vm_compute; reflexivity.

(** [In x l] for a closed [x] and a list of constants. *)
Ltac in_range := vm_compute; repeat (first [left; reflexivity | right]).

(** ** Facts about [float64] *)

Section FloatFacts.
Import Order.

Lemma lt3_irrefl a : ~ lt3 a a.
Proof. destruct a as [[a1 a2] a3]. unfold lt3. lia. Qed.

Lemma lt3_trans a b c : lt3 a b -> lt3 b c -> lt3 a c.
Proof.
  destruct a as [[a1 a2] a3], b as [[b1 b2] b3], c as [[c1 c2] c3].
  unfold lt3. lia.
Qed.

Lemma lt3_negtrans a b c : ~ lt3 a b -> ~ lt3 b c -> ~ lt3 a c.
Proof.
  destruct a as [[a1 a2] a3], b as [[b1 b2] b3], c as [[c1 c2] c3].
  unfold lt3. lia.
Qed.

Lemma SFcompare_rank x y :
  number x -> number y ->
  (SFcompare x y = Some Lt <-> lt3 (rank x) (rank y)) /\
  (SFcompare x y = Some Gt <-> lt3 (rank y) (rank x)) /\
  (SFcompare x y <> None).
Proof.
  unfold number. intros Hx Hy.
  destruct x as [sx|sx| |sx mx ex]; [| |congruence|];
    (destruct y as [sy|sy| |sy my ey]; [| |congruence|]);
    destruct sx, sy; cbn [SFcompare rank lt3];
    try (repeat split; intros; try lia; try discriminate; try reflexivity; fail).
  all: change (Pos.compare_cont Eq mx my) with (Pos.compare mx my);
    destruct (Z.compare_spec ex ey) as [He|He|He];
    try destruct (Pos.compare_spec mx my) as [Hm|Hm|Hm];
    cbn [CompOpp];
    repeat split; intros; try lia; try discriminate; try reflexivity.
Qed.

Lemma SFltb_rank x y :
  number x -> number y ->
  (SFltb x y = true <-> lt3 (rank x) (rank y)).
Proof.
  intros Hx Hy. destruct (SFcompare_rank x y Hx Hy) as (Hlt & _ & _).
  rewrite <- Hlt. unfold SFltb.
  destruct (SFcompare x y) as [[| |]|]; split; intros; congruence.
Qed.

Lemma SFleb_rank x y :
  number x -> number y ->
  (SFleb x y = true <-> ~ lt3 (rank y) (rank x)).
Proof.
  intros Hx Hy. destruct (SFcompare_rank x y Hx Hy) as (_ & Hgt & Hn).
  rewrite <- Hgt. unfold SFleb.
  destruct (SFcompare x y) as [[| |]|]; split; intros; congruence.
Qed.

Lemma SFeqb_refl x : number x -> SFeqb x x = true.
Proof.
  intros Hx. destruct (SFcompare_rank x x Hx Hx) as (Hlt & Hgt & Hn).
  unfold SFeqb. destruct (SFcompare x x) as [[| |]|]; try reflexivity.
  - exfalso. apply (lt3_irrefl (rank x)). apply Hlt. reflexivity.
  - exfalso. apply (lt3_irrefl (rank x)). apply Hgt. reflexivity.
  - congruence.
Qed.

Local Open Scope float_scope.

Lemma IsNaN_number x : math.IsNaN x = false <-> number (Prim2SF x).
Proof.
  unfold math.IsNaN. rewrite FloatAxioms.eqb_spec, negb_false_iff. split.
  - intros H Hn. rewrite Hn in H. discriminate.
  - apply SFeqb_refl.
Qed.

Lemma ltb_rank x y :
  math.IsNaN x = false -> math.IsNaN y = false ->
  ((x <? y) = true <-> lt3 (rank (Prim2SF x)) (rank (Prim2SF y))).
Proof.
  intros Hx Hy. rewrite FloatAxioms.ltb_spec.
  apply SFltb_rank; apply IsNaN_number; assumption.
Qed.

Lemma ltb_irrefl x : (x <? x) = false.
Proof.
  rewrite FloatAxioms.ltb_spec. unfold SFltb.
  destruct (Prim2SF x) as [s|s| |s m e] eqn:Hx; try destruct s; try reflexivity;
    cbn [SFcompare]; rewrite Z.compare_refl;
    change (Pos.compare_cont Eq m m) with (Pos.compare m m);
    rewrite Pos.compare_refl; reflexivity.
Qed.

Lemma ltb_trans x y z :
  math.IsNaN x = false -> math.IsNaN y = false -> math.IsNaN z = false ->
  (x <? y) = true -> (y <? z) = true -> (x <? z) = true.
Proof.
  intros Hx Hy Hz Hxy Hyz.
  apply (ltb_rank x y Hx Hy) in Hxy. apply (ltb_rank y z Hy Hz) in Hyz.
  apply (ltb_rank x z Hx Hz). eapply lt3_trans; eassumption.
Qed.

Lemma ltb_negtrans x y z :
  math.IsNaN x = false -> math.IsNaN y = false -> math.IsNaN z = false ->
  (x <? y) = false -> (y <? z) = false -> (x <? z) = false.
Proof.
  intros Hx Hy Hz Hxy Hyz.
  apply not_true_is_false. intros Hxz.
  apply (ltb_rank x z Hx Hz) in Hxz. revert Hxz.
  apply (lt3_negtrans _ (rank (Prim2SF y))).
  - intros H. apply (ltb_rank x y Hx Hy) in H. congruence.
  - intros H. apply (ltb_rank y z Hy Hz) in H. congruence.
Qed.

Lemma nlt_leb x y :
  math.IsNaN x = false -> math.IsNaN y = false ->
  (x <? y) = false -> (y <=? x) = true.
Proof.
  intros Hx Hy H. rewrite FloatAxioms.leb_spec.
  apply SFleb_rank; try (apply IsNaN_number; assumption).
  intros Hlt. apply (ltb_rank x y Hx Hy) in Hlt. congruence.
Qed.

Lemma leb_number x y : (x <=? y) = true -> math.IsNaN x = false /\ math.IsNaN y = false.
Proof.
  rewrite FloatAxioms.leb_spec. intros H. split; apply IsNaN_number; intros Hn;
    rewrite Hn in H; unfold SFleb in H.
  - discriminate.
  - destruct (Prim2SF x); discriminate.
Qed.

Lemma leb_trans x y z : (x <=? y) = true -> (y <=? z) = true -> (x <=? z) = true.
Proof.
  intros Hxy Hyz.
  destruct (leb_number _ _ Hxy) as [Hx Hy].
  destruct (leb_number _ _ Hyz) as [_ Hz].
  apply IsNaN_number in Hx, Hy, Hz.
  rewrite FloatAxioms.leb_spec in *.
  apply (SFleb_rank _ _ Hx Hy) in Hxy. apply (SFleb_rank _ _ Hy Hz) in Hyz.
  apply (SFleb_rank _ _ Hx Hz).
  eapply lt3_negtrans; eassumption.
Qed.

Lemma same_refl x : Spec.same x x = true.
Proof. unfold Spec.same, math.IsNaN. destruct (x =? x); reflexivity. Qed.

Lemma Prim2SF_zero : Prim2SF 0 = S754_zero false.
Proof. reflexivity. Qed.

(** Adding a negative number is subtracting its absolute value. *)
Lemma add_negative a i : (i <? 0) = true -> a + i = a - abs i.
Proof.
  intros H. apply Prim2SF_inj.
  rewrite FloatAxioms.add_spec, FloatAxioms.sub_spec, FloatAxioms.abs_spec.
  rewrite FloatAxioms.ltb_spec, Prim2SF_zero in H.
  destruct (Prim2SF i) as [s|s| |s m e]; try destruct s; try discriminate H;
    destruct (Prim2SF a) as [sa|sa| |sa ma ea]; try destruct sa; reflexivity.
Qed.

(** Subtracting a number that is not negative is subtracting its absolute
    value, up to the sign of a zero result. *)
Lemma sub_nonnegative a i : (i <? 0) = false -> Spec.same (a - i) (a - abs i) = true.
Proof.
  intros H.
  rewrite FloatAxioms.ltb_spec, Prim2SF_zero in H.
  destruct (Prim2SF i) as [s|s| |s m e] eqn:Hi; try destruct s; try discriminate H.
  2-5: assert (Habs : abs i = i)
    by (apply Prim2SF_inj; rewrite FloatAxioms.abs_spec, Hi; reflexivity);
    rewrite Habs; apply same_refl.
  unfold Spec.same, math.IsNaN.
  rewrite !FloatAxioms.eqb_spec, !FloatAxioms.sub_spec, FloatAxioms.abs_spec, Hi.
  destruct (Prim2SF a) as [sa|sa| |sa ma ea] eqn:Ha; try destruct sa;
    try reflexivity;
    cbn [SF64sub SFsub SFabs];
    rewrite SFeqb_refl by (unfold number; discriminate); reflexivity.
Qed.
Lemma Prim2SF_one : Prim2SF 1 = S754_finite false 4503599627370496 (-52).
Proof. reflexivity. Qed.

(** Multiplying by [1.0] is exact. *)
Lemma mul_one (x : float) : x * 1 = x.
Proof.
  apply Prim2SF_inj. rewrite FloatAxioms.mul_spec, Prim2SF_one.
  pose proof (Prim2SF_valid x) as Hv.
  destruct (Prim2SF x) as [s|s| |s m e];
    try (destruct s; reflexivity); try reflexivity.
  cbn [SpecFloat.valid_binary] in Hv. unfold bounded, canonical_mantissa in Hv.
  apply andb_true_iff in Hv. destruct Hv as [Hc He].
  apply Z.eqb_eq in Hc.
  unfold SF64mul, SFmul.
  rewrite Pos.mul_comm. cbn [Pos.mul].
  unfold binary_round_aux, shr_fexp.
  cbn [Zdigits2 digits2_pos shr_record_of_loc].
  match goal with |- context [fexp prec emax ?a] =>
    replace a with (Z.pos (digits2_pos m) + e)%Z by lia end.
  rewrite Hc.
  replace (e - (e + -52))%Z with 52%Z by lia.
  unfold shr at 1.
  cbn [SpecFloat.iter_pos shr_1 orb]. cbv beta iota.
  cbn [shr_m loc_of_shr_record round_nearest_even Zdigits2].
  replace (e + -52 + 52)%Z with e by lia.
  rewrite Hc, Z.sub_diag. cbn [shr shr_m]. cbv beta iota. cbn [shr_m].
  change (emax - prec)%Z with 971%Z in *. rewrite He.
  destruct s; reflexivity.
Qed.
End FloatFacts.

(** ** What [NewStock] returns, field by field *)

Section Construction.
Context {em : eastmoney.API} {en : eniu.API} {zs : zszx.API}.
Import models.
Local Open Scope float_scope.

Lemma NewStock_inv dc now bi s e :
  NewStock dc now bi = Done (s, e) ->
  exists fina,
    finaTask dc now bi (currentPrice bi) = Done fina /\
    e = None /\
    BaseInfo s = bi /\
    PEG s = computePEG bi /\
    HistoricalFinaMainData s = f_HistoricalFinaMainData fina /\
    RightPrice s = f_RightPrice fina /\
    PriceSpace s = f_PriceSpace fina /\
    LastYearRightPrice s = f_LastYearRightPrice fina /\
    HistoricalCashflowList s = c_HistoricalCashflowList (cashflowTask dc bi) /\
    NetcashOperate s = c_NetcashOperate (cashflowTask dc bi) /\
    NetcashInvest s = c_NetcashInvest (cashflowTask dc bi) /\
    NetcashFinance s = c_NetcashFinance (cashflowTask dc bi) /\
    NetcashFree s = c_NetcashFree (cashflowTask dc bi).
Proof.
  unfold NewStock, currentPrice.
  destruct (finaTask dc now bi (GetPrice (Stock_literal bi))) as [fina|r];
    simpl; [|discriminate].
  destruct (priceTask dc bi) as [hisPrice hv].
  destruct (publishDateTask dc bi) as [[appoint actual] reportDate].
  destruct (gincomeTask dc bi) as [[gincomeList byys] opinion].
  intros H. injection H as Hs He. subst s e.
  exists fina. repeat split.
Qed.

Lemma NewStock_returns dc now bi fina :
  finaTask dc now bi (currentPrice bi) = Done fina ->
  exists s, NewStock dc now bi = Done (s, None).
Proof.
  unfold NewStock, currentPrice. intros ->. simpl.
  destruct (priceTask dc bi) as [hisPrice hv].
  destruct (publishDateTask dc bi) as [[appoint actual] reportDate].
  destruct (gincomeTask dc bi) as [[gincomeList byys] opinion].
  eexists. reflexivity.
Qed.

(** With its inputs fetched, the first goroutine is the valuation block
    applied to the report window. *)
Lemma finaTask_fetched dc now bi hf pe mid price :
  fetched dc bi hf pe mid ->
  finaTask dc now bi price =
    (v <- rightPrice mid price
            (thisYearAvgRevIncrRatio (reportWindow hf (time.Year now)))
            (lastYearAvgRevIncrRatio (reportWindow hf (time.Year now)))
            (epsHistory hf)
            (lastYearReport (reportWindow hf (time.Year now)))
            (beforeLastYearReport (reportWindow hf (time.Year now))) ;;
     Done {| f_HistoricalFinaMainData := hf;
             f_HistoricalPEList := pe;
             f_RightPrice := v_RightPrice v;
             f_PriceSpace := v_PriceSpace v;
             f_LastYearRightPrice := v_LastYearRightPrice v |}).
Proof.
  intros (Hhf & Hne & Hpe & Hmid). unfold finaTask.
  rewrite Hhf. destruct hf as [|r hf]; [congruence|].
  cbn [List.length Nat.eqb]. rewrite Hpe, Hmid. reflexivity.
Qed.

(** The multiplier of line 250-259 is the specification's. *)
Lemma multiplier_code eps :
  (if (2 <=? List.length eps)%nat
   then if 100 <? (at_ eps 0 - at_ eps 1) / at_ eps 1 * 100 then 0.7 else 1
   else 1) = Spec.multiplier eps.
Proof.
  unfold Spec.multiplier, Spec.explosive, at_.
  destruct eps as [|a [|b t]]; reflexivity.
Qed.

(** Every figure of a valuation that ran to its end. *)
Lemma rightPrice_inv mid price g gl eps lyr blyr v :
  rightPrice mid price g gl eps lyr blyr = Done v ->
  exists base lbase,
    (if (3 <=? List.length eps)%nat then base = Spec.mean eps
     else exists r, lyr = Some r /\ base = eastmoney.Epsjb r) /\
    (if (3 <=? List.length eps)%nat then lbase = (at_ eps 1 + at_ eps 2) / 2
     else exists r, blyr = Some r /\ lbase = eastmoney.Epsjb r) /\
    baseEPS v = base /\
    adjustedGrowthRatio v = Spec.capped g /\
    explosiveGrowthAdjustment v = Spec.multiplier eps /\
    computed v = Spec.reasonablePrice mid base g (Spec.multiplier eps) /\
    v_LastYearRightPrice v = mid * (lbase * (1 + Spec.capped gl / 100)) /\
    (Spec.valid (computed v) = true ->
       v_RightPrice v = computed v /\
       v_PriceSpace v = Spec.priceGap (computed v) price) /\
    (Spec.valid (computed v) = false ->
       exists r, lyr = Some r /\
         v_RightPrice v = mid * eastmoney.Epsjb r /\
         v_PriceSpace v = Spec.priceGap (mid * eastmoney.Epsjb r) price).
Proof.
  unfold rightPrice. rewrite multiplier_code.
  change maxGrowthRate with 50.
  fold (Spec.capped g) (Spec.capped gl) (Spec.mean eps).
  intros H.
  set (base :=
         if (3 <=? List.length eps)%nat then Spec.mean eps
         else match lyr with Some r => eastmoney.Epsjb r | None => 0 end).
  set (lbase :=
         if (3 <=? List.length eps)%nat then (at_ eps 1 + at_ eps 2) / 2
         else match blyr with Some r => eastmoney.Epsjb r | None => 0 end).
  exists base, lbase. subst base lbase.
  unfold Spec.valid.
  destruct (3 <=? List.length eps)%nat eqn:Hlen; cbn [bind] in H.
  - fold (Spec.reasonablePrice mid (Spec.mean eps) g (Spec.multiplier eps)) in H.
    destruct (math.IsNaN _ || math.IsInf _ 0 || (_ <=? 0)) eqn:Hc in H.
    + destruct lyr as [r|]; cbn [deref bind] in H; [|discriminate].
      injection H as <-. cbn [baseEPS adjustedGrowthRatio explosiveGrowthAdjustment computed
           v_RightPrice v_PriceSpace v_LastYearRightPrice].
      rewrite Hc.
      repeat split; try reflexivity; try discriminate.
      intros _. exists r. repeat split.
    + injection H as <-. cbn [baseEPS adjustedGrowthRatio explosiveGrowthAdjustment computed
           v_RightPrice v_PriceSpace v_LastYearRightPrice].
      rewrite Hc.
      repeat split; try reflexivity; try discriminate.
  - destruct lyr as [r|]; cbn [deref bind] in H; [|discriminate].
    destruct blyr as [r'|]; cbn [deref bind] in H; [|discriminate].
    fold (Spec.reasonablePrice mid (eastmoney.Epsjb r) g (Spec.multiplier eps)) in H.
    destruct (math.IsNaN _ || math.IsInf _ 0 || (_ <=? 0)) eqn:Hc in H.
    + injection H as <-. cbn [baseEPS adjustedGrowthRatio explosiveGrowthAdjustment computed
           v_RightPrice v_PriceSpace v_LastYearRightPrice].
      rewrite Hc.
      repeat split; try reflexivity; try discriminate;
        try (eexists; split; reflexivity).
      intros _. exists r. repeat split.
    + injection H as <-. cbn [baseEPS adjustedGrowthRatio explosiveGrowthAdjustment computed
           v_RightPrice v_PriceSpace v_LastYearRightPrice].
      rewrite Hc.
      repeat split; try reflexivity; try discriminate;
        try (eexists; split; reflexivity).
Qed.
End Construction.

(** ** The valuation inside [NewStock] *)

Section Valuation.
Context {em : eastmoney.API} {en : eniu.API} {zs : zszx.API}.
Import models.
Local Open Scope float_scope.

(** The block returns when the reports it dereferences exist. *)
Lemma rightPrice_total_reports mid price g gl eps r blyr :
  (3 <= List.length eps)%nat \/ (exists r', blyr = Some r') ->
  exists v, rightPrice mid price g gl eps (Some r) blyr = Done v.
Proof.
  intros Hb. unfold rightPrice.
  destruct (3 <=? List.length eps)%nat eqn:Hlen; cbn [bind deref].
  - destruct (math.IsNaN _ || math.IsInf _ 0 || (_ <=? 0)); eexists; reflexivity.
  - destruct Hb as [Hb|[r' ->]].
    + apply Nat.leb_le in Hb. congruence.
    + cbn [bind deref].
      destruct (math.IsNaN _ || math.IsInf _ 0 || (_ <=? 0)); eexists; reflexivity.
Qed.

(** With three annual values and a valid price no report is needed. *)
Lemma rightPrice_total_valid mid price g gl eps lyr blyr :
  (3 <= List.length eps)%nat ->
  Spec.valid (Spec.reasonablePrice mid (Spec.mean eps) g (Spec.multiplier eps)) = true ->
  exists v, rightPrice mid price g gl eps lyr blyr = Done v.
Proof.
  intros Hlen Hv. apply Nat.leb_le in Hlen. unfold rightPrice.
  rewrite Hlen, multiplier_code. cbn [bind].
  unfold Spec.valid, Spec.reasonablePrice, Spec.capped, Spec.mean in Hv.
  apply negb_true_iff in Hv.
  unfold maxGrowthRate, sumFloat. rewrite Hv.
  eexists. reflexivity.
Qed.

(** A valuation that ran to its end is what [NewStock] stores. *)
Lemma NewStock_valuation dc now bi hf pe mid v :
  fetched dc bi hf pe mid ->
  rightPrice mid (currentPrice bi)
    (thisYearAvgRevIncrRatio (reportWindow hf (time.Year now)))
    (lastYearAvgRevIncrRatio (reportWindow hf (time.Year now)))
    (epsHistory hf)
    (lastYearReport (reportWindow hf (time.Year now)))
    (beforeLastYearReport (reportWindow hf (time.Year now))) = Done v ->
  exists s, NewStock dc now bi = Done (s, None) /\
    RightPrice s = v_RightPrice v /\
    PriceSpace s = v_PriceSpace v /\
    LastYearRightPrice s = v_LastYearRightPrice v.
Proof.
  intros Hf Hv.
  pose proof (finaTask_fetched _ now _ _ _ _ (currentPrice bi) Hf) as Ht.
  rewrite Hv in Ht. cbn [bind] in Ht.
  destruct (NewStock_returns _ _ _ _ Ht) as [s Hs].
  exists s. split; [assumption|].
  destruct (NewStock_inv _ _ _ _ _ Hs)
    as (fina & Ht' & _ & _ & _ & _ & Hrp & Hps & Hly & _).
  rewrite Ht in Ht'. injection Ht' as <-.
  repeat split; assumption.
Qed.

(** And conversely the stored figures come from a valuation. *)
Lemma NewStock_valuation_inv dc now bi hf pe mid s e :
  fetched dc bi hf pe mid ->
  NewStock dc now bi = Done (s, e) ->
  exists v,
    rightPrice mid (currentPrice bi)
      (thisYearAvgRevIncrRatio (reportWindow hf (time.Year now)))
      (lastYearAvgRevIncrRatio (reportWindow hf (time.Year now)))
      (epsHistory hf)
      (lastYearReport (reportWindow hf (time.Year now)))
      (beforeLastYearReport (reportWindow hf (time.Year now))) = Done v /\
    RightPrice s = v_RightPrice v /\
    PriceSpace s = v_PriceSpace v /\
    LastYearRightPrice s = v_LastYearRightPrice v.
Proof.
  intros Hf Hs.
  destruct (NewStock_inv _ _ _ _ _ Hs)
    as (fina & Ht & _ & _ & _ & _ & Hrp & Hps & Hly & _).
  rewrite (finaTask_fetched _ now _ _ _ _ (currentPrice bi) Hf) in Ht.
  destruct (rightPrice _ _ _ _ _ _ _) as [v|] eqn:Hv; cbn [bind] in Ht;
    [|discriminate].
  injection Ht as <-. exists v. repeat split; assumption.
Qed.

(** The report window in terms of the fiscal year it is centred on: the
    calendar year, or the year before while the annual report of last
    year is missing (lines 208-215). *)
Lemma reportWindow_fiscal hf (year : Z) :
  let Y :=
    match eastmoney.GetReport hf (year - 1) eastmoney.FinaReportTypeYear with
    | Some _ => year
    | None => (year - 1)%Z
    end in
  lastYearReport (reportWindow hf year)
    = eastmoney.GetReport hf (Y - 1) eastmoney.FinaReportTypeYear /\
  beforeLastYearReport (reportWindow hf year)
    = eastmoney.GetReport hf (Y - 2) eastmoney.FinaReportTypeYear /\
  thisYearAvgRevIncrRatio (reportWindow hf year)
    = eastmoney.GetAvgRevenueIncreasingRatioByYear hf Y /\
  lastYearAvgRevIncrRatio (reportWindow hf year)
    = eastmoney.GetAvgRevenueIncreasingRatioByYear hf (Y - 1).
Proof.
  cbv zeta. unfold reportWindow.
  destruct (eastmoney.GetReport hf (year - 1) eastmoney.FinaReportTypeYear) eqn:E;
    cbn [lastYearReport beforeLastYearReport thisYearAvgRevIncrRatio
         lastYearAvgRevIncrRatio].
  - rewrite E. repeat split.
  - replace (year - 1 - 1)%Z with (year - 2)%Z by lia.
    replace (year - 1 - 2)%Z with (year - 3)%Z by lia.
    repeat split.
Qed.

(** With a quote the price [NewStock] reads at line 173 is the quote. *)
Lemma currentPrice_quote bi q :
  eastmoney.NewPrice bi = eastmoney.AnyFloat q -> currentPrice bi = q.
Proof. intros Hq. unfold currentPrice, GetPrice. cbn [BaseInfo Stock_literal]. rewrite Hq. reflexivity. Qed.

(** C1 (as amended): take a security with a quote [q] whose non-empty
    fundamentals history and PE history are fetched and whose PE median
    [mid] is at hand.  Let [Y] be the current year, or the year before
    while the annual report of last year is missing, [g] the average
    revenue growth rate of [Y], [m] the explosive-growth multiplier, and
    [base] the arithmetic mean of the three most recent annual EPS values
    when there are three; with fewer, the annual reports of [Y - 1] and
    [Y - 2] are assumed to exist and [base] is the EPS of the first.
    When mid x base x (1 + min(g, 50)/100) x m is finite and positive,
    the call returns a stock whose reasonable price is that product and
    whose price gap is (reasonable - q) / q x 100. *)
Theorem RightPrice_formula dc now bi hf pe mid q base :
  fetched dc bi hf pe mid ->
  eastmoney.NewPrice bi = eastmoney.AnyFloat q ->
  let Y :=
    match eastmoney.GetReport hf (time.Year now - 1) eastmoney.FinaReportTypeYear with
    | Some _ => time.Year now
    | None => (time.Year now - 1)%Z
    end in
  let eps :=
    eastmoney.ValueList hf eastmoney.ValueListTypeEPS 3 eastmoney.FinaReportTypeYear in
  let g := eastmoney.GetAvgRevenueIncreasingRatioByYear hf Y in
  ((3 <= List.length eps)%nat /\ base = Spec.mean eps) \/
  ((List.length eps < 3)%nat /\
   exists r r',
     eastmoney.GetReport hf (Y - 1) eastmoney.FinaReportTypeYear = Some r /\
     eastmoney.GetReport hf (Y - 2) eastmoney.FinaReportTypeYear = Some r' /\
     base = eastmoney.Epsjb r) ->
  let p := Spec.reasonablePrice mid base g (Spec.multiplier eps) in
  Spec.valid p = true ->
  exists s, NewStock dc now bi = Done (s, None) /\
    RightPrice s = p /\
    PriceSpace s = Spec.priceGap p q.
Proof.
  intros Hf Hq Y eps g Hbase p Hp.
  destruct (reportWindow_fiscal hf (time.Year now)) as (Hl & Hb & Hg & _).
  fold Y in Hl, Hb, Hg. fold g in Hg.
  set (w := reportWindow hf (time.Year now)) in *.
  assert (Hv : exists v,
    rightPrice mid (currentPrice bi) (thisYearAvgRevIncrRatio w)
      (lastYearAvgRevIncrRatio w) eps (lastYearReport w)
      (beforeLastYearReport w) = Done v).
  { destruct Hbase as [[Hlen ->]|(Hlen & r & r' & Hr & Hr' & _)].
    - apply rightPrice_total_valid; [assumption|]. rewrite Hg. assumption.
    - rewrite Hl, Hr. apply rightPrice_total_reports. right.
      exists r'. rewrite Hb. assumption. }
  destruct Hv as [v Hv].
  destruct (NewStock_valuation _ now _ _ _ _ _ Hf Hv) as (s & Hs & Hrp & Hps & _).
  exists s. split; [assumption|].
  destruct (rightPrice_inv _ _ _ _ _ _ _ _ Hv)
    as (b & lb & Hbb & _ & _ & _ & _ & Hc & _ & Hvalid & _).
  assert (Heq : b = base).
  { destruct Hbase as [[Hlen ->]|(Hlen & r & r' & Hr & Hr' & ->)].
    - apply Nat.leb_le in Hlen. rewrite Hlen in Hbb. assumption.
    - apply Nat.leb_gt in Hlen. rewrite Hlen in Hbb.
      destruct Hbb as (r0 & Hr0 & ->). rewrite Hl in Hr0. congruence. }
  subst b. rewrite Hg in Hc. fold p in Hc. rewrite Hc in Hvalid.
  destruct (Hvalid Hp) as [H1 H2].
  rewrite Hrp, Hps, H1, H2, (currentPrice_quote bi q Hq). split; reflexivity.
Qed.

(** Where the annual report [r] of [Y - 1] exists and the prior-year step
    can run, a computed price that is NaN, infinite or not positive is
    replaced by median x EPS of [r], the price gap is recomputed from that
    value and the quote, and the call returns the stock with a nil
    error. *)
Lemma RightPrice_fallback dc now bi hf pe mid q r :
  fetched dc bi hf pe mid ->
  eastmoney.NewPrice bi = eastmoney.AnyFloat q ->
  let Y :=
    match eastmoney.GetReport hf (time.Year now - 1) eastmoney.FinaReportTypeYear with
    | Some _ => time.Year now
    | None => (time.Year now - 1)%Z
    end in
  let eps :=
    eastmoney.ValueList hf eastmoney.ValueListTypeEPS 3 eastmoney.FinaReportTypeYear in
  eastmoney.GetReport hf (Y - 1) eastmoney.FinaReportTypeYear = Some r ->
  (3 <= List.length eps)%nat \/
  (exists r', eastmoney.GetReport hf (Y - 2) eastmoney.FinaReportTypeYear = Some r') ->
  let base := if (3 <=? List.length eps)%nat then Spec.mean eps else eastmoney.Epsjb r in
  let p :=
    Spec.reasonablePrice mid base (eastmoney.GetAvgRevenueIncreasingRatioByYear hf Y)
      (Spec.multiplier eps) in
  Spec.valid p = false ->
  exists s, NewStock dc now bi = Done (s, None) /\
    RightPrice s = mid * eastmoney.Epsjb r /\
    PriceSpace s = Spec.priceGap (mid * eastmoney.Epsjb r) q.
Proof.
  intros Hf Hq Y eps Hr Hb base p Hp.
  destruct (reportWindow_fiscal hf (time.Year now)) as (Hl & Hbl & Hg & _).
  fold Y in Hl, Hbl, Hg.
  set (w := reportWindow hf (time.Year now)) in *.
  rewrite <- Hl in Hr. rewrite <- Hbl in Hb.
  destruct (rightPrice_total_reports mid (currentPrice bi)
              (thisYearAvgRevIncrRatio w) (lastYearAvgRevIncrRatio w) eps r
              (beforeLastYearReport w) Hb)
    as [v Hv].
  rewrite <- Hr in Hv.
  destruct (NewStock_valuation _ now _ _ _ _ _ Hf Hv) as (s & Hs & Hrp & Hps & _).
  exists s. split; [assumption|].
  destruct (rightPrice_inv _ _ _ _ _ _ _ _ Hv)
    as (b & lb & Hbase & _ & _ & _ & _ & Hc & _ & _ & Hinvalid).
  assert (Hbb : b = base).
  { subst base. destruct (3 <=? List.length eps)%nat; [assumption|].
    destruct Hbase as (r0 & Hr0 & ->). congruence. }
  subst b. rewrite Hg in Hc. fold p in Hc. rewrite Hc in Hinvalid.
  destruct (Hinvalid Hp) as (r0 & Hr0 & H1 & H2).
  assert (r0 = r) by congruence. subst r0.
  rewrite Hrp, Hps, H1, H2, (currentPrice_quote bi q Hq). split; reflexivity.
Qed.

(** The prior-year step needs no report when three annual values are at
    hand, and the whole block none when the price is valid as well. *)
Lemma rightPrice_total dc_price mid g gl eps lyr blyr :
  ((3 <= List.length eps)%nat /\
   (Spec.valid (Spec.reasonablePrice mid (Spec.mean eps) g (Spec.multiplier eps)) = true \/
    exists r, lyr = Some r)) \/
  ((List.length eps < 3)%nat /\ (exists r, lyr = Some r) /\ (exists r', blyr = Some r')) ->
  exists v, rightPrice mid dc_price g gl eps lyr blyr = Done v.
Proof.
  intros [[Hlen [Hv|[r ->]]]|(Hlen & [r ->] & Hb)].
  - apply rightPrice_total_valid; assumption.
  - apply rightPrice_total_reports. left. assumption.
  - apply rightPrice_total_reports. right. assumption.
Qed.

(** C9 (as amended): for a security whose valuation has its inputs, with
    [Y] the current year, or the year before while the annual report of
    last year is missing, the prior-year reasonable price is median x
    base x (1 + min(growth of [Y - 1], 50)/100) with no multiplier.  With
    three annual EPS values the base is the mean of the second and the
    third most recent ones (the call returns when the price of the
    current window is valid or the annual report of [Y - 1] exists); with
    fewer the base is the EPS of the annual report of [Y - 2], the annual
    reports of [Y - 1] and [Y - 2] being there. *)
Theorem LastYearRightPrice_formula dc now bi hf pe mid :
  fetched dc bi hf pe mid ->
  let Y :=
    match eastmoney.GetReport hf (time.Year now - 1) eastmoney.FinaReportTypeYear with
    | Some _ => time.Year now
    | None => (time.Year now - 1)%Z
    end in
  let eps :=
    eastmoney.ValueList hf eastmoney.ValueListTypeEPS 3 eastmoney.FinaReportTypeYear in
  let growth :=
    1 + Spec.capped (eastmoney.GetAvgRevenueIncreasingRatioByYear hf (Y - 1)) / 100 in
  ((3 <= List.length eps)%nat ->
   Spec.valid (Spec.reasonablePrice mid (Spec.mean eps)
                 (eastmoney.GetAvgRevenueIncreasingRatioByYear hf Y)
                 (Spec.multiplier eps)) = true \/
   (exists r, eastmoney.GetReport hf (Y - 1) eastmoney.FinaReportTypeYear = Some r) ->
   exists s, NewStock dc now bi = Done (s, None) /\
     LastYearRightPrice s = mid * ((nth 1 eps 0 + nth 2 eps 0) / 2 * growth)) /\
  (forall r r', (List.length eps < 3)%nat ->
     eastmoney.GetReport hf (Y - 1) eastmoney.FinaReportTypeYear = Some r ->
     eastmoney.GetReport hf (Y - 2) eastmoney.FinaReportTypeYear = Some r' ->
     exists s, NewStock dc now bi = Done (s, None) /\
       LastYearRightPrice s = mid * (eastmoney.Epsjb r' * growth)).
Proof.
  intros Hf Y eps growth.
  destruct (reportWindow_fiscal hf (time.Year now)) as (Hl & Hb & Hg & Hgl).
  fold Y in Hl, Hb, Hg, Hgl.
  set (w := reportWindow hf (time.Year now)) in *.
  assert (Hrun : forall v,
    rightPrice mid (currentPrice bi) (thisYearAvgRevIncrRatio w)
      (lastYearAvgRevIncrRatio w) eps (lastYearReport w)
      (beforeLastYearReport w) = Done v ->
    exists s lb, NewStock dc now bi = Done (s, None) /\
      LastYearRightPrice s = mid * (lb * growth) /\
      (if (3 <=? List.length eps)%nat then lb = (at_ eps 1 + at_ eps 2) / 2
       else exists r, beforeLastYearReport w = Some r /\ lb = eastmoney.Epsjb r)).
  { intros v Hv.
    destruct (NewStock_valuation _ now _ _ _ _ _ Hf Hv) as (s & Hs & _ & _ & Hly).
    destruct (rightPrice_inv _ _ _ _ _ _ _ _ Hv)
      as (b & lb & _ & Hlb & _ & _ & _ & _ & Hlast & _).
    exists s, lb. split; [assumption|]. split; [|assumption].
    rewrite Hly, Hlast, Hgl. reflexivity. }
  split.
  - intros Hlen Hok.
    destruct (rightPrice_total (currentPrice bi) mid (thisYearAvgRevIncrRatio w)
                (lastYearAvgRevIncrRatio w) eps (lastYearReport w)
                (beforeLastYearReport w)) as [v Hv].
    { left. split; [assumption|]. rewrite Hg, Hl. assumption. }
    destruct (Hrun v Hv) as (s & lb & Hs & Hly & Hlb).
    exists s. split; [assumption|].
    apply Nat.leb_le in Hlen. rewrite Hlen in Hlb. subst lb. exact Hly.
  - intros r r' Hlen Hr Hr'.
    destruct (rightPrice_total (currentPrice bi) mid (thisYearAvgRevIncrRatio w)
                (lastYearAvgRevIncrRatio w) eps (lastYearReport w)
                (beforeLastYearReport w)) as [v Hv].
    { right. split; [assumption|]. rewrite Hl, Hb. eauto. }
    destruct (Hrun v Hv) as (s & lb & Hs & Hly & Hlb).
    exists s. split; [assumption|].
    apply Nat.leb_gt in Hlen. rewrite Hlen in Hlb.
    destruct Hlb as (r0 & Hr0 & ->). rewrite Hb in Hr0.
    assert (r0 = r') by congruence. subst r0. exact Hly.
Qed.

(** C2: the PEG of a constructed stock is -1 when the three-year profit
    growth rate is zero or negative and when PE / growth is NaN or
    infinite; otherwise it is PE / growth; it is never NaN. *)
Theorem NewStock_PEG dc now bi s e :
  NewStock dc now bi = Done (s, e) ->
  let pe := eastmoney.PE bi in
  let g := eastmoney.NetprofitGrowthrate3Y bi in
  ((g =? 0) = true \/ (g <? 0) = true -> PEG s = (-1)) /\
  (math.IsNaN (pe / g) = true \/ math.IsInf (pe / g) 0 = true -> PEG s = (-1)) /\
  ((g =? 0) = false -> (g <? 0) = false ->
   math.IsNaN (pe / g) = false -> math.IsInf (pe / g) 0 = false ->
   PEG s = pe / g) /\
  math.IsNaN (PEG s) = false.
Proof.
  intros Hs pe g.
  destruct (NewStock_inv _ _ _ _ _ Hs) as (_ & _ & _ & _ & Hpeg & _).
  rewrite Hpeg. unfold computePEG. fold g pe.
  destruct (g =? 0) eqn:Hz; [|destruct (g <? 0) eqn:Hn];
    [ | |destruct (math.IsNaN (pe / g)) eqn:Hnan;
          [|destruct (math.IsInf (pe / g) 0) eqn:Hinf]];
    cbn [orb]; repeat split; intros;
    repeat match goal with H : _ \/ _ |- _ => destruct H end;
    try reflexivity; try discriminate; try assumption.
Qed.

(** C7 (as amended): the management sub-score is 7.5 for every stock,
    whatever the length of its fundamentals history. *)
Theorem calculateManagementScore_constant (s : Stock) :
  calculateManagementScore s = 7.5 /\
  ManagementScore (calculateBuffettScore s) = 7.5.
Proof. split; reflexivity. Qed.

(** The total of a score is the sum of its ten sub-scores, added in the
    order of the source. *)
Lemma TotalScore_sum (s : Stock) :
  let b := calculateBuffettScore s in
  TotalScore b =
    ROEScore b + CashFlowScore b + ProfitGrowthScore b + DebtRatioScore b
    + MoatScore b + ManagementScore b + ValuationScore b + RDScore b
    + DividendScore b + RepurchaseScore b.
Proof. reflexivity. Qed.

(** X6: the sub-scores that cannot leave their range: cash flow, leverage,
    moat, management, valuation and the three fixed ones. *)
Lemma fixed_subscores_in_range (s : Stock) :
  let b := calculateBuffettScore s in
  In (CashFlowScore b) [0; 5; 10; 15] /\
  In (DebtRatioScore b) [0; 5; 8; 10] /\
  In (MoatScore b) [3; 5; 8] /\
  ManagementScore b = 7.5 /\
  In (ValuationScore b) [0; 5; 8; 12; 15] /\
  RDScore b = 5 /\ DividendScore b = 5 /\ RepurchaseScore b = 5.
Proof.
  cbn [calculateBuffettScore CashFlowScore DebtRatioScore MoatScore
       ManagementScore ValuationScore RDScore DividendScore RepurchaseScore].
  repeat split; try reflexivity.
  - unfold calculateCashFlowScore.
    destruct (List.length (HistoricalCashflowList s) <? 3)%nat; [left; reflexivity|].
    destruct (List.length _) as [|[|[|[|n]]]]; in_range.
  - unfold calculateDebtRatioScore.
    destruct (HistoricalFinaMainData s) as [|latest rest]; [left; reflexivity|].
    destruct (_ <? 30); [|destruct (_ <? 50); [|destruct (_ <? 70)]]; in_range.
  - unfold calculateMoatScore.
    destruct (existsb _ _); [|destruct (existsb _ _)]; in_range.
  - unfold calculateValuationScore.
    destruct (_ <? 10); [|destruct (_ <? 15); [|destruct (_ <? 20); [|destruct (_ <? 30)]]];
      destruct ((0 <? PEG s) && (PEG s <? 1)); in_range.
Qed.

(** X1: a provider that fails leaves the fields of its goroutine at their
    zero values in the stock the call returns. *)
Lemma NewStock_failed_fetch dc now bi s e :
  NewStock dc now bi = Done (s, e) ->
  (forall m, datacenter.QueryValuationStatus dc (eastmoney.Secucode bi) = Err m ->
     ValuationMap s = []) /\
  (forall m, datacenter.QueryHistoricalStockPrice dc (eastmoney.Secucode bi) = Err m ->
     HistoricalPrice s = eniu.zero /\ HistoricalVolatility s = 0) /\
  (forall m, datacenter.QueryCompanyProfile dc (eastmoney.Secucode bi) = Err m ->
     CompanyProfile s = eastmoney.CompanyProfile_zero) /\
  (forall m, datacenter.QueryFinaPublishDateList dc (eastmoney.SecurityCode bi) = Err m ->
     FinaAppointPublishDate s = "" /\ FinaActualPublishDate s = "" /\
     FinaReportDate s = "") /\
  (forall m, datacenter.QueryOrgRating dc (eastmoney.Secucode bi) = Err m ->
     OrgRatingList s = []) /\
  (forall m, datacenter.QueryProfitPredict dc (eastmoney.Secucode bi) = Err m ->
     ProfitPredictList s = []) /\
  (forall m, datacenter.QueryJiaZhiPingGu dc (eastmoney.Secucode bi) = Err m ->
     JZPG s = eastmoney.JZPG_zero) /\
  (forall m, datacenter.QueryFinaGincomeData dc (eastmoney.Secucode bi) = Err m ->
     HistoricalGincomeList s = [] /\ BYYSRatio s = 0 /\ FinaReportOpinion s = "") /\
  (forall m, datacenter.QueryFinaCashflowData dc (eastmoney.Secucode bi) = Err m ->
     HistoricalCashflowList s = [] /\ NetcashOperate s = 0 /\ NetcashInvest s = 0 /\
     NetcashFinance s = 0 /\ NetcashFree s = 0) /\
  (forall m, datacenter.QueryFreeHolders dc (eastmoney.Secucode bi) = Err m ->
     FreeHoldersTop10 s = []) /\
  (forall m, datacenter.QueryMainMoneyNetInflows dc (eastmoney.Secucode bi)
               (time.daysAgo60 now) (time.today now) = Err m ->
     MainMoneyNetInflows s = []).
Proof.
  unfold NewStock.
  destruct (finaTask dc now bi (GetPrice (Stock_literal bi))) as [fina|r];
    cbn [bind]; [|discriminate].
  destruct (priceTask dc bi) as [hisPrice hv] eqn:Hprice.
  destruct (publishDateTask dc bi) as [[appoint actual] reportDate] eqn:Hdate.
  destruct (gincomeTask dc bi) as [[gincomeList byys] opinion] eqn:Hginc.
  intros H. injection H as <- _.
  unfold priceTask in Hprice. unfold publishDateTask in Hdate.
  unfold gincomeTask in Hginc.
  repeat match goal with |- _ /\ _ => split end; intros m Hq; cbn;
    try (rewrite Hq in Hprice; injection Hprice as <- <-; split; reflexivity);
    try (rewrite Hq in Hdate; injection Hdate as <- <- <-; repeat split);
    try (rewrite Hq in Hginc; injection Hginc as <- <- <-; repeat split);
    unfold valuationTask, profileTask, orgRatingTask, profitPredictTask,
      jzpgTask, cashflowTask, holdersTask, inflowTask;
    rewrite Hq; repeat split.
Qed.

(** A failed fundamentals query leaves the valuation fields at zero and
    the call still returns a stock and a nil error. *)
Lemma NewStock_without_fundamentals dc now bi msg :
  datacenter.QueryHistoricalFinaMainData dc (eastmoney.Secucode bi) = Err msg ->
  exists s, NewStock dc now bi = Done (s, None) /\
    HistoricalFinaMainData s = [] /\ RightPrice s = 0 /\
    PriceSpace s = 0 /\ LastYearRightPrice s = 0.
Proof.
  intros Hq.
  assert (Ht : finaTask dc now bi (currentPrice bi) =
               Done {| f_HistoricalFinaMainData := [];
                       f_HistoricalPEList := eastmoney.HistoricalPEList_zero;
                       f_RightPrice := 0; f_PriceSpace := 0;
                       f_LastYearRightPrice := 0 |}).
  { unfold finaTask. rewrite Hq. reflexivity. }
  destruct (NewStock_returns _ _ _ _ Ht) as [s Hs].
  exists s. split; [assumption|].
  destruct (NewStock_inv _ _ _ _ _ Hs)
    as (fina & Ht' & _ & _ & _ & Hh & Hrp & Hps & Hly & _).
  rewrite Ht in Ht'. injection Ht' as <-.
  repeat split; assumption.
Qed.
End Valuation.


(** ** The cash-flow fields *)

Section Cashflow.
Context {em : eastmoney.API} {en : eniu.API} {zs : zszx.API}.
Import models.
Local Open Scope float_scope.

(** C10: when the cash-flow history is fetched and not empty, the
    operating, investing and financing net cash flows of the stock are
    those of the first (most recent) report, the free cash flow is
    operating + investing when the investing flow is negative and
    operating - investing otherwise, and in both cases it is the number
    operating - |investing|. *)
Theorem NetcashFree_latest dc now bi s e cf rest :
  NewStock dc now bi = Done (s, e) ->
  datacenter.QueryFinaCashflowData dc (eastmoney.Secucode bi) = OK (cf :: rest) ->
  HistoricalCashflowList s = cf :: rest /\
  NetcashOperate s = eastmoney.NetcashOperate cf /\
  NetcashInvest s = eastmoney.NetcashInvest cf /\
  NetcashFinance s = eastmoney.NetcashFinance cf /\
  ((eastmoney.NetcashInvest cf <? 0) = true ->
     NetcashFree s = eastmoney.NetcashOperate cf + eastmoney.NetcashInvest cf) /\
  ((eastmoney.NetcashInvest cf <? 0) = false ->
     NetcashFree s = eastmoney.NetcashOperate cf - eastmoney.NetcashInvest cf) /\
  Spec.same (NetcashFree s)
    (eastmoney.NetcashOperate cf - math.Abs (eastmoney.NetcashInvest cf)) = true.
Proof.
  intros Hs Hq.
  destruct (NewStock_inv _ _ _ _ _ Hs)
    as (_ & _ & _ & _ & _ & _ & _ & _ & _ & Hl & Ho & Hi & Hf & Hfree).
  unfold cashflowTask in *. rewrite Hq in *.
  cbn [c_HistoricalCashflowList c_NetcashOperate c_NetcashInvest
       c_NetcashFinance c_NetcashFree] in *.
  rewrite Hl, Ho, Hi, Hf, Hfree. unfold math.Abs.
  destruct (eastmoney.NetcashInvest cf <? 0) eqn:Hneg;
    repeat split; try reflexivity; try discriminate.
  - rewrite (add_negative _ _ Hneg). apply same_refl.
  - apply sub_nonnegative. assumption.
Qed.
End Cashflow.

(** ** Sorting *)

Section Sorting.
Import Order.
Local Open Scope list_scope.
Local Open Scope float_scope.

Lemma sink_perm (A : Type) (less : A -> A -> bool) (a : A) (x : list A) :
  Permutation (a :: x) (sort.sink less a x).
Proof.
  induction x as [|b t IH]; cbn [sort.sink].
  - apply Permutation_refl.
  - destruct (less a b).
    + apply perm_trans with (b :: a :: t); [apply perm_swap|].
      apply perm_skip. assumption.
    + apply Permutation_refl.
Qed.

Lemma fold_sink_perm (A : Type) (less : A -> A -> bool) (x acc : list A) :
  Permutation (x ++ acc) (fold_left (fun before a => sort.sink less a before) x acc).
Proof.
  revert acc. induction x as [|a x IH]; intros acc; cbn [fold_left app].
  - apply Permutation_refl.
  - eapply perm_trans; [|apply IH].
    apply perm_trans with (x ++ a :: acc).
    + apply Permutation_middle.
    + apply Permutation_app_head. apply sink_perm.
Qed.

Lemma insertionSort_perm (A : Type) (less : A -> A -> bool) (x : list A) :
  Permutation x (sort.insertionSort less x).
Proof.
  unfold sort.insertionSort.
  eapply perm_trans; [|apply Permutation_rev].
  rewrite <- (app_nil_r x) at 1. apply fold_sink_perm.
Qed.

Lemma ordering_asym (A : Type) (less : A -> A -> bool) (x : list A) a b :
  sort.ordering less x -> In a x -> In b x ->
  less b a = true -> less a b = false.
Proof.
  intros (Hirr & Htr & _) Ha Hb Hba.
  destruct (less a b) eqn:Hab; [|reflexivity].
  rewrite <- (Hirr a Ha). symmetry. apply (Htr a b a); assumption.
Qed.

(** The inner loop keeps the part already visited in order: no element
    is less than one that stands before it. *)
Lemma sink_sorted (A : Type) (less : A -> A -> bool) (all : list A) a before :
  sort.ordering less all -> In a all -> (forall b, In b before -> In b all) ->
  StronglySorted (fun later earlier => less later earlier = false) before ->
  StronglySorted (fun later earlier => less later earlier = false)
    (sort.sink less a before).
Proof.
  intros Hord Ha. induction before as [|y rest IH]; intros Hin Hs; cbn [sort.sink].
  - constructor; constructor.
  - apply StronglySorted_inv in Hs. destruct Hs as [Hrest Hy].
    destruct (less a y) eqn:Hay.
    + constructor.
      * apply IH; [|assumption]. intros b Hb. apply Hin. right. assumption.
      * apply Forall_forall. intros e He.
        apply (Permutation_in e (Permutation_sym (sink_perm A less a rest))) in He.
        destruct He as [<-|He].
        -- apply (ordering_asym A less all y a Hord); [|assumption|assumption].
           apply Hin. left. reflexivity.
        -- rewrite Forall_forall in Hy. apply Hy. assumption.
    + constructor; [constructor; assumption|].
      constructor; [assumption|].
      apply Forall_forall. intros e He.
      destruct Hord as (_ & _ & Hneg).
      apply (Hneg a y e); try assumption.
      * apply Hin. left. reflexivity.
      * apply Hin. right. assumption.
      * rewrite Forall_forall in Hy. apply Hy. assumption.
Qed.

Lemma fold_sink_sorted (A : Type) (less : A -> A -> bool) (all x acc : list A) :
  sort.ordering less all ->
  (forall a, In a x -> In a all) -> (forall a, In a acc -> In a all) ->
  StronglySorted (fun later earlier => less later earlier = false) acc ->
  StronglySorted (fun later earlier => less later earlier = false)
    (fold_left (fun before a => sort.sink less a before) x acc).
Proof.
  intros Hord. revert acc.
  induction x as [|a x IH]; intros acc Hx Hacc Hs; cbn [fold_left].
  - assumption.
  - apply IH.
    + intros c Hc. apply Hx. right. assumption.
    + intros c Hc.
      apply (Permutation_in c (Permutation_sym (sink_perm A less a acc))) in Hc.
      destruct Hc as [<-|Hc]; [apply Hx; left; reflexivity|apply Hacc; assumption].
    + apply (sink_sorted A less all); try assumption.
      apply Hx. left. reflexivity.
Qed.

Lemma StronglySorted_snoc (A : Type) (R : A -> A -> Prop) (l : list A) (a : A) :
  StronglySorted R l -> Forall (fun z => R z a) l -> StronglySorted R (l ++ [a]).
Proof.
  induction l as [|b l IH]; intros Hs Hall; cbn [app].
  - constructor; constructor.
  - apply StronglySorted_inv in Hs. destruct Hs as [Hl Hb].
    apply Forall_inv_tail in Hall as Hall'. apply Forall_inv in Hall.
    constructor; [apply IH; assumption|].
    apply Forall_app. split; [assumption|].
    constructor; [assumption|constructor].
Qed.

Lemma StronglySorted_reversed (A : Type) (R : A -> A -> Prop) (l : list A) :
  StronglySorted (fun later earlier => R earlier later) l ->
  StronglySorted R (rev l).
Proof.
  induction l as [|y t IH]; intros Hs; cbn [rev].
  - constructor.
  - apply StronglySorted_inv in Hs. destruct Hs as [Ht Hy].
    apply StronglySorted_snoc; [apply IH; assumption|].
    apply Forall_rev. assumption.
Qed.

Lemma SliceIsSorted_of_sorted (A : Type) (less : A -> A -> bool) (x : list A) :
  StronglySorted (fun earlier later => less later earlier = false) x ->
  sort.SliceIsSorted x less = true.
Proof.
  induction x as [|a x IH]; intros Hs; [reflexivity|].
  apply StronglySorted_inv in Hs. destruct Hs as [Hx Ha].
  destruct x as [|b x]; [reflexivity|].
  change (negb (less b a) && sort.SliceIsSorted (b :: x) less = true).
  apply Forall_inv in Ha. rewrite Ha. apply IH. assumption.
Qed.

(** The insertion sort does what [sort.Slice] documents. *)
Lemma insertionSort_contract :
  sort.Slice_contract (fun A x less => sort.insertionSort less x).
Proof.
  intros A x less. split; [apply insertionSort_perm|].
  intros Hord. unfold sort.insertionSort.
  apply SliceIsSorted_of_sorted.
  apply (StronglySorted_reversed A (fun earlier later => less later earlier = false)).
  apply (fold_sink_sorted A less x x []); auto.
  - intros a [].
  - constructor.
Qed.

Lemma Slice_contract_Slice (beyond : sort.Sorter) :
  sort.Slice_contract beyond -> sort.Slice_contract (sort.Slice beyond).
Proof.
  intros Hc A x less. unfold sort.Slice.
  destruct (List.length x <=? 6)%nat.
  - apply insertionSort_contract.
  - apply Hc.
Qed.

(** Both generations of [sort.Slice] are [sort.Slice] as modelled: up to
    six elements they are the insertion sort. *)
Lemma Slice_quickSort_func (beyond : sort.Sorter) (A : Type) (x : list A)
    (less : A -> A -> bool) :
  sort.Slice (sort.quickSort_func beyond) A x less = sort.quickSort_func beyond A x less.
Proof.
  unfold sort.Slice, sort.quickSort_func.
  destruct (List.length x <=? 6)%nat eqn:Hlen; [|reflexivity].
  apply Nat.leb_le in Hlen.
  replace (List.length x <=? 12)%nat with true by (symmetry; apply Nat.leb_le; lia).
  replace (List.length x - 6)%nat with 0%nat by lia. cbn [seq fold_left].
  destruct x as [|a [|b t]]; reflexivity.
Qed.

Lemma Slice_pdqsort_func (beyond : sort.Sorter) (A : Type) (x : list A)
    (less : A -> A -> bool) :
  sort.Slice (sort.pdqsort_func beyond) A x less = sort.pdqsort_func beyond A x less.
Proof.
  unfold sort.Slice, sort.pdqsort_func.
  destruct (List.length x <=? 6)%nat eqn:Hlen; [|reflexivity].
  apply Nat.leb_le in Hlen.
  replace (List.length x <=? 12)%nat with true by (symmetry; apply Nat.leb_le; lia).
  reflexivity.
Qed.

(** *** The two generations sort

    Exchanges rearrange; the Shell pass is made of them, and so is the
    partition, whose loops are followed by their invariants. *)
Lemma store_length (A : Type) (x : list A) i a : List.length (sort.store x i a) = List.length x.
Proof.
  revert i. induction x as [|b t IH]; intros [|i]; cbn; try reflexivity.
  rewrite IH. reflexivity.
Qed.

Lemma store_same (A : Type) (x : list A) i a :
  (i < List.length x)%nat -> nth_error (sort.store x i a) i = Some a.
Proof.
  revert i. induction x as [|b t IH]; intros [|i] Hi; cbn in *; try lia; try reflexivity.
  apply IH. lia.
Qed.

Lemma store_other (A : Type) (x : list A) i k a :
  k <> i -> nth_error (sort.store x i a) k = nth_error x k.
Proof.
  revert i k. induction x as [|b t IH]; intros [|i] [|k] Hk; cbn; try reflexivity; try congruence.
  apply IH. congruence.
Qed.

Lemma store_perm (A : Type) (t : list A) k b c :
  nth_error t k = Some b -> Permutation (c :: t) (b :: sort.store t k c).
Proof.
  revert k. induction t as [|d t IH]; intros [|k] Hk; cbn in *; try discriminate.
  - injection Hk as ->. apply perm_swap.
  - apply perm_trans with (d :: c :: t); [apply perm_swap|].
    apply perm_trans with (d :: b :: sort.store t k c); [|apply perm_swap].
    apply perm_skip. apply IH. assumption.
Qed.

Lemma Swap_perm (A : Type) (x : list A) i j : Permutation x (sort.Swap x i j).
Proof.
  unfold sort.Swap.
  destruct (nth_error x i) as [a|] eqn:Hi; [|apply Permutation_refl].
  destruct (nth_error x j) as [b|] eqn:Hj; [|apply Permutation_refl].
  revert i j Hi Hj. induction x as [|c t IH]; intros [|i] [|j] Hi Hj; cbn in *;
    try discriminate.
  - injection Hi as ->. injection Hj as ->. apply Permutation_refl.
  - injection Hi as ->. apply store_perm. assumption.
  - injection Hj as ->. apply store_perm. assumption.
  - apply perm_skip. apply IH; assumption.
Qed.

Lemma Swap_length (A : Type) (x : list A) i j :
  List.length (sort.Swap x i j) = List.length x.
Proof.
  unfold sort.Swap.
  destruct (nth_error x i); [|reflexivity]. destruct (nth_error x j); [|reflexivity].
  rewrite !store_length. reflexivity.
Qed.

Lemma Swap_nth (A : Type) (x : list A) i j k :
  (i < List.length x)%nat -> (j < List.length x)%nat ->
  nth_error (sort.Swap x i j) k =
    if (k =? j)%nat then nth_error x i
    else if (k =? i)%nat then nth_error x j
    else nth_error x k.
Proof.
  intros Hi Hj. unfold sort.Swap.
  destruct (nth_error x i) as [a|] eqn:Ei; [|apply nth_error_None in Ei; lia].
  destruct (nth_error x j) as [b|] eqn:Ej; [|apply nth_error_None in Ej; lia].
  destruct (k =? j)%nat eqn:Ekj.
  - apply Nat.eqb_eq in Ekj. subst k. apply store_same. rewrite store_length. assumption.
  - apply Nat.eqb_neq in Ekj. rewrite store_other by assumption.
    destruct (k =? i)%nat eqn:Eki.
    + apply Nat.eqb_eq in Eki. subst k. apply store_same. assumption.
    + apply Nat.eqb_neq in Eki. apply store_other. assumption.
Qed.

Lemma ordering_perm (A : Type) (less : A -> A -> bool) (x y : list A) :
  Permutation x y -> sort.ordering less x -> sort.ordering less y.
Proof.
  intros Hp (Hirr & Htr & Hneg).
  assert (Hin : forall a, In a y -> In a x)
    by (intros a; apply Permutation_in; apply Permutation_sym; assumption).
  repeat split.
  - intros a Ha. apply Hirr. auto.
  - intros a b c Ha Hb Hc. apply Htr; auto.
  - intros a b c Ha Hb Hc. apply Hneg; auto.
Qed.

(** The Shell pass rearranges. *)
Lemma shell_perm (A : Type) (less : A -> A -> bool) (l : list nat) (x : list A) :
  Permutation x
    (fold_left
       (fun data i =>
          if sort.Less less data i (i - 6) then sort.Swap data i (i - 6) else data)
       l x).
Proof.
  revert x. induction l as [|i l IH]; intros x; cbn [fold_left].
  - apply Permutation_refl.
  - eapply perm_trans; [|apply IH].
    destruct (sort.Less less x i (i - 6)); [apply Swap_perm|apply Permutation_refl].
Qed.

(** [quickSort_func] on at most twelve elements does what [sort.Slice]
    documents. *)
Lemma quickSort_func_contract (beyond : sort.Sorter) :
  sort.Slice_contract beyond -> sort.Slice_contract (sort.quickSort_func beyond).
Proof.
  intros Hc A x less. unfold sort.quickSort_func.
  destruct (List.length x <=? 12)%nat; [|apply Hc].
  destruct (1 <? List.length x)%nat eqn:Hn.
  - pose proof (shell_perm A less (seq 6 (List.length x - 6)) x) as Hp.
    destruct (insertionSort_contract A
                (fold_left
                   (fun data i =>
                      if sort.Less less data i (i - 6)
                      then sort.Swap data i (i - 6) else data)
                   (seq 6 (List.length x - 6)) x) less) as [Hp' Hs].
    split.
    + eapply perm_trans; eassumption.
    + intros Hord. apply Hs. apply (ordering_perm A less x); assumption.
  - split; [apply Permutation_refl|]. intros _.
    apply Nat.ltb_ge in Hn. destruct x as [|a [|b t]]; try reflexivity.
    cbn in Hn. lia.
Qed.

Lemma Less_pivot (A : Type) (less : A -> A -> bool) (p e : A) (x : list A) k :
  nth_error x 0 = Some p -> nth_error x k = Some e ->
  sort.Less less x k 0 = less e p.
Proof. intros H0 Hk. unfold sort.Less. rewrite Hk, H0. reflexivity. Qed.

Lemma nth_error_some (A : Type) (x : list A) k :
  (k < List.length x)%nat -> exists e, nth_error x k = Some e.
Proof.
  intros Hk. destruct (nth_error x k) as [e|] eqn:E; [eauto|].
  apply nth_error_None in E. lia.
Qed.

(** The first scan stops at the first element that does not go before
    the pivot, or past [j]. *)
Lemma scanUp_spec (A : Type) (less : A -> A -> bool) (p : A) (x : list A) (j : nat) :
  nth_error x 0 = Some p -> (j < List.length x)%nat ->
  forall fuel i, (j + 1 - i <= fuel)%nat -> (i <= j + 1)%nat ->
  (i <= sort.scanUp less x 0 j fuel i <= j + 1)%nat /\
  (forall k, (i <= k < sort.scanUp less x 0 j fuel i)%nat -> sort.before less p x k) /\
  ((sort.scanUp less x 0 j fuel i <= j)%nat ->
   sort.notBefore less p x (sort.scanUp less x 0 j fuel i)).
Proof.
  intros H0 Hj. induction fuel as [|fuel IH]; intros i Hf Hi; cbn [sort.scanUp].
  - split; [lia|]. split; intros; lia.
  - destruct (i <=? j)%nat eqn:Hij; cbn [andb].
    + apply Nat.leb_le in Hij.
      destruct (nth_error_some A x i ltac:(lia)) as [e He].
      rewrite (Less_pivot A less p e x i H0 He).
      destruct (less e p) eqn:Hep.
      * destruct (IH (S i) ltac:(lia) ltac:(lia)) as (Hr & Hb & Hn).
        split; [lia|]. split; [|assumption].
        intros k Hk. destruct (Nat.eq_dec k i) as [->|Hne].
        -- exists e. split; assumption.
        -- apply Hb. lia.
      * split; [lia|]. split; [intros; lia|].
        intros _. exists e. split; assumption.
    + apply Nat.leb_gt in Hij. split; [lia|]. split; intros; lia.
Qed.

(** The second scan stops at the last element that goes before the
    pivot, or below [i]. *)
Lemma scanDown_spec (A : Type) (less : A -> A -> bool) (p : A) (x : list A) (i : nat) :
  nth_error x 0 = Some p -> (1 <= i)%nat ->
  forall fuel j, (j < List.length x)%nat -> (i <= j + 1)%nat -> (j + 1 - i <= fuel)%nat ->
  (sort.scanDown less x 0 i fuel j <= j)%nat /\
  (i <= sort.scanDown less x 0 i fuel j + 1)%nat /\
  (forall k, (sort.scanDown less x 0 i fuel j < k <= j)%nat -> sort.notBefore less p x k) /\
  ((i <= sort.scanDown less x 0 i fuel j)%nat ->
   sort.before less p x (sort.scanDown less x 0 i fuel j)).
Proof.
  intros H0 Hi1. induction fuel as [|fuel IH]; intros j Hj Hi Hf; cbn [sort.scanDown].
  - split; [lia|]. split; [lia|]. split; intros; lia.
  - destruct (i <=? j)%nat eqn:Hij; cbn [andb].
    + apply Nat.leb_le in Hij.
      destruct (nth_error_some A x j Hj) as [e He].
      rewrite (Less_pivot A less p e x j H0 He).
      destruct (less e p) eqn:Hep; cbn [negb].
      * split; [lia|]. split; [lia|]. split; [intros; lia|].
        intros _. exists e. split; assumption.
      * destruct (IH (j - 1)%nat ltac:(lia) ltac:(lia) ltac:(lia)) as (Hr & Hr' & Hn & Hb).
        split; [lia|]. split; [lia|]. split; [|assumption].
        intros k Hk. destruct (Nat.eq_dec k j) as [->|Hne].
        -- exists e. split; assumption.
        -- apply Hn. lia.
    + apply Nat.leb_gt in Hij. split; [lia|]. split; [lia|]. split; intros; lia.
Qed.

(** The closing loop of the partition: the elements before [i] go before
    the pivot, the elements after [j] do not, and so it ends. *)
Lemma exchange_spec (A : Type) (less : A -> A -> bool) (p : A) :
  forall fuel (x : list A) i j,
  nth_error x 0 = Some p -> (1 <= i)%nat -> (j < List.length x)%nat ->
  (i <= j + 1)%nat -> (j + 1 - i <= fuel)%nat ->
  (forall k, (1 <= k < i)%nat -> sort.before less p x k) ->
  (forall k, (j < k < List.length x)%nat -> sort.notBefore less p x k) ->
  Permutation x (fst (sort.exchange less fuel x 0 i j)) /\
  List.length (fst (sort.exchange less fuel x 0 i j)) = List.length x /\
  nth_error (fst (sort.exchange less fuel x 0 i j)) 0 = Some p /\
  (snd (sort.exchange less fuel x 0 i j) < List.length x)%nat /\
  (forall k, (1 <= k <= snd (sort.exchange less fuel x 0 i j))%nat ->
     sort.before less p (fst (sort.exchange less fuel x 0 i j)) k) /\
  (forall k, (snd (sort.exchange less fuel x 0 i j) < k < List.length x)%nat ->
     sort.notBefore less p (fst (sort.exchange less fuel x 0 i j)) k).
Proof.
  induction fuel as [|fuel IH]; intros x i j H0 Hi Hj Hij Hf Hb Hn;
    cbn [sort.exchange].
  - cbn [fst snd]. split; [apply Permutation_refl|]. split; [reflexivity|].
    split; [assumption|]. split; [assumption|]. split; [|assumption].
    intros k Hk. apply Hb. lia.
  - destruct (scanUp_spec A less p x j H0 Hj (List.length x) i ltac:(lia) Hij)
      as (Hi1 & Hb1 & Hn1).
    set (i1 := sort.scanUp less x 0 j (List.length x) i) in *.
    destruct (scanDown_spec A less p x i1 H0 ltac:(lia) (List.length x) j Hj
                ltac:(lia) ltac:(lia))
      as (Hj1 & Hj1' & Hn2 & Hb2).
    set (j1 := sort.scanDown less x 0 i1 (List.length x) j) in *.
    destruct (j1 <? i1)%nat eqn:Hlt.
    + apply Nat.ltb_lt in Hlt. cbn [fst snd].
      split; [apply Permutation_refl|]. split; [reflexivity|].
      split; [assumption|]. split; [lia|]. split.
      * intros k Hk. destruct (Nat.lt_ge_cases k i); [apply Hb; lia|apply Hb1; lia].
      * intros k Hk. destruct (Nat.lt_ge_cases j k); [apply Hn; lia|apply Hn2; lia].
    + apply Nat.ltb_ge in Hlt.
      destruct (Hn1 ltac:(lia)) as (ei & Hei & Hlei).
      destruct (Hb2 Hlt) as (ej & Hej & Hlej).
      assert (Hne : i1 <> j1) by (intros E; rewrite E in Hei; congruence).
      assert (Hi1len : (i1 < List.length x)%nat) by lia.
      assert (Hj1len : (j1 < List.length x)%nat) by lia.
      pose proof (Swap_nth A x i1 j1) as Hsw.
      destruct (IH (sort.Swap x i1 j1) (S i1) (j1 - 1)%nat) as (P1 & P2 & P3 & P4 & P5 & P6).
      * rewrite Hsw by assumption.
        replace (0 =? j1)%nat with false by (symmetry; apply Nat.eqb_neq; lia).
        replace (0 =? i1)%nat with false by (symmetry; apply Nat.eqb_neq; lia).
        assumption.
      * lia.
      * rewrite Swap_length. lia.
      * lia.
      * lia.
      * intros k Hk. unfold sort.before. rewrite Hsw by assumption.
        replace (k =? j1)%nat with false by (symmetry; apply Nat.eqb_neq; lia).
        destruct (k =? i1)%nat eqn:Eki.
        -- exists ej. split; assumption.
        -- apply Nat.eqb_neq in Eki.
           destruct (Nat.lt_ge_cases k i); [apply Hb; lia|apply Hb1; lia].
      * intros k Hk. rewrite Swap_length in Hk.
        unfold sort.notBefore. rewrite Hsw by assumption.
        destruct (k =? j1)%nat eqn:Ekj.
        -- exists ei. split; assumption.
        -- apply Nat.eqb_neq in Ekj.
           replace (k =? i1)%nat with false by (symmetry; apply Nat.eqb_neq; lia).
           destruct (Nat.lt_ge_cases j k); [apply Hn; lia|apply Hn2; lia].
      * rewrite Swap_length in *.
        split; [eapply perm_trans; [apply Swap_perm|eassumption]|].
        split; [assumption|]. split; [assumption|]. split; [lia|].
        split; assumption.
Qed.

(** [partition_func] is the loop entered after the pivot has gone to the
    front, its first turn written out. *)
Lemma partition_exchange (A : Type) (less : A -> A -> bool) (x : list A) (b pivot : nat) :
  fst (sort.partition_func less x 0 b pivot) =
    (sort.Swap
       (fst (sort.exchange less (S (List.length x)) (sort.Swap x 0 pivot) 0 1 (b - 1)))
       (snd (sort.exchange less (S (List.length x)) (sort.Swap x 0 pivot) 0 1 (b - 1))) 0,
     snd (sort.exchange less (S (List.length x)) (sort.Swap x 0 pivot) 0 1 (b - 1))).
Proof.
  unfold sort.partition_func. cbv zeta. cbn [sort.exchange Nat.add].
  rewrite !Swap_length.
  destruct (_ <? _)%nat; [reflexivity|].
  destruct (sort.exchange less (List.length x) _ 0 _ _) as [x' j']. reflexivity.
Qed.

(** After the partition the pivot stands at [mid], the elements that go
    before it stand before [mid] and no other does. *)
Lemma partition_spec (A : Type) (less : A -> A -> bool) (x : list A) (pivot : nat) (p : A) :
  nth_error x pivot = Some p ->
  Permutation x (fst (fst (sort.partition_func less x 0 (List.length x) pivot))) /\
  List.length (fst (fst (sort.partition_func less x 0 (List.length x) pivot)))
    = List.length x /\
  nth_error (fst (fst (sort.partition_func less x 0 (List.length x) pivot)))
    (snd (fst (sort.partition_func less x 0 (List.length x) pivot))) = Some p /\
  (snd (fst (sort.partition_func less x 0 (List.length x) pivot)) < List.length x)%nat /\
  (forall k, (k < snd (fst (sort.partition_func less x 0 (List.length x) pivot)))%nat ->
     sort.before less p
       (fst (fst (sort.partition_func less x 0 (List.length x) pivot))) k) /\
  (forall k,
     (snd (fst (sort.partition_func less x 0 (List.length x) pivot)) < k
      < List.length x)%nat ->
     sort.notBefore less p
       (fst (fst (sort.partition_func less x 0 (List.length x) pivot))) k).
Proof.
  intros Hp. rewrite partition_exchange. cbn [fst snd].
  assert (Hpiv : (pivot < List.length x)%nat)
    by (apply nth_error_Some; congruence).
  assert (H0 : nth_error (sort.Swap x 0 pivot) 0 = Some p).
  { rewrite Swap_nth by lia. destruct (0 =? pivot)%nat eqn:E.
    - apply Nat.eqb_eq in E. subst pivot. assumption.
    - cbn [Nat.eqb]. assumption. }
  destruct (exchange_spec A less p (S (List.length x)) (sort.Swap x 0 pivot) 1
              (List.length x - 1)%nat H0 ltac:(lia)
              ltac:(rewrite Swap_length; lia) ltac:(lia) ltac:(lia))
    as (P1 & P2 & P3 & P4 & P5 & P6).
  { intros k Hk. lia. }
  { intros k Hk. rewrite Swap_length in Hk. lia. }
  rewrite Swap_length in *.
  set (x' := fst (sort.exchange less (S (List.length x)) (sort.Swap x 0 pivot) 0 1
                    (List.length x - 1))) in *.
  set (j' := snd (sort.exchange less (S (List.length x)) (sort.Swap x 0 pivot) 0 1
                    (List.length x - 1))) in *.
  pose proof (Swap_nth A x' j' 0) as Hsw.
  split.
  { eapply perm_trans; [apply Swap_perm|].
    eapply perm_trans; [eassumption|apply Swap_perm]. }
  split; [assumption|].
  split.
  { rewrite Hsw by lia. destruct (j' =? 0)%nat eqn:E.
    - apply Nat.eqb_eq in E. rewrite E. assumption.
    - rewrite Nat.eqb_refl. assumption. }
  split; [assumption|]. split.
  - intros k Hk. unfold sort.before. rewrite Hsw by lia.
    destruct (k =? 0)%nat eqn:E0.
    + apply (P5 j'). lia.
    + apply Nat.eqb_neq in E0.
      replace (k =? j')%nat with false by (symmetry; apply Nat.eqb_neq; lia).
      apply (P5 k). lia.
  - intros k Hk. unfold sort.notBefore. rewrite Hsw by lia.
    replace (k =? 0)%nat with false by (symmetry; apply Nat.eqb_neq; lia).
    replace (k =? j')%nat with false by (symmetry; apply Nat.eqb_neq; lia).
    apply (P6 k). lia.
Qed.

Lemma nth_error_pieces (A : Type) (x : list A) k e :
  nth_error x k = Some e ->
  firstn 1 (skipn k x) = [e] /\ firstn k x ++ e :: skipn (S k) x = x.
Proof.
  revert k. induction x as [|a t IH]; intros [|k] Hk; cbn in *; try discriminate.
  - injection Hk as ->. split; reflexivity.
  - destruct (IH k Hk) as [H1 H2]. split; [assumption|].
    f_equal. assumption.
Qed.

Lemma In_firstn_index (A : Type) (x : list A) m e :
  In e (firstn m x) -> exists k, (k < m)%nat /\ nth_error x k = Some e.
Proof.
  revert m. induction x as [|a t IH]; intros [|m] Hin; cbn in *; try contradiction.
  destruct Hin as [<-|Hin].
  - exists 0%nat. split; [lia|reflexivity].
  - destruct (IH m Hin) as (k & Hk & He). exists (S k). split; [lia|assumption].
Qed.

Lemma In_skipn_index (A : Type) (x : list A) m e :
  In e (skipn m x) ->
  exists k, (m <= k < List.length x)%nat /\ nth_error x k = Some e.
Proof.
  revert m. induction x as [|a t IH]; intros [|m] Hin; cbn in *; try contradiction.
  - destruct Hin as [<-|Hin].
    + exists 0%nat. split; [lia|reflexivity].
    + destruct (IH 0%nat Hin) as (k & Hk & He).
      exists (S k). split; [lia|assumption].
  - destruct (IH m Hin) as (k & Hk & He). exists (S k). split; [lia|assumption].
Qed.

Lemma StronglySorted_append (A : Type) (R : A -> A -> Prop) (l1 l2 : list A) :
  StronglySorted R l1 -> StronglySorted R l2 ->
  (forall a b, In a l1 -> In b l2 -> R a b) ->
  StronglySorted R (l1 ++ l2).
Proof.
  induction l1 as [|c l1 IH]; intros H1 H2 H12; cbn [app]; [assumption|].
  apply StronglySorted_inv in H1. destruct H1 as [Hl1 Hc].
  constructor.
  - apply IH; try assumption. intros a b Ha Hb. apply H12; [right|]; assumption.
  - apply Forall_app. split; [assumption|].
    apply Forall_forall. intros b Hb. apply H12; [left; reflexivity|assumption].
Qed.

(** The insertion sort leaves no element less than one before it. *)
Lemma insertionSort_strongly (A : Type) (less : A -> A -> bool) (all x : list A) :
  sort.ordering less all -> (forall a, In a x -> In a all) ->
  StronglySorted (fun earlier later => less later earlier = false)
    (sort.insertionSort less x).
Proof.
  intros Hord Hin. unfold sort.insertionSort.
  apply (StronglySorted_reversed A (fun earlier later => less later earlier = false)).
  apply (fold_sink_sorted A less all x []); auto.
  - intros a [].
  - constructor.
Qed.

(** A slice in which no element is less than the one before it is
    sorted as it is. *)
Lemma partialInsertionSort_sorted (A : Type) (less : A -> A -> bool) (x : list A) :
  sort.partialInsertionSort_func less x 0 (List.length x) = true ->
  sort.SliceIsSorted x less = true.
Proof.
  unfold sort.partialInsertionSort_func. cbn [Nat.add].
  rewrite Nat.sub_0_r, forallb_forall. intros H.
  assert (Hadj : forall i a b, nth_error x i = Some a -> nth_error x (S i) = Some b ->
                 less b a = false).
  { intros i a b Ha Hb.
    assert (Hi : (S i < List.length x)%nat) by (apply nth_error_Some; congruence).
    specialize (H (S i)). rewrite in_seq in H. specialize (H ltac:(lia)).
    unfold sort.Less in H. cbn [Nat.sub] in H. rewrite Nat.sub_0_r, Hb, Ha in H.
    apply negb_true_iff in H. assumption. }
  clear H. induction x as [|a x IH]; [reflexivity|].
  destruct x as [|b x]; [reflexivity|].
  change (negb (less b a) && sort.SliceIsSorted (b :: x) less = true).
  rewrite (Hadj 0%nat a b eq_refl eq_refl). apply IH.
  intros i c d Hc Hd. apply (Hadj (S i) c d); assumption.
Qed.

(** [pdqsort_func] on at most thirteen elements does what [sort.Slice]
    documents. *)
Lemma pdqsort_func_contract (beyond : sort.Sorter) :
  sort.Slice_contract beyond -> sort.Slice_contract (sort.pdqsort_func beyond).
Proof.
  intros Hc A x less. unfold sort.pdqsort_func.
  destruct (List.length x <=? 12)%nat; [apply insertionSort_contract|].
  destruct (List.length x =? 13)%nat eqn:Hn; [|apply Hc].
  apply Nat.eqb_eq in Hn.
  destruct (sort.choosePivot_func less x 0 (List.length x)) as [pivot swaps] eqn:Hpiv.
  destruct ((swaps =? 0)%nat && sort.partialInsertionSort_func less x 0 (List.length x))
    eqn:Hsorted.
  { split; [apply Permutation_refl|]. intros _.
    apply andb_true_iff in Hsorted. apply partialInsertionSort_sorted. tauto. }
  clear Hsorted.
  assert (Hrange : (pivot < List.length x)%nat).
  { rewrite Hn in *. unfold sort.choosePivot_func, sort.median_func, sort.order2_func in Hpiv.
    cbn in Hpiv.
    repeat match type of Hpiv with
           | context [if ?c then _ else _] => destruct c; cbn in Hpiv
           end; injection Hpiv as <- _; lia. }
  destruct (nth_error_some A x pivot Hrange) as [p Hp].
  destruct (partition_spec A less x pivot p Hp) as (P1 & P2 & P3 & P4 & P5 & P6).
  destruct (sort.partition_func less x 0 (List.length x) pivot) as [[data mid] already].
  cbn [fst snd] in *.
  destruct (nth_error_pieces A data mid p P3) as [Hone Hsplit].
  rewrite Hone.
  assert (Hperm : Permutation x
            (sort.insertionSort less (firstn mid data) ++ [p]
             ++ sort.insertionSort less (skipn (S mid) data))).
  { eapply perm_trans; [eassumption|]. rewrite <- Hsplit at 1.
    apply Permutation_app; [apply insertionSort_perm|].
    cbn [app]. apply perm_skip. apply insertionSort_perm. }
  split; [assumption|]. intros Hord.
  assert (Hdata : forall a, In a data -> In a x)
    by (intros a; apply Permutation_in; apply Permutation_sym; assumption).
  assert (Hpin : In p x) by (apply Hdata; eapply nth_error_In; eassumption).
  assert (Hleft : forall a, In a (sort.insertionSort less (firstn mid data)) ->
                  In a x /\ less a p = true).
  { intros a Ha.
    apply (Permutation_in a (Permutation_sym (insertionSort_perm A less _))) in Ha.
    destruct (In_firstn_index A data mid a Ha) as (k & Hk & He).
    split; [apply Hdata; eapply nth_error_In; eassumption|].
    destruct (P5 k Hk) as (e & He' & Hlt). congruence. }
  assert (Hright : forall a, In a (sort.insertionSort less (skipn (S mid) data)) ->
                   In a x /\ less a p = false).
  { intros a Ha.
    apply (Permutation_in a (Permutation_sym (insertionSort_perm A less _))) in Ha.
    destruct (In_skipn_index A data (S mid) a Ha) as (k & Hk & He).
    split; [apply Hdata; eapply nth_error_In; eassumption|].
    destruct (P6 k ltac:(lia)) as (e & He' & Hlt). congruence. }
  apply SliceIsSorted_of_sorted.
  apply StronglySorted_append.
  - apply (insertionSort_strongly A less x); [assumption|].
    intros a Ha. apply Hdata. eapply In_firstn_index in Ha.
    destruct Ha as (k & _ & He). eapply nth_error_In; eassumption.
  - cbn [app]. constructor.
    + apply (insertionSort_strongly A less x); [assumption|].
      intros a Ha. apply Hdata. eapply In_skipn_index in Ha.
      destruct Ha as (k & _ & He). eapply nth_error_In; eassumption.
    + apply Forall_forall. intros b Hb. apply Hright. assumption.
  - intros a b Ha Hb. destruct (Hleft a Ha) as [Hax Hap].
    assert (Hpa : less p a = false)
      by (apply (ordering_asym A less x p a Hord); assumption).
    cbn [app] in Hb. destruct Hb as [<-|Hb]; [assumption|].
    destruct (Hright b Hb) as [Hbx Hbp].
    destruct Hord as (_ & _ & Hneg). apply (Hneg b p a); assumption.
Qed.

(** The inner loop moves an element only past elements it is less than:
    of a class [keep] that holds no two such elements, the members stay
    in the order they had. *)
Lemma sink_stable (A : Type) (keep : A -> bool) (less : A -> A -> bool) a before :
  (forall b, less a b = true -> keep a && keep b = false) ->
  filter keep (rev (sort.sink less a before)) = filter keep (rev before ++ [a]).
Proof.
  intros Hapart. induction before as [|y rest IH]; cbn [sort.sink]; [reflexivity|].
  destruct (less a y) eqn:Hay; [|reflexivity].
  cbn [rev]. rewrite !filter_app, IH, filter_app, <- !app_assoc. f_equal.
  specialize (Hapart y Hay). cbn [filter].
  destruct (keep a); destruct (keep y); try reflexivity. discriminate.
Qed.

Lemma insertionSort_stable (A : Type) (keep : A -> bool) (less : A -> A -> bool)
    (x : list A) :
  (forall a b, less a b = true -> keep a && keep b = false) ->
  filter keep (sort.insertionSort less x) = filter keep x.
Proof.
  intros Hapart. unfold sort.insertionSort.
  change x with (rev [] ++ x) at 2. generalize (@nil A) as acc.
  induction x as [|a x IH]; intros acc; cbn [fold_left].
  - rewrite app_nil_r. reflexivity.
  - rewrite IH, filter_app, sink_stable by (apply Hapart).
    rewrite <- filter_app, <- app_assoc. reflexivity.
Qed.

(** Two keys of which one is greater do not compare equal to the same
    value. *)
Lemma ltb_eqb_apart (x y k : float) :
  (y <? x) = true -> (x =? k) && (y =? k) = false.
Proof.
  rewrite FloatAxioms.ltb_spec, !FloatAxioms.eqb_spec. intros Hlt.
  assert (Hx : number (Prim2SF x))
    by (intros E; rewrite E in Hlt; destruct (Prim2SF y); discriminate).
  assert (Hy : number (Prim2SF y)) by (intros E; rewrite E in Hlt; discriminate).
  apply (SFltb_rank _ _ Hy Hx) in Hlt.
  destruct (Prim2SF k) as [sk|sk| |sk mk ek] eqn:Hk.
  3: { destruct (Prim2SF x); reflexivity. }
  all: rewrite <- Hk;
    assert (Hn : number (Prim2SF k)) by (rewrite Hk; discriminate);
    destruct (SFcompare_rank _ _ Hx Hn) as (Hxl & Hxg & _);
    destruct (SFcompare_rank _ _ Hy Hn) as (Hyl & Hyg & _);
    unfold SFeqb;
    destruct (SFcompare (Prim2SF x) (Prim2SF k)) as [[| |]|];
    destruct (SFcompare (Prim2SF y) (Prim2SF k)) as [[| |]|];
    try reflexivity; exfalso;
    assert (Hxk : ~ lt3 (rank (Prim2SF x)) (rank (Prim2SF k)))
      by (intros H; apply Hxl in H; discriminate);
    assert (Hkx : ~ lt3 (rank (Prim2SF k)) (rank (Prim2SF x)))
      by (intros H; apply Hxg in H; discriminate);
    assert (Hyk : ~ lt3 (rank (Prim2SF y)) (rank (Prim2SF k)))
      by (intros H; apply Hyl in H; discriminate);
    assert (Hky : ~ lt3 (rank (Prim2SF k)) (rank (Prim2SF y)))
      by (intros H; apply Hyg in H; discriminate);
    destruct (rank (Prim2SF x)) as [[x1 x2] x3];
    destruct (rank (Prim2SF y)) as [[y1 y2] y3];
    destruct (rank (Prim2SF k)) as [[k1 k2] k3];
    unfold lt3 in *; lia.
Qed.

(** A slice [sort.SliceIsSorted] accepts for [key(i) > key(j)] is in
    descending order of [key] when no key is NaN. *)
Lemma SliceIsSorted_descending (A : Type) (key : A -> float) (x : list A) :
  (forall a, In a x -> math.IsNaN (key a) = false) ->
  sort.SliceIsSorted x (fun a b => key b <? key a) = true ->
  Spec.descending key x.
Proof.
  intros Hnum Hs. unfold Spec.descending.
  apply Sorted_StronglySorted.
  { intros a b c Hab Hbc. eapply leb_trans; eassumption. }
  induction x as [|a x IH]; [constructor|].
  assert (Hx : sort.SliceIsSorted x (fun a b => key b <? key a) = true).
  { destruct x; [reflexivity|].
    cbn [sort.SliceIsSorted] in Hs. apply andb_true_iff in Hs. tauto. }
  constructor.
  - apply IH; [|assumption]. intros c Hc. apply Hnum. right. assumption.
  - destruct x as [|b x]; constructor.
    cbn [sort.SliceIsSorted] in Hs. apply andb_true_iff in Hs.
    destruct Hs as [Hab _]. apply negb_true_iff in Hab.
    apply nlt_leb; [apply Hnum; left; reflexivity| |assumption].
    apply Hnum. right. left. reflexivity.
Qed.

(** [key(i) > key(j)] is a strict weak ordering of elements whose keys are
    numbers. *)
Lemma key_ordering (A : Type) (key : A -> float) (x : list A) :
  (forall a, In a x -> math.IsNaN (key a) = false) ->
  sort.ordering (fun a b => key b <? key a) x.
Proof.
  intros Hnum. repeat split.
  - intros a _. apply ltb_irrefl.
  - intros a b c Ha Hb Hc Hab Hbc.
    apply (ltb_trans (key c) (key b) (key a)); auto.
  - intros a b c Ha Hb Hc Hab Hbc.
    apply (ltb_negtrans (key c) (key b) (key a)); auto.
Qed.

Lemma sorted_by_key (beyond : sort.Sorter) (A : Type) (key : A -> float) (x : list A) :
  sort.Slice_contract beyond ->
  (forall a, In a x -> math.IsNaN (key a) = false) ->
  Permutation x (sort.Slice beyond A x (fun a b => key b <? key a)) /\
  Spec.descending key (sort.Slice beyond A x (fun a b => key b <? key a)) /\
  ((List.length x <= 6)%nat ->
   Spec.stable key x (sort.Slice beyond A x (fun a b => key b <? key a))).
Proof.
  intros Hc Hnum.
  destruct (Slice_contract_Slice beyond Hc A x (fun a b => key b <? key a))
    as [Hperm Hsorted].
  split; [assumption|]. split.
  - apply SliceIsSorted_descending.
    + intros a Ha. apply Hnum.
      apply (Permutation_in a (Permutation_sym Hperm)). assumption.
    + apply Hsorted. apply key_ordering. assumption.
  - intros Hlen k. unfold sort.Slice.
    apply Nat.leb_le in Hlen. rewrite Hlen.
    apply insertionSort_stable. intros a b Hab.
    apply ltb_eqb_apart. assumption.
Qed.

Context {em : eastmoney.API} {en : eniu.API} {zs : zszx.API}.
Import models.

(** C8 (as amended): sorting a list none of whose keys is NaN by
    profitability weight or by price gap rearranges the list into
    descending order of that key, whatever algorithm [sort.Slice] runs
    within its documented contract on a long slice; and a list of at most
    six stocks, which every release of Go sorts by insertion, is sorted
    stably: the stocks of any one key keep their relative order. *)
Theorem SortBy_descending (beyond : sort.Sorter) (s : StockList) :
  sort.Slice_contract beyond ->
  ((forall a, In a s -> math.IsNaN (eastmoney.RoeWeight (BaseInfo a)) = false) ->
   Permutation s (SortByROE beyond s) /\
   Spec.descending (fun a => eastmoney.RoeWeight (BaseInfo a)) (SortByROE beyond s) /\
   ((List.length s <= 6)%nat ->
    Spec.stable (fun a => eastmoney.RoeWeight (BaseInfo a)) s (SortByROE beyond s))) /\
  ((forall a, In a s -> math.IsNaN (PriceSpace a) = false) ->
   Permutation s (SortByPriceSpace beyond s) /\
   Spec.descending PriceSpace (SortByPriceSpace beyond s) /\
   ((List.length s <= 6)%nat ->
    Spec.stable PriceSpace s (SortByPriceSpace beyond s))).
Proof.
  intros Hc. split; intros Hnum.
  - apply (sorted_by_key beyond Stock (fun a => eastmoney.RoeWeight (BaseInfo a)) s Hc Hnum).
  - apply (sorted_by_key beyond Stock PriceSpace s Hc Hnum).
Qed.
End Sorting.

(** ** The claims on concrete invocations *)

Section Invocations.
Import Demo Examples models.
Local Open Scope list_scope.
Local Open Scope float_scope.

Lemma dc_fetched (hf : list Report) :
  hf <> [] -> fetched (dc hf) bank hf [15; 14; 20] 15.
Proof. intros Hne. repeat split; try reflexivity. assumption. Qed.

(** C1 as stated fails: after five years of losses (EPS -1) the formula
    gives 15 x (-1) x 1.10 x 1 = -16.5, which the validation rejects; the
    stored reasonable price is the fallback 15 x (-1) = -15. *)
Lemma RightPrice_formula_fails_on_losses :
  exists s, NewStock (dc losing) now bank = Done (s, None) /\
    fetched (dc losing) bank losing [15; 14; 20] 15 /\
    epsHistory losing = [-1; -1; -1] /\
    Spec.reasonablePrice 15 (Spec.mean (epsHistory losing))
      (thisYearAvgRevIncrRatio (reportWindow losing (time.Year now)))
      (Spec.multiplier (epsHistory losing)) = (-16.5) /\
    RightPrice s = (-15) /\
    (RightPrice s =? (-16.5)) = false.
Proof.
  exists (returned (run losing)).
  split; [evaluate|]. split; [apply dc_fetched; discriminate|].
  repeat split; evaluate.
Qed.

(** The formula at a quote of 25 and a median of 15: on the earnings
    2.0, 1.0, 0.8 with a growth of 10; on two annual reports, from the EPS
    1 of the report of 2025; and early in the year, on the earnings of
    2024 to 2022 with the growth 12 of 2025. *)
Lemma RightPrice_formula_witness :
  (exists s, NewStock (dc growing) now bank = Done (s, None) /\
     RightPrice s = Spec.reasonablePrice 15 (Spec.mean [2; 1; 0.8]) 10 1 /\
     PriceSpace s =
       Spec.priceGap (Spec.reasonablePrice 15 (Spec.mean [2; 1; 0.8]) 10 1) 25) /\
  (exists s, NewStock (dc paired) now bank = Done (s, None) /\
     RightPrice s = Spec.reasonablePrice 15 1 10 1 /\
     PriceSpace s = Spec.priceGap (Spec.reasonablePrice 15 1 10 1) 25) /\
  (exists s, NewStock (dc early) now bank = Done (s, None) /\
     RightPrice s = Spec.reasonablePrice 15 (Spec.mean [1; 0.8; 0.2]) 12 1 /\
     PriceSpace s =
       Spec.priceGap (Spec.reasonablePrice 15 (Spec.mean [1; 0.8; 0.2]) 12 1) 25).
Proof.
  assert (Hq : eastmoney.NewPrice bank = eastmoney.AnyFloat 25) by reflexivity.
  split; [|split].
  - assert (Hf : fetched (dc growing) bank growing [15; 14; 20] 15)
      by (apply dc_fetched; discriminate).
    destruct (RightPrice_formula (dc growing) now bank growing [15; 14; 20] 15 25
                (Spec.mean [2; 1; 0.8]) Hf Hq)
      as (s & Hs & Hrp & Hps).
    + left. split; [vm_compute; lia|reflexivity].
    + evaluate.
    + exists s. split; [exact Hs|]. split; [exact Hrp | exact Hps].
  - assert (Hf : fetched (dc paired) bank paired [15; 14; 20] 15)
      by (apply dc_fetched; discriminate).
    destruct (RightPrice_formula (dc paired) now bank paired [15; 14; 20] 15 25 1 Hf Hq)
      as (s & Hs & Hrp & Hps).
    + right. split; [vm_compute; lia|].
      exists (annual 2025 1 10 8), (annual 2024 0.5 9 5). repeat split.
    + evaluate.
    + exists s. split; [exact Hs|]. split; [exact Hrp | exact Hps].
  - assert (Hf : fetched (dc early) bank early [15; 14; 20] 15)
      by (apply dc_fetched; discriminate).
    destruct (RightPrice_formula (dc early) now bank early [15; 14; 20] 15 25
                (Spec.mean [1; 0.8; 0.2]) Hf Hq)
      as (s & Hs & Hrp & Hps).
    + left. split; [vm_compute; lia|reflexivity].
    + evaluate.
    + exists s. split; [exact Hs|]. split; [exact Hrp | exact Hps].
Defined.

(** PE 12 over a growth of 20. *)
Lemma NewStock_PEG_witness :
  PEG (returned (run growing)) = 12 / 20 /\
  math.IsNaN (PEG (returned (run growing))) = false.
Proof.
  assert (Hrun : NewStock (dc growing) now bank = Done (returned (run growing), None))
    by (evaluate).
  destruct (NewStock_PEG (dc growing) now bank (returned (run growing)) None Hrun)
    as (_ & _ & Hq & Hnan).
  split; [|exact Hnan].
  apply Hq; evaluate.
Defined.

(** C3 fails on the code: every provider answers, the fundamentals hold a
    single annual report, and the call does not return: line 271 reads
    [beforeLastYearReport.Epsjb] through a nil pointer. *)
Theorem NewStock_panics_on_one_annual_report :
  NewStock (clients (OK young) (OK [15; 14; 20]) (OK cashflows)) now bank
  = Panic "invalid memory address or nil pointer dereference".
Proof. evaluate. Qed.

(** C4 fails on the code: the three most recent annual reports, of 2023
    to 2021, show a loss of 1 per share and there is no annual report of
    2025 or 2024.  The computed price 15 x (-1) x 1 x 1 = -15 is rejected,
    and the fallback of line 285 reads the EPS of the most recent annual
    report of the window through a nil pointer: the call does not
    return. *)
Theorem RightPrice_fallback_nil_report :
  fetched (dc stale) bank stale [15; 14; 20] 15 /\
  epsHistory stale = [-1; -1; -1] /\
  eastmoney.GetReport stale 2025 eastmoney.FinaReportTypeYear = None /\
  eastmoney.GetReport stale 2024 eastmoney.FinaReportTypeYear = None /\
  lastYearReport (reportWindow stale (time.Year now)) = None /\
  Spec.reasonablePrice 15 (Spec.mean (epsHistory stale))
    (thisYearAvgRevIncrRatio (reportWindow stale (time.Year now)))
    (Spec.multiplier (epsHistory stale)) = (-15) /\
  Spec.valid (-15) = false /\
  NewStock (dc stale) now bank
  = Panic "invalid memory address or nil pointer dereference".
Proof.
  split; [apply dc_fetched; discriminate|].
  repeat split; evaluate.
Qed.

(** The fallback after five years of losses, at a quote of 25. *)
Lemma RightPrice_fallback_witness :
  exists s, NewStock (dc losing) now bank = Done (s, None) /\
    RightPrice s = 15 * (-1) /\
    PriceSpace s = Spec.priceGap (15 * (-1)) 25.
Proof.
  apply (RightPrice_fallback (dc losing) now bank losing [15; 14; 20] 15 25
           (annual 2025 (-1) (-10) 5)).
  - apply dc_fetched. discriminate.
  - reflexivity.
  - reflexivity.
  - left. vm_compute. lia.
  - evaluate.
Defined.

(** C5 fails on the code: a loss of 1 per share deepened to 3, so the
    latest annual EPS fell; the growth test divides the difference -2 by
    the prior value -1, finds 200 percent, and the price 15 x 2 x 1.1 = 33
    is stored with the multiplier 0.7. *)
Theorem explosiveGrowthAdjustment_on_deeper_loss :
  exists s, NewStock (dc slumping) now bank = Done (s, None) /\
    epsHistory slumping = [-3; -1; 10] /\
    (nth 0 (epsHistory slumping) 0 <? nth 1 (epsHistory slumping) 0) = true /\
    Spec.mean (epsHistory slumping) = 2 /\
    thisYearAvgRevIncrRatio (reportWindow slumping (time.Year now)) = 10 /\
    RightPrice s = 15 * (2 * (1 + 10 / 100)) * 0.7 /\
    (RightPrice s <? 15 * (2 * (1 + 10 / 100)) * 1) = true.
Proof.
  exists (returned (run slumping)).
  repeat split; evaluate.
Qed.

(** Where the prior value is positive the test is the one the comments
    of lines 251 and 253 describe: earnings tripled from 1 to 3 and the
    stored price carries the multiplier 0.7. *)
Lemma explosiveGrowthAdjustment_on_tripled_earnings :
  epsHistory surging = [3; 1; 1] /\
  RightPrice (returned (run surging))
  = 15 * (Spec.mean [3; 1; 1] * (1 + 10 / 100)) * 0.7.
Proof. split; evaluate. Qed.

(** C6 fails on the code: return on equity -10 in each of five years gives
    the ROE sub-score (-10 / 15) x 15 = -10, below its lower bound 0. *)
Theorem ROEScore_negative_on_losses :
  exists s, NewStock (dc losing) now bank = Done (s, None) /\
    eastmoney.ValueList (HistoricalFinaMainData s) eastmoney.ValueListTypeROE 5
      eastmoney.FinaReportTypeYear = [-10; -10; -10; -10; -10] /\
    ROEScore (Score s) = (-10) /\
    (ROEScore (Score s) <? 0) = true /\
    TotalScore (Score s) = 43.5.
Proof.
  exists (returned (run losing)).
  repeat split; evaluate.
Qed.

(** C7 as stated fails: no two values, one strictly below the other, are
    the management sub-scores of the long and of the short histories; the
    stock without history and the stock with five reports both score
    7.5. *)
Lemma calculateManagementScore_not_graded :
  ~ (exists hi lo : float, (lo <? hi) = true /\
       forall s : Stock,
         ((3 <= List.length (HistoricalFinaMainData s))%nat ->
            calculateManagementScore s = hi) /\
         ((List.length (HistoricalFinaMainData s) < 3)%nat ->
            calculateManagementScore s = lo)).
Proof.
  intros (hi & lo & Hlt & H).
  destruct (H other) as [Hhi _]. destruct (H tied1) as [_ Hlo].
  assert (Ehi : hi = 7.5) by (rewrite <- Hhi; [reflexivity|vm_compute; lia]).
  assert (Elo : lo = 7.5) by (rewrite <- Hlo; [reflexivity|vm_compute; lia]).
  subst hi lo. vm_compute in Hlt. discriminate.
Qed.

(** C8 as stated fails, in both of its parts.  The price gap of a
    security quoted at 0 with no earnings is 0 / 0, not a number; between
    a gap of -16.4 and a gap of 109 it compares less than neither, the
    insertion sort moves nothing, and the list stays in ascending order of
    the two numbers.  And beyond six stocks equal keys are reordered,
    whichever release of Go sorts them: up to Go 1.18 the Shell pass
    exchanges the first and the seventh of seven stocks, so that the first
    of six stocks of weight 10 ends behind the other five; from Go 1.19 on
    the partition of thirteen stocks takes the seventh, of weight 20, to
    the front as the pivot, before the fourth, of the same weight. *)
Lemma SortBy_not_descending_not_stable :
  let low := returned (run growing) in
  let void := returned (NewStock (dc flat) now halted) in
  let high := returned (NewStock (dc growing) now cheap) in
  let name := fun a : Stock => eastmoney.Secucode (BaseInfo a) in
  let weight := fun a : Stock => eastmoney.RoeWeight (BaseInfo a) in
  (NewStock (dc flat) now halted = Done (void, None) /\
   math.IsNaN (PriceSpace void) = true /\
   (PriceSpace low <? PriceSpace high) = true /\
   (forall beyond : sort.Sorter,
      SortByPriceSpace beyond [low; void; high] = [low; void; high]) /\
   ~ Spec.descending PriceSpace [low; void; high]) /\
  (forall beyond : sort.Sorter,
     map name (SortByROE (sort.quickSort_func beyond) seven)
     = ["G"; "B"; "C"; "D"; "E"; "F"; "A"]%string /\
     ~ Spec.stable weight seven (SortByROE (sort.quickSort_func beyond) seven)) /\
  (forall beyond : sort.Sorter,
     map name (SortByROE (sort.pdqsort_func beyond) thirteen)
     = ["G"; "D"; "B"; "C"; "E"; "F"; "A"; "H"; "I"; "J"; "K"; "L"; "M"]%string /\
     ~ Spec.stable weight thirteen (SortByROE (sort.pdqsort_func beyond) thirteen)).
Proof.
  intros low void high name weight. split; [|split].
  - split; [evaluate|]. split; [evaluate|]. split; [evaluate|]. split.
    + intros beyond. evaluate.
    + intros Hd. apply StronglySorted_inv in Hd. destruct Hd as [_ Hall].
      apply Forall_inv_tail in Hall. apply Forall_inv in Hall.
      vm_compute in Hall. discriminate.
  - intros beyond. split; [evaluate|]. intros Hst. specialize (Hst 10).
    apply (f_equal (map name)) in Hst. vm_compute in Hst. discriminate.
  - intros beyond. split; [evaluate|]. intros Hst. specialize (Hst 20).
    apply (f_equal (map name)) in Hst. vm_compute in Hst. discriminate.
Qed.

(** Three securities, two of them of equal profitability weight; and the
    seven and the thirteen securities under either generation of
    [sort.Slice]. *)
Lemma SortBy_descending_witness :
  let insertion : sort.Sorter := fun A x less => sort.insertionSort less x in
  let weight := fun a : Stock => eastmoney.RoeWeight (BaseInfo a) in
  SortByROE insertion [tied1; other; tied2] = [tied1; tied2; other] /\
  Spec.descending weight (SortByROE insertion [tied1; other; tied2]) /\
  Spec.stable weight [tied1; other; tied2] (SortByROE insertion [tied1; other; tied2]) /\
  Spec.descending PriceSpace (SortByPriceSpace insertion [tied1; other; tied2]) /\
  Spec.descending weight (SortByROE (sort.quickSort_func insertion) seven) /\
  Spec.descending weight (SortByROE (sort.pdqsort_func insertion) thirteen).
Proof.
  intros insertion weight.
  destruct (SortBy_descending insertion [tied1; other; tied2]
              insertionSort_contract) as [Hroe Hgap].
  split; [evaluate|].
  destruct Hroe as (_ & Hd & Hs); [intros a [<-|[<-|[<-|[]]]]; evaluate|].
  destruct Hgap as (_ & Hg & _); [intros a [<-|[<-|[<-|[]]]]; evaluate|].
  split; [exact Hd|]. split; [apply Hs; vm_compute; lia|]. split; [exact Hg|].
  split.
  - destruct (SortBy_descending (sort.quickSort_func insertion) seven
                (quickSort_func_contract insertion insertionSort_contract))
      as [[_ [Hq _]] _]; [|exact Hq].
    intros a Ha. repeat (destruct Ha as [<-|Ha]; [evaluate|]). destruct Ha.
  - destruct (SortBy_descending (sort.pdqsort_func insertion) thirteen
                (pdqsort_func_contract insertion insertionSort_contract))
      as [[_ [Hp _]] _]; [|exact Hp].
    intros a Ha. repeat (destruct Ha as [<-|Ha]; [evaluate|]). destruct Ha.
Defined.

(** C9 as stated fails: with annual EPS 2.0, 1.0, 0.8, 0.2 the shifted
    three-year mean (1.0 + 0.8 + 0.2) / 3 gives 15 x 0.667 x 1.08 = 10.8;
    the stored prior-year price is 15 x ((1.0 + 0.8) / 2) x 1.08 = 14.58. *)
Lemma LastYearRightPrice_not_three_year_mean :
  exists s, NewStock (dc growing) now bank = Done (s, None) /\
    Demo.ValueList growing EPS 4 Annual = [2; 1; 0.8; 0.2] /\
    (LastYearRightPrice s =?
       Spec.priorYearPrice 15 (Demo.ValueList growing EPS 4 Annual)
         (lastYearAvgRevIncrRatio (reportWindow growing (time.Year now)))) = false /\
    (Spec.priorYearPrice 15 (Demo.ValueList growing EPS 4 Annual)
       (lastYearAvgRevIncrRatio (reportWindow growing (time.Year now)))
     <? 10.81) = true /\
    (14.57 <? LastYearRightPrice s) = true.
Proof.
  exists (returned (run growing)).
  repeat split; evaluate.
Qed.

(** The prior-year price at a median of 15: from the earnings 1.0 and 0.8
    and the growth 8 of 2025; and, with two annual reports only, from the
    EPS 0.5 of the report of 2024. *)
Lemma LastYearRightPrice_formula_witness :
  (exists s, NewStock (dc growing) now bank = Done (s, None) /\
     LastYearRightPrice s = 15 * ((1 + 0.8) / 2 * (1 + 8 / 100))) /\
  (exists s, NewStock (dc paired) now bank = Done (s, None) /\
     LastYearRightPrice s = 15 * (0.5 * (1 + 8 / 100))).
Proof.
  split.
  - assert (Hf : fetched (dc growing) bank growing [15; 14; 20] 15)
      by (apply dc_fetched; discriminate).
    destruct (LastYearRightPrice_formula (dc growing) now bank growing [15; 14; 20] 15 Hf)
      as [H3 _].
    destruct H3 as (s & Hs & Hly).
    + vm_compute. lia.
    + left. evaluate.
    + exists s. split; [exact Hs|]. rewrite Hly. evaluate.
  - assert (Hf : fetched (dc paired) bank paired [15; 14; 20] 15)
      by (apply dc_fetched; discriminate).
    destruct (LastYearRightPrice_formula (dc paired) now bank paired [15; 14; 20] 15 Hf)
      as [_ H2].
    destruct (H2 (annual 2025 1 10 8) (annual 2024 0.5 9 5)) as (s & Hs & Hly).
    + vm_compute. lia.
    + reflexivity.
    + reflexivity.
    + exists s. split; [exact Hs|]. rewrite Hly. evaluate.
Defined.

(** Operating 120, investing -45: free cash flow 75. *)
Lemma NetcashFree_latest_witness :
  NetcashFree (returned (run growing)) = 120 + (-45) /\
  Spec.same (NetcashFree (returned (run growing))) (120 - math.Abs (-45)) = true.
Proof.
  assert (Hrun : NewStock (dc growing) now bank = Done (returned (run growing), None))
    by (evaluate).
  destruct (NetcashFree_latest (dc growing) now bank (returned (run growing)) None
              {| eastmoney.NetcashOperate := 120; eastmoney.NetcashInvest := -45;
                 eastmoney.NetcashFinance := 7 |}
              [ {| eastmoney.NetcashOperate := 90; eastmoney.NetcashInvest := 30;
                   eastmoney.NetcashFinance := -3 |} ]
              Hrun eq_refl)
    as (_ & _ & _ & _ & Hneg & _ & Hsame).
  split; [apply Hneg; evaluate|exact Hsame].
Defined.
End Invocations.

(** * Further results *)

(** ** More facts about [float64] *)

Section MoreFloatFacts.
Import Order Sign.
Local Open Scope float_scope.

Lemma lt3_le_lt a b c : ~ lt3 b a -> lt3 b c -> lt3 a c.
Proof.
  destruct a as [[a1 a2] a3], b as [[b1 b2] b3], c as [[c1 c2] c3].
  unfold lt3. lia.
Qed.

Lemma ltb_number x y :
  (x <? y) = true -> math.IsNaN x = false /\ math.IsNaN y = false.
Proof.
  rewrite FloatAxioms.ltb_spec. intros H.
  split; apply IsNaN_number; intros Hn; rewrite Hn in H; unfold SFltb in H.
  - discriminate.
  - destruct (Prim2SF x); discriminate.
Qed.

Lemma leb_ltb_trans x y z :
  (x <=? y) = true -> (y <? z) = true -> (x <? z) = true.
Proof.
  intros Hxy Hyz.
  destruct (leb_number _ _ Hxy) as [Hx Hy].
  destruct (ltb_number _ _ Hyz) as [_ Hz].
  apply (ltb_rank x z Hx Hz).
  apply (lt3_le_lt _ (rank (Prim2SF y))).
  - rewrite FloatAxioms.leb_spec in Hxy.
    apply SFleb_rank in Hxy; try (apply IsNaN_number; assumption).
    assumption.
  - apply (ltb_rank y z Hy Hz). assumption.
Qed.

(** [math.Abs] never gives a number below zero. *)
Lemma abs_not_below_zero x : (abs x <? 0) = false.
Proof.
  rewrite FloatAxioms.ltb_spec, FloatAxioms.abs_spec, Prim2SF_zero.
  destruct (Prim2SF x) as [s|s| |s m e]; reflexivity.
Qed.

Lemma ltb_zero_below x : (x <? 0) = true -> below_zero (Prim2SF x) = true.
Proof.
  rewrite FloatAxioms.ltb_spec, Prim2SF_zero.
  destruct (Prim2SF x) as [s|s| |s m e]; try destruct s;
    intros H; try discriminate H; reflexivity.
Qed.

(** A positive constant is neither below nor equal to a value that is
    not positive. *)
Lemma above_npos c x :
  above_zero (Prim2SF c) = true -> npos (Prim2SF x) = true ->
  (c <? x) = false /\ (c <=? x) = false.
Proof.
  rewrite FloatAxioms.ltb_spec, FloatAxioms.leb_spec.
  destruct (Prim2SF c) as [sc|sc| |sc mc ec]; try discriminate;
    destruct sc; try discriminate; intros _;
    destruct (Prim2SF x) as [s|s| |s m e]; try destruct s;
    intros H; try discriminate H; split; reflexivity.
Qed.

Lemma zero_npos x : npos (Prim2SF x) = true -> (0 <? x) = false.
Proof.
  rewrite FloatAxioms.ltb_spec, Prim2SF_zero.
  destruct (Prim2SF x) as [s|s| |s m e]; try destruct s;
    intros H; try discriminate H; reflexivity.
Qed.

(** Rounding keeps the sign it is given. *)
Lemma binary_round_aux_signbit b m e l :
  match binary_round_aux prec emax b m e l with
  | S754_nan => True
  | S754_zero s | S754_infinity s | S754_finite s _ _ => s = b
  end.
Proof.
  unfold binary_round_aux.
  destruct (shr_fexp prec emax m e l) as [mrs' e'].
  destruct (shr_fexp prec emax _ e' loc_Exact) as [mrs'' e''].
  destruct (shr_m mrs''); try exact I; try reflexivity.
  destruct (Z.leb e'' _); reflexivity.
Qed.

Lemma sqrt_nneg x : nneg (SF64sqrt x) = true.
Proof.
  destruct x as [s|s| |s m e]; try destruct s; try reflexivity.
  unfold SF64sqrt, SFsqrt.
  destruct (SFsqrt_core_binary prec emax (Z.pos m) e) as [[mz ez] lz].
  pose proof (binary_round_aux_signbit false mz ez lz) as H.
  destruct (binary_round_aux prec emax false mz ez lz); try subst; reflexivity.
Qed.

Lemma div_nneg_below x y :
  nneg x = true -> below_zero y = true -> npos (SF64div x y) = true.
Proof.
  destruct x as [sx|sx| |sx mx ex]; try destruct sx; try discriminate;
    destruct y as [sy|sy| |sy my ey]; try destruct sy; try discriminate;
    intros _ _; try reflexivity.
  unfold SF64div, SFdiv.
  destruct (SFdiv_core_binary prec emax (Z.pos mx) ex (Z.pos my) ey) as [[mz ez] lz].
  pose proof (binary_round_aux_signbit (xorb false true) mz ez lz) as H.
  destruct (binary_round_aux prec emax (xorb false true) mz ez lz);
    try subst; reflexivity.
Qed.

Lemma div_below_above x y :
  below_zero x = true -> above_zero y = true -> signbit (SF64div x y) = true.
Proof.
  destruct x as [sx|sx| |sx mx ex]; try destruct sx; try discriminate;
    destruct y as [sy|sy| |sy my ey]; try destruct sy; try discriminate;
    intros _ _; try reflexivity.
  unfold SF64div, SFdiv.
  destruct (SFdiv_core_binary prec emax (Z.pos mx) ex (Z.pos my) ey) as [[mz ez] lz].
  pose proof (binary_round_aux_signbit (xorb true false) mz ez lz) as H.
  destruct (binary_round_aux prec emax (xorb true false) mz ez lz);
    try subst; reflexivity.
Qed.

Lemma mul_signbit_above x y :
  signbit x = true -> above_zero y = true -> signbit (SF64mul x y) = true.
Proof.
  destruct x as [sx|sx| |sx mx ex]; try destruct sx; try discriminate;
    destruct y as [sy|sy| |sy my ey]; try destruct sy; try discriminate;
    intros _ _; try reflexivity.
  unfold SF64mul, SFmul.
  pose proof (binary_round_aux_signbit (xorb true false)
                (Z.pos (mx * my)) (ex + ey) loc_Exact) as H.
  destruct (binary_round_aux prec emax (xorb true false) _ _ loc_Exact);
    try subst; reflexivity.
Qed.

Lemma signbit_npos x : signbit x = true -> npos x = true.
Proof. destruct x as [s|s| |s m e]; try destruct s; auto. Qed.

Lemma below_npos x : below_zero x = true -> npos x = true.
Proof. destruct x as [s|s| |s m e]; try destruct s; auto. Qed.
End MoreFloatFacts.

(** ** The returned stock as a whole *)

Section Joined.
Context {em : eastmoney.API} {en : eniu.API} {zs : zszx.API}.
Import models aggregate.
Local Open Scope list_scope.
Local Open Scope float_scope.

(** [NewStock] is the first goroutine followed by the assembly of all the
    fields and the score. *)
Lemma NewStock_joined dc now bi :
  NewStock dc now bi =
    (fina <- finaTask dc now bi (currentPrice bi) ;;
     Done (withScore (joined dc now bi fina)
                     (calculateBuffettScore (joined dc now bi fina)), None)).
Proof.
  unfold NewStock, joined, currentPrice.
  destruct (finaTask dc now bi (GetPrice (Stock_literal bi))) as [fina|r];
    cbn [bind]; [|reflexivity].
  destruct (priceTask dc bi) as [hisPrice hv].
  destruct (publishDateTask dc bi) as [[appoint actual] reportDate].
  destruct (gincomeTask dc bi) as [[gincomeList byys] opinion].
  reflexivity.
Qed.

Lemma NewStock_done dc now bi s e :
  NewStock dc now bi = Done (s, e) ->
  exists fina,
    finaTask dc now bi (currentPrice bi) = Done fina /\
    s = withScore (joined dc now bi fina)
                  (calculateBuffettScore (joined dc now bi fina)) /\
    e = None.
Proof.
  rewrite NewStock_joined.
  destruct (finaTask dc now bi (currentPrice bi)) as [fina|r]; cbn [bind];
    [|discriminate].
  intros H. injection H as <- <-. exists fina. repeat split.
Qed.

(** The first goroutine with one of its inputs missing. *)
Lemma finaTask_unfetched dc now bi price :
  (forall hf pe mid, ~ fetched dc bi hf pe mid) ->
  finaTask dc now bi price =
    Done {| f_HistoricalFinaMainData :=
              match datacenter.QueryHistoricalFinaMainData dc (eastmoney.Secucode bi) with
              | OK hf => hf
              | Err _ => []
              end;
            f_HistoricalPEList :=
              match datacenter.QueryHistoricalFinaMainData dc (eastmoney.Secucode bi),
                    datacenter.QueryHistoricalPEList dc (eastmoney.Secucode bi) with
              | OK (_ :: _), OK pe => pe
              | _, _ => eastmoney.HistoricalPEList_zero
              end;
            f_RightPrice := 0; f_PriceSpace := 0; f_LastYearRightPrice := 0 |}.
Proof.
  intros Hno. unfold finaTask.
  destruct (datacenter.QueryHistoricalFinaMainData dc (eastmoney.Secucode bi))
    as [hf|m] eqn:Hhf; [|reflexivity].
  destruct hf as [|r hf]; [reflexivity|]. cbn [List.length Nat.eqb].
  destruct (datacenter.QueryHistoricalPEList dc (eastmoney.Secucode bi))
    as [pe|m] eqn:Hpe; [|reflexivity].
  destruct (eastmoney.GetMidValue pe) as [mid|m] eqn:Hmid; [|reflexivity].
  exfalso. apply (Hno (r :: hf) pe mid). repeat split; try assumption.
  discriminate.
Qed.

(** X2: whenever the valuation lacks one of its inputs (the fundamentals
    query fails or is empty, the PE query fails, or the PE series has no
    median), the call returns with a nil error, the three valuation
    fields are zero, and what was fetched before the failure is kept: the
    fundamentals history, and the PE history if the fundamentals were not
    empty. *)
Theorem NewStock_valuation_skipped dc now bi :
  (forall hf pe mid, ~ fetched dc bi hf pe mid) ->
  exists s, NewStock dc now bi = Done (s, None) /\
    RightPrice s = 0 /\ PriceSpace s = 0 /\ LastYearRightPrice s = 0 /\
    HistoricalFinaMainData s =
      match datacenter.QueryHistoricalFinaMainData dc (eastmoney.Secucode bi) with
      | OK hf => hf
      | Err _ => []
      end /\
    HistoricalPEList s =
      match datacenter.QueryHistoricalFinaMainData dc (eastmoney.Secucode bi),
            datacenter.QueryHistoricalPEList dc (eastmoney.Secucode bi) with
      | OK (_ :: _), OK pe => pe
      | _, _ => eastmoney.HistoricalPEList_zero
      end.
Proof.
  intros Hno. rewrite NewStock_joined.
  rewrite (finaTask_unfetched dc now bi _ Hno). cbn [bind].
  eexists. split; [reflexivity|]. repeat split.
Qed.

(** Scoring reads no field of the score. *)
Lemma calculateBuffettScore_withScore s b :
  calculateBuffettScore (withScore s b) = calculateBuffettScore s.
Proof. reflexivity. Qed.

(** X11: the score of a returned stock is the score of that stock: scoring
    it again gives the same eleven numbers. *)
Theorem NewStock_score_recomputed dc now bi s e :
  NewStock dc now bi = Done (s, e) ->
  Score s = calculateBuffettScore s.
Proof.
  intros Hs. destruct (NewStock_done _ _ _ _ _ Hs) as (fina & _ & -> & _).
  rewrite calculateBuffettScore_withScore. reflexivity.
Qed.

(** When the valuation block panics. *)
Lemma rightPrice_panics mid price g gl eps lyr blyr :
  (exists msg, rightPrice mid price g gl eps lyr blyr = Panic msg) <->
  dereferences_nil mid g eps lyr blyr.
Proof.
  unfold dereferences_nil, rightPrice. rewrite multiplier_code.
  unfold Spec.valid, Spec.reasonablePrice, Spec.capped, Spec.mean.
  unfold maxGrowthRate, sumFloat.
  destruct (3 <=? List.length eps)%nat eqn:Hlen; cbn [bind].
  - apply Nat.leb_le in Hlen.
    destruct (math.IsNaN _ || math.IsInf _ 0 || (_ <=? 0)) eqn:Hc.
    + destruct lyr as [r|]; cbn [deref bind].
      * split; [intros [msg H]; discriminate|].
        intros [[Hl _]|(_ & H & _)]; [lia|discriminate].
      * split; [|intros _; eexists; reflexivity].
        intros _. right. repeat split; assumption.
    + split; [intros [msg H]; discriminate|].
      intros [[Hl _]|(_ & _ & H)]; [lia|discriminate].
  - apply Nat.leb_gt in Hlen.
    destruct lyr as [r|]; cbn [deref bind].
    + destruct blyr as [r'|]; cbn [deref bind].
      * split.
        -- intros [msg H].
           destruct (math.IsNaN _ || math.IsInf _ 0 || (_ <=? 0)); discriminate.
        -- intros [[_ [H|H]]|(Hl & _)]; try discriminate. lia.
      * split; [|intros _; eexists; reflexivity].
        intros _. left. split; [assumption|right; reflexivity].
    + split; [|intros _; eexists; reflexivity].
      intros _. left. split; [assumption|left; reflexivity].
Qed.

(** X13: the call fails to return exactly when the valuation has its
    inputs and dereferences a nil report: fewer than three annual EPS
    values and one of the two annual reports of the window missing, or
    three values, a rejected price and no most recent annual report.  In
    every other case it returns. *)
Theorem NewStock_panics_iff dc now bi :
  (exists msg, NewStock dc now bi = Panic msg) <->
  (exists hf pe mid, fetched dc bi hf pe mid /\
     dereferences_nil mid
       (thisYearAvgRevIncrRatio (reportWindow hf (time.Year now)))
       (epsHistory hf)
       (lastYearReport (reportWindow hf (time.Year now)))
       (beforeLastYearReport (reportWindow hf (time.Year now)))).
Proof.
  rewrite NewStock_joined. split.
  - intros [msg H].
    assert (Hf : exists hf pe mid, fetched dc bi hf pe mid).
    { destruct (datacenter.QueryHistoricalFinaMainData dc (eastmoney.Secucode bi))
        as [hf|m] eqn:Hhf.
      - destruct hf as [|r hf].
        + unfold finaTask in H. rewrite Hhf in H. discriminate.
        + destruct (datacenter.QueryHistoricalPEList dc (eastmoney.Secucode bi))
            as [pe|m] eqn:Hpe.
          * destruct (eastmoney.GetMidValue pe) as [mid|m] eqn:Hmid.
            -- exists (r :: hf), pe, mid. repeat split; try assumption. discriminate.
            -- unfold finaTask in H. rewrite Hhf, Hpe, Hmid in H. discriminate.
          * unfold finaTask in H. rewrite Hhf, Hpe in H. discriminate.
      - unfold finaTask in H. rewrite Hhf in H. discriminate. }
    destruct Hf as (hf & pe & mid & Hf).
    exists hf, pe, mid. split; [assumption|].
    rewrite (finaTask_fetched _ now _ _ _ _ (currentPrice bi) Hf) in H.
    apply (rightPrice_panics mid (currentPrice bi) _
             (lastYearAvgRevIncrRatio (reportWindow hf (time.Year now)))).
    destruct (rightPrice _ _ _ _ _ _ _) as [v|m]; cbn [bind] in H;
      [discriminate|]. exists m. reflexivity.
  - intros (hf & pe & mid & Hf & Hnil).
    rewrite (finaTask_fetched _ now _ _ _ _ (currentPrice bi) Hf).
    apply (rightPrice_panics mid (currentPrice bi) _
             (lastYearAvgRevIncrRatio (reportWindow hf (time.Year now)))) in Hnil.
    destruct Hnil as [msg Hp]. rewrite Hp. exists msg. reflexivity.
Qed.

(** In either branch of the validation the gap belongs to the stored
    price. *)
Lemma rightPrice_gap mid price g gl eps lyr blyr v :
  rightPrice mid price g gl eps lyr blyr = Done v ->
  v_PriceSpace v = Spec.priceGap (v_RightPrice v) price.
Proof.
  intros Hv.
  destruct (rightPrice_inv _ _ _ _ _ _ _ _ Hv)
    as (b & lb & _ & _ & _ & _ & _ & _ & _ & Hvalid & Hinvalid).
  destruct (Spec.valid (computed v)) eqn:Hc.
  - destruct (Hvalid eq_refl) as [-> ->]. reflexivity.
  - destruct (Hinvalid eq_refl) as (r & _ & -> & ->). reflexivity.
Qed.

(** X3: the price gap of a returned stock is computed from its stored
    reasonable price and from the quote of [BaseInfo]; while the market is
    closed (the quote is a string) the price used is -1, because the price
    history is not loaded when the price is read. *)
Theorem PriceSpace_of_RightPrice dc now bi hf pe mid s e :
  fetched dc bi hf pe mid ->
  NewStock dc now bi = Done (s, e) ->
  PriceSpace s =
    Spec.priceGap (RightPrice s)
      match eastmoney.NewPrice bi with
      | eastmoney.AnyFloat p => p
      | eastmoney.AnyString _ => -1
      end.
Proof.
  intros Hf Hs.
  destruct (NewStock_valuation_inv _ now _ _ _ _ _ _ Hf Hs)
    as (v & Hv & -> & -> & _).
  rewrite (rightPrice_gap _ _ _ _ _ _ _ _ Hv).
  unfold currentPrice, GetPrice. cbn.
  destruct (eastmoney.NewPrice bi); reflexivity.
Qed.

(** X4: [GetPrice] on a returned stock is the quote when there is one,
    else the last price of the fetched price history, else -1 (no history:
    the query failed or the history is empty). *)
Theorem GetPrice_returned dc now bi s e :
  NewStock dc now bi = Done (s, e) ->
  GetPrice s =
    match eastmoney.NewPrice bi with
    | eastmoney.AnyFloat p => p
    | eastmoney.AnyString _ =>
        match datacenter.QueryHistoricalStockPrice dc (eastmoney.Secucode bi) with
        | OK hisPrice => last (eniu.Price hisPrice) (-1)
        | Err _ => -1
        end
    end.
Proof.
  intros Hs. destruct (NewStock_done _ _ _ _ _ Hs) as (fina & _ & -> & _).
  unfold GetPrice. cbn.
  destruct (eastmoney.NewPrice bi); [reflexivity|].
  unfold priceTask.
  destruct (datacenter.QueryHistoricalStockPrice dc (eastmoney.Secucode bi))
    as [hisPrice|m]; [|reflexivity].
  destruct (eniu.HistoricalVolatility hisPrice "YEAR"); cbn;
    destruct (eniu.Price hisPrice); reflexivity.
Qed.

Lemma finaTask_history dc now bi price fina :
  finaTask dc now bi price = Done fina ->
  f_HistoricalFinaMainData fina =
    match datacenter.QueryHistoricalFinaMainData dc (eastmoney.Secucode bi) with
    | OK hf => hf
    | Err _ => []
    end.
Proof.
  unfold finaTask.
  destruct (datacenter.QueryHistoricalFinaMainData dc (eastmoney.Secucode bi))
    as [hf|m]; [|intros H; injection H as <-; reflexivity].
  destruct hf as [|r hf]; [intros H; injection H as <-; reflexivity|].
  cbn [List.length Nat.eqb].
  destruct (datacenter.QueryHistoricalPEList dc (eastmoney.Secucode bi))
    as [pe|m]; [|intros H; injection H as <-; reflexivity].
  destruct (eastmoney.GetMidValue pe) as [mid|m];
    [|intros H; injection H as <-; reflexivity].
  destruct (rightPrice _ _ _ _ _ _ _) as [v|m]; cbn [bind];
    [|discriminate].
  intros H; injection H as <-; reflexivity.
Qed.

(** X5: a returned stock holds the fetched fundamentals history, also when
    the PE query or the median fails after it, and [GetOrgType] is the
    organisation type of its first report, the empty string when the
    history is empty or was not fetched. *)
Theorem GetOrgType_returned dc now bi s e :
  NewStock dc now bi = Done (s, e) ->
  HistoricalFinaMainData s =
    match datacenter.QueryHistoricalFinaMainData dc (eastmoney.Secucode bi) with
    | OK hf => hf
    | Err _ => []
    end /\
  GetOrgType s =
    match datacenter.QueryHistoricalFinaMainData dc (eastmoney.Secucode bi) with
    | OK (r :: _) => eastmoney.OrgType r
    | _ => ""%string
    end.
Proof.
  intros Hs. destruct (NewStock_done _ _ _ _ _ Hs) as (fina & Ht & -> & _).
  unfold GetOrgType. cbn.
  rewrite (finaTask_history _ _ _ _ _ Ht).
  split; [reflexivity|].
  destruct (datacenter.QueryHistoricalFinaMainData dc (eastmoney.Secucode bi))
    as [[|r hf]|m]; reflexivity.
Qed.
End Joined.

(** ** The sub-scores *)

Section SubScores.
Context {em : eastmoney.API} {en : eniu.API} {zs : zszx.API}.
Import models Sign.
Local Open Scope list_scope.
Local Open Scope float_scope.

(** X12: with at least three cash-flow reports the cash-flow sub-score is
    five points for each of the three most recent reports whose operating
    cash flow is positive; with fewer than three reports it is 0, whatever
    they contain. *)
Theorem calculateCashFlowScore_counts (s : Stock) :
  ((List.length (HistoricalCashflowList s) < 3)%nat -> calculateCashFlowScore s = 0) /\
  (forall a b c rest, HistoricalCashflowList s = a :: b :: c :: rest ->
     calculateCashFlowScore s =
       float64 (List.length
                  (filter (fun cf => 0 <? eastmoney.NetcashOperate cf) [a; b; c])) * 5).
Proof.
  unfold calculateCashFlowScore. split.
  - intros Hlen. apply Nat.ltb_lt in Hlen. rewrite Hlen. reflexivity.
  - intros a b c rest ->. cbn [List.length Nat.ltb Nat.leb firstn filter].
    destruct (0 <? eastmoney.NetcashOperate a),
             (0 <? eastmoney.NetcashOperate b),
             (0 <? eastmoney.NetcashOperate c); reflexivity.
Qed.

(** X7: when [ValueList] returns no more values than the five it is asked
    for, the profit-growth sub-score lies between 0 and 12: five annual
    profits give four comparisons of three points each, so the 15 points
    of the rubric are out of reach. *)
Theorem calculateProfitGrowthScore_range (s : Stock) :
  (List.length (eastmoney.ValueList (HistoricalFinaMainData s)
                  eastmoney.ValueListTypeNetProfit 5
                  eastmoney.FinaReportTypeYear) <= 5)%nat ->
  (0 <=? calculateProfitGrowthScore s) = true /\
  (calculateProfitGrowthScore s <=? 12) = true.
Proof.
  unfold calculateProfitGrowthScore. intros Hlen.
  destruct (List.length (HistoricalFinaMainData s) <? 5)%nat; [split; reflexivity|].
  destruct (eastmoney.ValueList _ _ _ _) as [|p0 [|p1 [|p2 [|p3 [|p4 [|p5 l]]]]]];
    try (split; reflexivity).
  - unfold profitGrowthLoop.
    cbn [List.length Nat.ltb Nat.leb Nat.sub seq fold_left at_ nth Nat.add].
    destruct (p1 <? p0), (p2 <? p1), (p3 <? p2), (p4 <? p3);
      match goal with
      | |- context [if ?c then _ else _] => destruct c
      end; split; reflexivity.
  - cbn [List.length] in Hlen. lia.
Qed.

(** X8: with five ROE values whose mean is below zero the ROE sub-score is
    (mean / 15) x 15 without the volatility penalty, however much the
    values vary, and it is never positive. *)
Theorem calculateROEScore_negative_mean (s : Stock) :
  let roeList :=
    eastmoney.ValueList (HistoricalFinaMainData s) eastmoney.ValueListTypeROE 5
      eastmoney.FinaReportTypeYear in
  let avgROE := sumFloat roeList / float64 (List.length roeList) in
  (5 <= List.length roeList)%nat ->
  (avgROE <? 0) = true ->
  calculateROEScore s = avgROE / 15 * 15 /\
  (0 <? calculateROEScore s) = false.
Proof.
  intros roeList avgROE Hlen Hneg.
  pose proof (ltb_zero_below _ Hneg) as Hbelow.
  assert (Hscore : calculateROEScore s = avgROE / 15 * 15).
  { unfold calculateROEScore. fold roeList.
    replace (List.length roeList =? 0)%nat with false
      by (symmetry; apply Nat.eqb_neq; lia).
    replace (List.length roeList <? 5)%nat with false
      by (symmetry; apply Nat.ltb_ge; lia).
    change (fold_left (fun sumROE roe => sumROE + roe) roeList 0
            / float64 (List.length roeList)) with avgROE.
    destruct (above_npos 20 avgROE eq_refl (below_npos _ Hbelow)) as [_ H20].
    destruct (above_npos 15 avgROE eq_refl (below_npos _ Hbelow)) as [_ H15].
    rewrite H20, H15.
    match goal with
    | |- (if 0.3 <? ?v then _ else _) = _ => assert (Hv : (0.3 <? v) = false)
    end.
    { apply above_npos; [reflexivity|].
      rewrite FloatAxioms.div_spec. apply div_nneg_below; [|assumption].
      unfold math.Sqrt. rewrite FloatAxioms.sqrt_spec. apply sqrt_nneg. }
    rewrite Hv. reflexivity. }
  split; [assumption|].
  rewrite Hscore. apply zero_npos. apply signbit_npos.
  rewrite FloatAxioms.mul_spec. apply mul_signbit_above; [|reflexivity].
  rewrite FloatAxioms.div_spec. apply div_below_above; [assumption|reflexivity].
Qed.

(** X9: the leverage sub-score never rises with the debt ratio: of two
    stocks, the one whose latest debt-to-asset ratio is not larger scores
    at least as much. *)
Theorem calculateDebtRatioScore_monotone (s1 s2 : Stock) r1 t1 r2 t2 :
  HistoricalFinaMainData s1 = r1 :: t1 ->
  HistoricalFinaMainData s2 = r2 :: t2 ->
  (eastmoney.Zcfzl r1 <=? eastmoney.Zcfzl r2) = true ->
  (calculateDebtRatioScore s2 <=? calculateDebtRatioScore s1) = true.
Proof.
  unfold calculateDebtRatioScore. intros -> -> Hle.
  pose proof (leb_ltb_trans _ _ 30 Hle) as H30.
  pose proof (leb_ltb_trans _ _ 50 Hle) as H50.
  pose proof (leb_ltb_trans _ _ 70 Hle) as H70.
  destruct (eastmoney.Zcfzl r2 <? 30);
    [rewrite (H30 eq_refl); reflexivity|].
  destruct (eastmoney.Zcfzl r2 <? 50).
  { rewrite (H50 eq_refl). destruct (eastmoney.Zcfzl r1 <? 30); reflexivity. }
  destruct (eastmoney.Zcfzl r2 <? 70).
  { rewrite (H70 eq_refl).
    destruct (eastmoney.Zcfzl r1 <? 30); [reflexivity|].
    destruct (eastmoney.Zcfzl r1 <? 50); reflexivity. }
  destruct (eastmoney.Zcfzl r1 <? 30); [reflexivity|].
  destruct (eastmoney.Zcfzl r1 <? 50); [reflexivity|].
  destruct (eastmoney.Zcfzl r1 <? 70); reflexivity.
Qed.

(** X10: for equal PEG the valuation sub-score never rises with the
    price/earnings ratio; and a PEG strictly between 0 and 1 gives the
    full 15 points whatever the price/earnings ratio. *)
Theorem calculateValuationScore_monotone (s1 s2 : Stock) :
  PEG s1 = PEG s2 ->
  (eastmoney.PE (BaseInfo s1) <=? eastmoney.PE (BaseInfo s2)) = true ->
  (calculateValuationScore s2 <=? calculateValuationScore s1) = true /\
  ((0 <? PEG s1) && (PEG s1 <? 1) = true -> calculateValuationScore s1 = 15).
Proof.
  unfold calculateValuationScore. intros <- Hle.
  pose proof (leb_ltb_trans _ _ 10 Hle) as H10.
  pose proof (leb_ltb_trans _ _ 15 Hle) as H15.
  pose proof (leb_ltb_trans _ _ 20 Hle) as H20.
  pose proof (leb_ltb_trans _ _ 30 Hle) as H30.
  split.
  - destruct ((0 <? PEG s1) && (PEG s1 <? 1));
      (destruct (eastmoney.PE (BaseInfo s2) <? 10);
       [rewrite (H10 eq_refl); reflexivity|]);
      (destruct (eastmoney.PE (BaseInfo s2) <? 15);
       [rewrite (H15 eq_refl);
        destruct (eastmoney.PE (BaseInfo s1) <? 10); reflexivity|]);
      (destruct (eastmoney.PE (BaseInfo s2) <? 20);
       [rewrite (H20 eq_refl);
        destruct (eastmoney.PE (BaseInfo s1) <? 10); [reflexivity|];
        destruct (eastmoney.PE (BaseInfo s1) <? 15); reflexivity|]);
      (destruct (eastmoney.PE (BaseInfo s2) <? 30);
       [rewrite (H30 eq_refl);
        destruct (eastmoney.PE (BaseInfo s1) <? 10); [reflexivity|];
        destruct (eastmoney.PE (BaseInfo s1) <? 15); [reflexivity|];
        destruct (eastmoney.PE (BaseInfo s1) <? 20); reflexivity|]);
      destruct (eastmoney.PE (BaseInfo s1) <? 10); try reflexivity;
      destruct (eastmoney.PE (BaseInfo s1) <? 15); try reflexivity;
      destruct (eastmoney.PE (BaseInfo s1) <? 20); try reflexivity;
      destruct (eastmoney.PE (BaseInfo s1) <? 30); reflexivity.
  - intros ->.
    destruct (eastmoney.PE (BaseInfo s1) <? 10); [reflexivity|].
    destruct (eastmoney.PE (BaseInfo s1) <? 15); [reflexivity|].
    destruct (eastmoney.PE (BaseInfo s1) <? 20); [reflexivity|].
    destruct (eastmoney.PE (BaseInfo s1) <? 30); reflexivity.
Qed.

(** X14: a stock built with a zero or negative three-year profit growth
    carries the PEG sentinel -1, which earns no PEG bonus: its valuation
    sub-score is the one of the price/earnings table alone, so below 15
    unless the price/earnings ratio is under 10. *)
Theorem NewStock_sentinel_no_bonus dc now bi s e :
  NewStock dc now bi = Done (s, e) ->
  (eastmoney.NetprofitGrowthrate3Y bi =? 0) = true \/
  (eastmoney.NetprofitGrowthrate3Y bi <? 0) = true ->
  PEG s = (-1) /\
  ValuationScore (Score s) =
    (if eastmoney.PE bi <? 10 then 15
     else if eastmoney.PE bi <? 15 then 12
     else if eastmoney.PE bi <? 20 then 8
     else if eastmoney.PE bi <? 30 then 5
     else 0) /\
  ((eastmoney.PE bi <? 10) = false -> (ValuationScore (Score s) <? 15) = true).
Proof.
  intros Hs Hg.
  destruct (NewStock_done _ _ _ _ _ Hs) as (fina & _ & -> & _).
  cbn [withScore Score PEG calculateBuffettScore ValuationScore].
  unfold calculateValuationScore. cbn [aggregate.joined PEG BaseInfo].
  assert (Hpeg : computePEG bi = (-1)).
  { unfold computePEG. destruct Hg as [-> | Hn]; [reflexivity|].
    rewrite Hn. destruct (_ =? 0); reflexivity. }
  rewrite Hpeg. split; [reflexivity|].
  change ((0 <? -1) && (-1 <? 1)) with false. cbv iota.
  split; [reflexivity|].
  intros ->.
  destruct (eastmoney.PE bi <? 15); [reflexivity|].
  destruct (eastmoney.PE bi <? 20); [reflexivity|].
  destruct (eastmoney.PE bi <? 30); reflexivity.
Qed.
End SubScores.

(** ** The position calculators of package [routes] *)

Section Positions.
Context {em : eastmoney.API} {en : eniu.API} {zs : zszx.API}.
Context {fields : routes.StockInfoFields} {platform : goint.Platform}.
Import routes.
Local Open Scope list_scope.
Local Open Scope float_scope.

Lemma calculateTargetPosition_zero (stock : models.Stock) (expect tech : Z) :
  (NetprofitYoyRatio (models.BaseInfo stock) =? 0) = true \/
  (1 <? eastmoney.PE (models.BaseInfo stock)
        / NetprofitYoyRatio (models.BaseInfo stock)) = true ->
  calculateTargetPosition stock expect tech = 0.
Proof.
  unfold calculateTargetPosition. intros [H|H].
  - rewrite H. reflexivity.
  - rewrite H. destruct (_ =? 0); reflexivity.
Qed.

(** X15: the target position is 0, or lies between 3 and 20, or is NaN (a
    NaN total score passes both clamps); it is 0 when the profit growth is
    0 and when PE / growth exceeds 1. *)
Theorem calculateTargetPosition_range (stock : models.Stock) (expect tech : Z) :
  let pe := eastmoney.PE (models.BaseInfo stock) in
  let growth := NetprofitYoyRatio (models.BaseInfo stock) in
  let target := calculateTargetPosition stock expect tech in
  (target = 0 \/ math.IsNaN target = true \/
   ((3 <=? target) = true /\ (target <=? 20) = true)) /\
  ((growth =? 0) = true \/ (1 <? pe / growth) = true -> target = 0).
Proof.
  intros pe growth target. subst target. unfold calculateTargetPosition.
  fold pe growth.
  destruct (growth =? 0) eqn:Hg; [split; auto|].
  destruct (1 <? pe / growth) eqn:Hpeg; [split; auto|].
  split; [|intros [H|H]; discriminate].
  match goal with
  | |- (if ?a <? 3 then _ else _) = 0 \/ _ => set (amount := a)
  end.
  destruct (amount <? 3) eqn:Hlow; [right; right; split; reflexivity|].
  destruct (20 <? amount) eqn:Hhigh; [right; right; split; reflexivity|].
  destruct (math.IsNaN amount) eqn:Hnan; [right; left; reflexivity|].
  right. right. split.
  - apply nlt_leb; [assumption|reflexivity|assumption].
  - apply nlt_leb; [reflexivity|assumption|assumption].
Qed.

(** X16: [CalculatePositionHandler] and [calculateTargetPosition] agree:
    for a stock with the PE, growth and total score of the request, the
    final amount of the answer is the target position (an absent
    technical rating counting as 2); when the growth is 0 the handler
    answers with an error where the helper returns 0. *)
Theorem CalculatePositionHandler_agrees (stock : models.Stock) (req : PositionRequest) :
  eastmoney.PE (models.BaseInfo stock) = PE req ->
  NetprofitYoyRatio (models.BaseInfo stock) = Growth req ->
  models.TotalScore (models.Score stock) = BuffettScore req ->
  let tech := if (Tech req =? 0)%Z then 2%Z else Tech req in
  match CalculatePositionHandler (OK req) with
  | OK res =>
      (Growth req =? 0) = false /\
      final_amount res = calculateTargetPosition stock (Expect req) tech /\
      routes.tech res = tech
  | Err _ =>
      (Growth req =? 0) = true /\
      calculateTargetPosition stock (Expect req) tech = 0
  end.
Proof.
  intros Hpe Hg Hb tech.
  unfold CalculatePositionHandler, calculateTargetPosition.
  rewrite Hpe, Hg, Hb. fold tech.
  destruct (Growth req =? 0); [split; reflexivity|].
  cbn [final_amount routes.tech]. repeat split.
Qed.

(** X17: the share count of an answer is a whole number of lots of 100
    shares; it is 0, like the final amount, when PE / growth exceeds 1,
    and 0 when the request carries no positive price. *)
Theorem share_count_lots (req : PositionRequest) (res : PositionResult) :
  CalculatePositionHandler (OK req) = OK res ->
  Z.rem (share_count res) 100 = 0%Z /\
  (is_peg_high res = true -> final_amount res = 0 /\ share_count res = 0%Z) /\
  ((0 <? CurrentPrice req) = false -> share_count res = 0%Z).
Proof.
  unfold CalculatePositionHandler.
  destruct (Growth req =? 0); [discriminate|].
  intros H. injection H as <-.
  cbn [share_count is_peg_high final_amount].
  split; [|split].
  - destruct ((0 <? CurrentPrice req) && _); [|reflexivity].
    apply Z.rem_mul. discriminate.
  - intros Hhigh. rewrite Hhigh. cbv beta iota.
    change (0 <? 0) with false. rewrite andb_false_r. split; reflexivity.
  - intros ->. reflexivity.
Qed.

(** One turn of the loop. *)
Lemma deviationStep_eq search results c t h :
  deviationStep search (results, c, t) h =
    match search (h_StockName h) with
    | OK (stock :: _) =>
        (results ++ [Analysed (deviationOf h stock)],
         c + d_current_amount (deviationOf h stock),
         t + d_target_amount (deviationOf h stock))
    | _ => (results ++ [LookupFailed (h_StockName h) (h_Shares h)], c, t)
    end.
Proof.
  unfold deviationStep.
  destruct (search (h_StockName h)) as [[|stock rest]|m]; reflexivity.
Qed.

(** The entries the loop produces. *)
Lemma deviation_loop_entries search hs results c t :
  fst (fst (fold_left (deviationStep search) hs (results, c, t)))
  = results ++ map (entryOf search) hs.
Proof.
  revert results c t. induction hs as [|h hs IH]; intros results c t.
  - cbn. rewrite app_nil_r. reflexivity.
  - cbn [fold_left map]. rewrite deviationStep_eq.
    assert (E : entryOf search h =
                match search (h_StockName h) with
                | OK (stock :: _) => Analysed (deviationOf h stock)
                | _ => LookupFailed (h_StockName h) (h_Shares h)
                end) by reflexivity.
    rewrite E.
    destruct (search (h_StockName h)) as [[|stock rest]|m];
      rewrite IH, <- app_assoc; reflexivity.
Qed.

(** The two totals depend on the holdings that were found only. *)
Lemma deviation_loop_totals search hs results results' c t :
  let totals (acc : list HoldingResult * float * float) :=
    (snd (fst acc), snd acc) in
  totals (fold_left (deviationStep search) hs (results, c, t))
  = totals (fold_left (deviationStep search) (filter (found search) hs)
              (results', c, t)).
Proof.
  intros totals. revert results results' c t.
  induction hs as [|h hs IH]; intros results results' c t.
  - reflexivity.
  - cbn [fold_left filter]. rewrite deviationStep_eq.
    assert (F : found search h =
                match search (h_StockName h) with
                | OK (_ :: _) => true
                | _ => false
                end) by reflexivity.
    rewrite F.
    destruct (search (h_StockName h)) as [[|stock rest]|m] eqn:Hs.
    + apply IH.
    + cbn [fold_left]. rewrite deviationStep_eq, Hs. apply IH.
    + apply IH.
Qed.

Lemma PositionDeviationHandler_entries_aux search hs results summary :
  PositionDeviationHandler search (OK hs) = OK (results, summary) ->
  results = map (entryOf search) hs /\
  (total_deviation_percent summary <? 0) = false.
Proof.
  unfold PositionDeviationHandler.
  destruct (List.length hs =? 0)%nat; [discriminate|].
  pose proof (deviation_loop_entries search hs [] 0 0) as He.
  destruct (fold_left (deviationStep search) hs ([], 0, 0)) as [[r c] t].
  cbn [fst app] in He. intros H. injection H as <- <-. subst r.
  split; [reflexivity|]. cbn [total_deviation_percent].
  destruct (0 <? t); [apply abs_not_below_zero|reflexivity].
Qed.

(** X18: the answer of [PositionDeviationHandler] has one entry per
    holding, in the order of the request, each with the name and the
    share count of its holding; a holding whose lookup fails keeps its
    entry, and [stock_count] counts every holding. *)
Theorem PositionDeviationHandler_entries search hs results summary :
  PositionDeviationHandler search (OK hs) = OK (results, summary) ->
  results = map (entryOf search) hs /\
  map name_of results = map h_StockName hs /\
  map shares_of results = map h_Shares hs /\
  stock_count summary = List.length hs.
Proof.
  unfold PositionDeviationHandler.
  destruct (List.length hs =? 0)%nat; [discriminate|].
  pose proof (deviation_loop_entries search hs [] 0 0) as He.
  destruct (fold_left (deviationStep search) hs ([], 0, 0)) as [[r c] t].
  cbn [fst app] in He. intros H. injection H as <- <-. subst r.
  rewrite !map_map. repeat split.
  - apply map_ext. intros h. unfold entryOf.
    destruct (search (h_StockName h)) as [[|stock rest]|m]; reflexivity.
  - apply map_ext. intros h. unfold entryOf.
    destruct (search (h_StockName h)) as [[|stock rest]|m]; reflexivity.
Qed.

(** X19: holdings whose lookup fails add nothing to the summary: the
    totals, their difference and the total deviation are those of the
    request without these holdings, and all of them are 0 when no holding
    is found. *)
Theorem PositionDeviationHandler_totals search hs results summary :
  PositionDeviationHandler search (OK hs) = OK (results, summary) ->
  (forall results' summary',
     PositionDeviationHandler search (OK (filter (found search) hs))
       = OK (results', summary') ->
     total_current_position summary' = total_current_position summary /\
     total_target_position summary' = total_target_position summary /\
     total_diff summary' = total_diff summary /\
     total_deviation_percent summary' = total_deviation_percent summary) /\
  (filter (found search) hs = [] ->
     total_current_position summary = 0 /\
     total_target_position summary = 0 /\
     total_deviation_percent summary = 0).
Proof.
  unfold PositionDeviationHandler.
  destruct (List.length hs =? 0)%nat; [discriminate|].
  pose proof (deviation_loop_totals search hs [] [] 0 0) as Ht.
  cbv zeta in Ht.
  destruct (fold_left (deviationStep search) hs ([], 0, 0)) as [[r c] t].
  intros H. injection H as <- <-. split.
  - intros results' summary'.
    destruct (List.length (filter (found search) hs) =? 0)%nat; [discriminate|].
    destruct (fold_left (deviationStep search) (filter (found search) hs) ([], 0, 0))
      as [[r' c'] t'].
    cbn [fst snd] in Ht. injection Ht as -> ->.
    intros H. injection H as <- <-. repeat split.
  - intros Hnone. rewrite Hnone in Ht. cbn in Ht. injection Ht as -> ->.
    repeat split.
Qed.

(** What the loop computes for one holding. *)
Lemma deviationOf_sound (h : Holding) (stock : models.Stock) :
  let d := deviationOf h stock in
  (d_deviation_percent d <? 0) = false /\
  (d_deviation_level d = "high"%string <-> (30 <? d_deviation_percent d) = true) /\
  (d_deviation_level d = "low"%string <->
     (30 <? d_deviation_percent d) = false /\ (15 <? d_deviation_percent d) = false) /\
  ((0 <? d_target_amount d) = false ->
     d_deviation_percent d = 0 /\ d_deviation_level d = "low"%string).
Proof.
  intros d. subst d. unfold deviationOf.
  cbn [d_deviation_percent d_deviation_level d_target_amount].
  set (target := calculateTargetPosition stock _ _).
  set (percent := if 0 <? target then _ else 0).
  split; [|split; [|split]].
  - subst percent. destruct (0 <? target); [apply abs_not_below_zero|reflexivity].
  - split; intros H.
    + destruct (30 <? percent); [reflexivity|].
      destruct (15 <? percent); discriminate H.
    + rewrite H. reflexivity.
  - split.
    + intros H. destruct (30 <? percent); [discriminate H|].
      destruct (15 <? percent); [discriminate H|]. split; reflexivity.
    + intros [H30 H15]. rewrite H30, H15. reflexivity.
  - intros Ht. subst percent. rewrite Ht. split; reflexivity.
Qed.

(** X20: in every answer of [PositionDeviationHandler] the deviation of an
    entry is never below zero, its level is ["high"] exactly when the
    deviation exceeds 30, ["low"] exactly when it exceeds neither 30 nor 15
    (a NaN deviation included), and an entry whose target amount is not
    positive has deviation 0 and level ["low"]; the total deviation is
    never below zero either. *)
Theorem PositionDeviationHandler_levels search hs results summary :
  PositionDeviationHandler search (OK hs) = OK (results, summary) ->
  Forall (fun entry =>
            match entry with
            | LookupFailed _ _ => True
            | Analysed d =>
                (d_deviation_percent d <? 0) = false /\
                (d_deviation_level d = "high"%string <->
                   (30 <? d_deviation_percent d) = true) /\
                (d_deviation_level d = "low"%string <->
                   (30 <? d_deviation_percent d) = false /\
                   (15 <? d_deviation_percent d) = false) /\
                ((0 <? d_target_amount d) = false ->
                   d_deviation_percent d = 0 /\ d_deviation_level d = "low"%string)
            end) results /\
  (total_deviation_percent summary <? 0) = false.
Proof.
  intros H.
  destruct (PositionDeviationHandler_entries_aux search hs results summary H) as [-> Hdev].
  split; [|assumption].
  apply Forall_forall. intros entry Hin.
  apply in_map_iff in Hin. destruct Hin as (h & <- & _).
  unfold entryOf.
  destruct (search (h_StockName h)) as [[|stock rest]|m]; try exact I.
  apply deviationOf_sound.
Qed.

(** X21: a holding of a stock whose profit growth is 0 or whose
    PE / growth exceeds 1 has target amount 0, and its entry reports
    deviation 0 and level ["low"], however many shares are held. *)
Theorem overvalued_holding_reported_low search hs results summary h stock rest :
  PositionDeviationHandler search (OK hs) = OK (results, summary) ->
  In h hs ->
  search (h_StockName h) = OK (stock :: rest) ->
  (NetprofitYoyRatio (models.BaseInfo stock) =? 0) = true \/
  (1 <? eastmoney.PE (models.BaseInfo stock)
        / NetprofitYoyRatio (models.BaseInfo stock)) = true ->
  exists d, In (Analysed d) results /\
    d_stock_name d = h_StockName h /\ d_shares d = h_Shares h /\
    d_target_amount d = 0 /\ d_deviation_percent d = 0 /\
    d_deviation_level d = "low"%string.
Proof.
  intros H Hin Hs Hover.
  destruct (PositionDeviationHandler_entries_aux search hs results summary H) as [-> _].
  exists (deviationOf h stock).
  assert (Ht : d_target_amount (deviationOf h stock) = 0).
  { unfold deviationOf. cbn [d_target_amount].
    apply calculateTargetPosition_zero. assumption. }
  split.
  - apply in_map_iff. exists h. split; [|assumption].
    unfold entryOf. rewrite Hs. reflexivity.
  - split; [reflexivity|]. split; [reflexivity|]. split; [assumption|].
    destruct (deviationOf_sound h stock) as (_ & _ & _ & Hlow).
    apply Hlow. rewrite Ht. reflexivity.
Qed.
End Positions.

(** ** The further results on concrete invocations *)

Section MoreInvocations.
Import Demo Examples Requests models aggregate routes.
Local Open Scope list_scope.
Local Open Scope float_scope.

(** The cash-flow provider times out; the rest of the stock is built. *)
Lemma NewStock_failed_fetch_witness :
  let dc := clients (OK growing) (OK [15; 14; 20]) (Err "timeout") in
  NewStock dc now bank = Done (returned (NewStock dc now bank), None) /\
  HistoricalCashflowList (returned (NewStock dc now bank)) = [] /\
  NetcashFree (returned (NewStock dc now bank)) = 0.
Proof.
  intros dc.
  assert (Hrun : NewStock dc now bank = Done (returned (NewStock dc now bank), None))
    by evaluate.
  split; [exact Hrun|].
  destruct (NewStock_failed_fetch dc now bank _ None Hrun)
    as (_ & _ & _ & _ & _ & _ & _ & _ & Hcash & _).
  destruct (Hcash "timeout" eq_refl) as (Hl & _ & _ & _ & Hfree).
  split; [exact Hl | exact Hfree].
Defined.

(** The PE provider times out after the fundamentals were fetched. *)
Lemma NewStock_valuation_skipped_witness :
  exists s,
    NewStock (clients (OK growing) (Err "timeout") (OK cashflows)) now bank
      = Done (s, None) /\
    RightPrice s = 0 /\ PriceSpace s = 0 /\ LastYearRightPrice s = 0 /\
    HistoricalFinaMainData s = growing /\
    HistoricalPEList s = eastmoney.HistoricalPEList_zero.
Proof.
  apply (NewStock_valuation_skipped
           (clients (OK growing) (Err "timeout") (OK cashflows)) now bank).
  intros hf pe mid (_ & _ & Hpe & _). discriminate Hpe.
Defined.

(** The score stored by a run on five rising years. *)
Lemma NewStock_score_recomputed_witness :
  Score (returned (run thriving)) = calculateBuffettScore (returned (run thriving)) /\
  TotalScore (Score (returned (run thriving))) = 85.5.
Proof.
  split; [|evaluate].
  apply (NewStock_score_recomputed (dc thriving) now bank _ None). evaluate.
Defined.

(** A single annual report: the call does not return. *)
Lemma NewStock_panics_iff_witness :
  exists msg, NewStock (dc young) now bank = Panic msg.
Proof.
  apply (proj2 (NewStock_panics_iff (dc young) now bank)).
  exists young, [15; 14; 20], 15. split; [apply dc_fetched; discriminate|].
  left. split; [vm_compute; lia|]. right. reflexivity.
Defined.

(** The gap of the run on [growing], from the stored price and the quote 25. *)
Lemma PriceSpace_of_RightPrice_witness :
  PriceSpace (returned (run growing)) =
    Spec.priceGap (RightPrice (returned (run growing))) 25.
Proof.
  apply (PriceSpace_of_RightPrice (dc growing) now bank growing [15; 14; 20] 15 _ None).
  - apply dc_fetched. discriminate.
  - evaluate.
Defined.

(** A quoted security: the price is the quote. *)
Lemma GetPrice_returned_witness :
  GetPrice (returned (run growing)) = 25.
Proof.
  apply (GetPrice_returned (dc growing) now bank _ None). evaluate.
Defined.

(** The organisation type of the newest report of [growing]. *)
Lemma GetOrgType_returned_witness :
  HistoricalFinaMainData (returned (run growing)) = growing /\
  GetOrgType (returned (run growing)) = "4"%string.
Proof.
  apply (GetOrgType_returned (dc growing) now bank _ None). evaluate.
Defined.

(** Two cash-flow reports score 0; of three, the two positive ones count. *)
Lemma calculateCashFlowScore_counts_witness :
  calculateCashFlowScore (returned (run growing)) = 0 /\
  let cf := fun v => {| eastmoney.NetcashOperate := v; eastmoney.NetcashInvest := 0;
                        eastmoney.NetcashFinance := 0 |} in
  let dc := clients (OK growing) (OK [15; 14; 20]) (OK [cf 3; cf (-1); cf 2; cf 9]) in
  calculateCashFlowScore (returned (NewStock dc now bank)) = 10.
Proof.
  split.
  - apply (proj1 (calculateCashFlowScore_counts (returned (run growing)))).
    vm_compute. lia.
  - intros cf dc.
    assert (Hl : HistoricalCashflowList (returned (NewStock dc now bank))
                 = [cf 3; cf (-1); cf 2; cf 9]) by evaluate.
    rewrite (proj2 (calculateCashFlowScore_counts (returned (NewStock dc now bank)))
               (cf 3) (cf (-1)) (cf 2) [cf 9] Hl).
    evaluate.
Defined.

(** Five rising years: four comparisons, 12 points. *)
Lemma calculateProfitGrowthScore_range_witness :
  (0 <=? calculateProfitGrowthScore (returned (run thriving))) = true /\
  (calculateProfitGrowthScore (returned (run thriving)) <=? 12) = true.
Proof.
  apply (calculateProfitGrowthScore_range (returned (run thriving))).
  vm_compute. lia.
Defined.

(** Five years of return on equity -10. *)
Lemma calculateROEScore_negative_mean_witness :
  calculateROEScore (returned (run losing)) = (-10) / 15 * 15 /\
  (0 <? calculateROEScore (returned (run losing))) = false.
Proof.
  apply (calculateROEScore_negative_mean (returned (run losing))).
  - vm_compute. lia.
  - evaluate.
Defined.

(** A debt ratio of 25 against one of 40: 10 points against 8. *)
Lemma calculateDebtRatioScore_monotone_witness :
  let lean := {| year := 2026; kind := Q3; epsjb := 0.5; roejq := 4; zcfzl := 25;
                 netprofit := 500000; revenueGrowth := 10; orgType := "4" |} in
  let s1 := returned (run (lean :: tl growing)) in
  let s2 := returned (run growing) in
  (calculateDebtRatioScore s2 <=? calculateDebtRatioScore s1) = true /\
  calculateDebtRatioScore s1 = 10 /\ calculateDebtRatioScore s2 = 8.
Proof.
  intros lean s1 s2. split; [|split; evaluate].
  apply (calculateDebtRatioScore_monotone s1 s2 lean (tl growing)
           (quarter 2026 10) (tl growing)); evaluate.
Defined.

(** Price/earnings 8 against 9 at equal PEG. *)
Lemma calculateValuationScore_monotone_witness :
  (calculateValuationScore tied2 <=? calculateValuationScore tied1) = true.
Proof.
  apply (calculateValuationScore_monotone tied1 tied2); evaluate.
Defined.

(** Profits shrank by 3 percent over three years; price/earnings 12. *)
Lemma NewStock_sentinel_no_bonus_witness :
  let s := returned (NewStock (dc growing) now (info "600000.SH" 25 12 (-3) 10)) in
  PEG s = (-1) /\ ValuationScore (Score s) = 12 /\
  (ValuationScore (Score s) <? 15) = true.
Proof.
  intros s.
  assert (Hrun : NewStock (dc growing) now (info "600000.SH" 25 12 (-3) 10)
                 = Done (s, None)) by evaluate.
  assert (Hneg : (eastmoney.NetprofitGrowthrate3Y (info "600000.SH" 25 12 (-3) 10) <? 0)
                 = true) by evaluate.
  destruct (NewStock_sentinel_no_bonus (dc growing) now
              (info "600000.SH" 25 12 (-3) 10) s None Hrun (or_intror Hneg))
    as (Hpeg & Hv & Hlt).
  split; [exact Hpeg|]. split; [exact Hv|]. apply Hlt. evaluate.
Defined.

(** Price/earnings 8 over a growth of 5: no position. *)
Lemma calculateTargetPosition_range_witness :
  calculateTargetPosition tied1 4 2 = 0.
Proof.
  apply (proj2 (calculateTargetPosition_range tied1 4 2)). right. evaluate.
Defined.

(** The request for the stock of the run on [growing]. *)
Lemma CalculatePositionHandler_agrees_witness :
  exists res, CalculatePositionHandler (OK request) = OK res /\
    final_amount res = calculateTargetPosition other 4 2 /\
    routes.tech res = 2%Z.
Proof.
  assert (H1 : eastmoney.PE (BaseInfo other) = PE request) by evaluate.
  assert (H2 : NetprofitYoyRatio (BaseInfo other) = Growth request) by evaluate.
  assert (H3 : TotalScore (Score other) = routes.BuffettScore request) by evaluate.
  pose proof (CalculatePositionHandler_agrees other request H1 H2 H3) as H.
  cbv zeta in H.
  destruct (CalculatePositionHandler (OK request)) as [res|m].
  - exists res. split; [reflexivity|].
    destruct H as (_ & Ha & Ht). split; [exact Ha | exact Ht].
  - destruct H as (Hg & _). vm_compute in Hg. discriminate Hg.
Defined.

(** 15.869 percent of 1,000,000 at a price of 25: 63 lots. *)
Lemma share_count_lots_witness :
  exists res, CalculatePositionHandler (OK request) = OK res /\
    share_count res = 6300%Z /\ Z.rem (share_count res) 100 = 0%Z.
Proof.
  eexists. split; [evaluate|]. split; [reflexivity|].
  refine (proj1 (share_count_lots request _ _)). evaluate.
Defined.

(** Three holdings, the second unknown to the searcher. *)
Lemma PositionDeviationHandler_entries_witness :
  exists results summary,
    PositionDeviationHandler search (OK holdings) = OK (results, summary) /\
    map name_of results = ["600000.SH"; "999999.XX"; "000001.SZ"]%string /\
    map shares_of results = [3000; 100; 500]%Z /\
    stock_count summary = 3%nat.
Proof.
  eexists. eexists. split; [evaluate|].
  match goal with
  | |- map name_of ?r = _ /\ _ /\ stock_count ?s = _ =>
      assert (E : PositionDeviationHandler search (OK holdings) = OK (r, s)) by evaluate;
      destruct (PositionDeviationHandler_entries search holdings r s E)
        as (_ & Hn & Hs & Hc)
  end.
  split; [exact Hn|]. split; [exact Hs | exact Hc].
Defined.

(** Without the unknown holding the totals are the same: 8 held, 15.869
    targeted. *)
Lemma PositionDeviationHandler_totals_witness :
  exists results summary results' summary',
    PositionDeviationHandler search (OK holdings) = OK (results, summary) /\
    PositionDeviationHandler search (OK (filter (found search) holdings))
      = OK (results', summary') /\
    List.length results = 3%nat /\ List.length results' = 2%nat /\
    total_current_position summary = 8 /\
    total_current_position summary' = total_current_position summary /\
    total_target_position summary' = total_target_position summary /\
    total_diff summary' = total_diff summary /\
    total_deviation_percent summary' = total_deviation_percent summary.
Proof.
  do 4 eexists. split; [evaluate|]. split; [evaluate|].
  split; [reflexivity|]. split; [reflexivity|]. split; [reflexivity|].
  match goal with
  | |- total_current_position ?s' = total_current_position ?s /\ _ =>
      assert (E : exists r, PositionDeviationHandler search (OK holdings) = OK (r, s))
        by (eexists; evaluate);
      assert (E' : exists r', PositionDeviationHandler search
                                (OK (filter (found search) holdings)) = OK (r', s'))
        by (eexists; evaluate)
  end.
  destruct E as [r E]. destruct E' as [r' E'].
  exact (proj1 (PositionDeviationHandler_totals search holdings r _ E) r' _ E').
Defined.

(** The deviations of the answer: 52.7 percent is high, 0 is low. *)
Lemma PositionDeviationHandler_levels_witness :
  exists results summary,
    PositionDeviationHandler search (OK holdings) = OK (results, summary) /\
    Forall (fun entry =>
              match entry with
              | LookupFailed _ _ => True
              | Analysed d =>
                  (d_deviation_percent d <? 0) = false /\
                  (d_deviation_level d = "high"%string <->
                     (30 <? d_deviation_percent d) = true)
              end) results /\
    (total_deviation_percent summary <? 0) = false.
Proof.
  eexists. eexists. split; [evaluate|].
  match goal with
  | |- Forall _ ?r /\ (total_deviation_percent ?s <? 0) = false =>
      assert (E : PositionDeviationHandler search (OK holdings) = OK (r, s)) by evaluate;
      destruct (PositionDeviationHandler_levels search holdings r s E) as (Hall & Htot)
  end.
  split; [|exact Htot].
  refine (Forall_impl _ _ Hall). intros [name msg|d]; [trivial|].
  intros (H0 & Hhigh & _). split; [exact H0 | exact Hhigh].
Defined.

(** The third holding: price/earnings 8 over a growth of 5. *)
Lemma overvalued_holding_reported_low_witness :
  exists results summary d,
    PositionDeviationHandler search (OK holdings) = OK (results, summary) /\
    In (Analysed d) results /\
    d_stock_name d = "000001.SZ"%string /\ d_shares d = 500%Z /\
    d_target_amount d = 0 /\ d_deviation_percent d = 0 /\
    d_deviation_level d = "low"%string.
Proof.
  eexists. eexists.
  match goal with
  | |- exists d, _ = OK (?r, ?s) /\ _ =>
      assert (E : PositionDeviationHandler search (OK holdings) = OK (r, s)) by evaluate;
      destruct (overvalued_holding_reported_low search holdings r s
                  {| h_StockName := "000001.SZ"; h_Shares := 500;
                     h_Expect := 0; h_Tech := 0 |} tied1 [] E)
        as (d & Hd)
  end.
  - right. right. left. reflexivity.
  - reflexivity.
  - right. evaluate.
  - exists d. split; [assumption | exact Hd].
Defined.
End MoreInvocations.
